(** * CinderOculus: the stereo frame lifecycle of [hmd::OculusRift]

    A shallow embedding of [CinderOculus.cpp]: the session object
    [OculusRift], the host windows and renderers it hooks into, the
    tracking device it drives, and the per-frame protocol
    [startDrawFn] / [bind] / [enableEye] / [unbind] / [finishDrawFn],
    followed by the properties of the written specification. *)

From Stdlib Require Import ZArith Bool List String Lia.
From Stdlib Require Import Floats.SpecFloat.
From stdpp Require Import gmap.
Import ListNotations.

Local Open Scope Z_scope.

(** ** Single-precision floats

    The C++ type [float] is IEEE-754 binary32: 24 bits of mantissa,
    infinities at exponent 128.  [spec_float] carries the arithmetic,
    rounding to nearest even, signed zeros, infinities and NaN. *)

Definition float : Type := spec_float.

Definition prec32 : Z := 24.
Definition emax32 : Z := 128.

Definition fadd : float -> float -> float := SFadd prec32 emax32.
Definition fsub : float -> float -> float := SFsub prec32 emax32.
Definition fmul : float -> float -> float := SFmul prec32 emax32.
Definition fdiv : float -> float -> float := SFdiv prec32 emax32.
Definition fsqrt : float -> float := SFsqrt prec32 emax32.
Definition fneg : float -> float := SFopp.

(** [a == b], [a != b] and [a > b] on floats: [-0 == +0], and a NaN
    compares unequal to everything and is not greater than anything. *)
Definition feqb (a b : float) : bool := SFeqb a b.
Definition fneqb (a b : float) : bool := negb (SFeqb a b).
Definition fgtb (a b : float) : bool := SFltb b a.

(** The conversion [int -> float] of a literal such as [0] or [1]. *)
Definition float_of_int (z : Z) : float := binary_normalize prec32 emax32 z 0 false.

Definition f0 : float := float_of_int 0.
Definition f1 : float := float_of_int 1.
Definition f2 : float := float_of_int 2.
(** The literal [0.5f]. *)
Definition f0_5 : float := binary_normalize prec32 emax32 1 (-1) false.

Declare Scope f32_scope.
Delimit Scope f32_scope with f32.
Infix "+" := fadd : f32_scope.
Infix "-" := fsub : f32_scope.
Infix "*" := fmul : f32_scope.
Infix "/" := fdiv : f32_scope.
Notation "- x" := (fneg x) : f32_scope.

(** ** The part of glm the session uses

    Matrices are column-major: [m_c0 .. m_c3] are the columns [m[0] ..
    m[3]] and [m[c][r]] is component [r] of column [c].  The functions
    follow glm's scalar implementation, each operation rounded to
    [float]. *)

Module glm.

Record vec3 := mkvec3 { x3 : float; y3 : float; z3 : float }.
Record vec4 := mkvec4 { x4 : float; y4 : float; z4 : float; w4 : float }.
(** [quat(w, x, y, z)] *)
Record quat := mkquat { qw : float; qx : float; qy : float; qz : float }.
Record mat4 := mkmat4 { m_c0 : vec4; m_c1 : vec4; m_c2 : vec4; m_c3 : vec4 }.
Record ivec2 := mkivec2 { ix : Z; iy : Z }.

Local Open Scope f32_scope.

(** [vec3( s )] *)
Definition vec3_splat (s : float) : vec3 := mkvec3 s s s.
(** [vec3( v4 )] drops [w]; [vec4( v3, w )] appends it. *)
Definition vec3_of_vec4 (v : vec4) : vec3 := mkvec3 (x4 v) (y4 v) (z4 v).
Definition vec4_of_vec3 (v : vec3) (w : float) : vec4 := mkvec4 (x3 v) (y3 v) (z3 v) w.

Definition vec3_add (a b : vec3) : vec3 :=
  mkvec3 (x3 a + x3 b) (y3 a + y3 b) (z3 a + z3 b).
Definition vec3_sub (a b : vec3) : vec3 :=
  mkvec3 (x3 a - x3 b) (y3 a - y3 b) (z3 a - z3 b).
Definition vec3_scale (a : vec3) (s : float) : vec3 :=
  mkvec3 (x3 a * s) (y3 a * s) (z3 a * s).

Definition vec4_add (a b : vec4) : vec4 :=
  mkvec4 (x4 a + x4 b) (y4 a + y4 b) (z4 a + z4 b) (w4 a + w4 b).
Definition vec4_scale (a : vec4) (s : float) : vec4 :=
  mkvec4 (x4 a * s) (y4 a * s) (z4 a * s) (w4 a * s).

Definition dot (a b : vec3) : float :=
  (x3 a * x3 b + y3 a * y3 b) + z3 a * z3 b.

Definition cross (a b : vec3) : vec3 :=
  mkvec3 (y3 a * z3 b - y3 b * z3 a)
         (z3 a * x3 b - z3 b * x3 a)
         (x3 a * y3 b - x3 b * y3 a).

Definition inversesqrt (s : float) : float := f1 / fsqrt s.

Definition normalize (a : vec3) : vec3 := vec3_scale a (inversesqrt (dot a a)).

(** [mat4()] and [mat4( 1 )] *)
Definition identity : mat4 :=
  mkmat4 (mkvec4 f1 f0 f0 f0) (mkvec4 f0 f1 f0 f0)
         (mkvec4 f0 f0 f1 f0) (mkvec4 f0 f0 f0 f1).

(** [m * v] *)
Definition mat4_mul_vec4 (m : mat4) (v : vec4) : vec4 :=
  vec4_add (vec4_add (vec4_scale (m_c0 m) (x4 v)) (vec4_scale (m_c1 m) (y4 v)))
           (vec4_add (vec4_scale (m_c2 m) (z4 v)) (vec4_scale (m_c3 m) (w4 v))).

(** One column of [a * b]. *)
Definition mat4_mul_col (a : mat4) (b : vec4) : vec4 :=
  vec4_add (vec4_add (vec4_add (vec4_scale (m_c0 a) (x4 b)) (vec4_scale (m_c1 a) (y4 b)))
                     (vec4_scale (m_c2 a) (z4 b)))
           (vec4_scale (m_c3 a) (w4 b)).

(** [a * b] *)
Definition mat4_mul (a b : mat4) : mat4 :=
  mkmat4 (mat4_mul_col a (m_c0 b)) (mat4_mul_col a (m_c1 b))
         (mat4_mul_col a (m_c2 b)) (mat4_mul_col a (m_c3 b)).

(** [glm::toMat4( q )] *)
Definition toMat4 (q : quat) : mat4 :=
  let qxx := qx q * qx q in
  let qyy := qy q * qy q in
  let qzz := qz q * qz q in
  let qxz := qx q * qz q in
  let qxy := qx q * qy q in
  let qyz := qy q * qz q in
  let qwx := qw q * qx q in
  let qwy := qw q * qy q in
  let qwz := qw q * qz q in
  mkmat4
    (mkvec4 (f1 - f2 * (qyy + qzz)) (f2 * (qxy + qwz)) (f2 * (qxz - qwy)) f0)
    (mkvec4 (f2 * (qxy - qwz)) (f1 - f2 * (qxx + qzz)) (f2 * (qyz + qwx)) f0)
    (mkvec4 (f2 * (qxz + qwy)) (f2 * (qyz - qwx)) (f1 - f2 * (qxx + qyy)) f0)
    (mkvec4 f0 f0 f0 f1).

(** [glm::lookAt( eye, center, up )], right-handed. *)
Definition lookAt (eye center up : vec3) : mat4 :=
  let f := normalize (vec3_sub center eye) in
  let s := normalize (cross f up) in
  let u := cross s f in
  mkmat4
    (mkvec4 (x3 s) (x3 u) (- x3 f) f0)
    (mkvec4 (y3 s) (y3 u) (- y3 f) f0)
    (mkvec4 (z3 s) (z3 u) (- z3 f) f0)
    (mkvec4 (- dot s eye) (- dot u eye) (dot f eye) f1).

(** [glm::scale( v )]: the identity with its first three columns
    scaled. *)
Definition scale (v : vec3) : mat4 :=
  mkmat4 (vec4_scale (m_c0 identity) (x3 v))
         (vec4_scale (m_c1 identity) (y3 v))
         (vec4_scale (m_c2 identity) (z3 v))
         (m_c3 identity).

(** [a == b] on vectors and matrices: every component compared with
    the [==] of [float]. *)
Definition vec3_eqb (a b : vec3) : bool :=
  feqb (x3 a) (x3 b) && feqb (y3 a) (y3 b) && feqb (z3 a) (z3 b).
Definition vec4_eqb (a b : vec4) : bool :=
  feqb (x4 a) (x4 b) && feqb (y4 a) (y4 b) && feqb (z4 a) (z4 b) && feqb (w4 a) (w4 b).
Definition mat4_eqb (a b : mat4) : bool :=
  vec4_eqb (m_c0 a) (m_c0 b) && vec4_eqb (m_c1 a) (m_c1 b)
  && vec4_eqb (m_c2 a) (m_c2 b) && vec4_eqb (m_c3 a) (m_c3 b).

(** [a != b] on [ivec2]. *)
Definition ivec2_neqb (a b : ivec2) : bool :=
  negb (Z.eqb (ix a) (ix b) && Z.eqb (iy a) (iy b)).

(** The identity rotation [quat()]. *)
Definition quat_identity : quat := mkquat f1 f0 f0 f0.

End glm.

(** ** [int]

    A C++ [int] is a 32-bit two's-complement integer, held in [Z].
    [int_wrap] brings the mathematical result of an operation back
    into [[int_min, int_max]], which is what the compiled library
    does when an addition leaves the range (the language itself
    leaves signed overflow undefined); on results inside the range
    it is the identity. *)
Definition int_min : Z := - 2 ^ 31.
Definition int_max : Z := 2 ^ 31 - 1.

Definition int_wrap (z : Z) : Z := (z + 2 ^ 31) mod 2 ^ 32 - 2 ^ 31.

(** [a + b] on [int]. *)
Definition int_add (a b : Z) : Z := int_wrap (a + b).

(** ** Data of the vendor SDK (OVR_CAPI) *)

(** [ovrEye_Left = 0], [ovrEye_Right = 1], [ovrEye_Count = 2]. *)
Inductive ovrEyeType : Type := ovrEye_Left | ovrEye_Right.

Definition int_of_eye (e : ovrEyeType) : Z :=
  match e with ovrEye_Left => 0 | ovrEye_Right => 1 end.

(** An array [T a[ovrEye_Count]]: element 0 and element 1. *)
Definition array2 (T : Type) : Type := (T * T)%type.

Definition nth2 {T : Type} (a : array2 T) (e : ovrEyeType) : T :=
  match e with ovrEye_Left => fst a | ovrEye_Right => snd a end.

Definition upd2 {T : Type} (a : array2 T) (e : ovrEyeType) (v : T) : array2 T :=
  match e with ovrEye_Left => (v, snd a) | ovrEye_Right => (fst a, v) end.

(** [a[i]] for an [int i]: outside [0, 2) the access is undefined. *)
Definition index2 (i : Z) : option ovrEyeType :=
  if Z.eqb i 0 then Some ovrEye_Left
  else if Z.eqb i 1 then Some ovrEye_Right
  else None.

Record ovrVector3f := mkVector3f { v_x : float; v_y : float; v_z : float }.
Record ovrQuatf := mkQuatf { q_x : float; q_y : float; q_z : float; q_w : float }.
Record ovrPosef := mkPosef { Orientation : ovrQuatf; Position : ovrVector3f }.
Record ovrFovPort := mkFovPort
  { UpTan : float; DownTan : float; LeftTan : float; RightTan : float }.
Record ovrSizei := mkSizei { sz_w : Z; sz_h : Z }.
Record ovrVector2i := mkVector2i { p_x : Z; p_y : Z }.
Record ovrRecti := mkRecti { Pos : ovrVector2i; Size : ovrSizei }.
(** Row-major: [M_r0 .. M_r3] are the rows [M[0] .. M[3]]. *)
Record ovrMatrix4f := mkMatrix4f
  { M_r0 : glm.vec4; M_r1 : glm.vec4; M_r2 : glm.vec4; M_r3 : glm.vec4 }.

Record ovrEyeRenderDesc := mkEyeRenderDesc
  { Eye : ovrEyeType; Fov : ovrFovPort; HmdToEyeViewOffset : ovrVector3f }.

(** What [mHmd->...] reads: the description behind a device handle. *)
Record ovrHmdDesc := mkHmdDesc
  { EyeRenderOrder : array2 ovrEyeType;
    DefaultEyeFov : array2 ovrFovPort;
    Resolution : ovrSizei }.

Record ovrTrackingState := mkTrackingState
  { HeadPose : ovrPosef; StatusFlags : Z }.

Record ovrSwapTextureSet := mkSwapTextureSet
  { TextureCount : Z; CurrentIndex : Z }.

Record ovrLayerHeader := mkLayerHeader { Type_ : Z; Flags : Z }.

(** [ColorTexture] holds pointers to a swap texture set: the number of
    the set pointed to, [None] for a null pointer. *)
Record ovrLayerEyeFov := mkLayerEyeFov
  { Header : ovrLayerHeader;
    ColorTexture : array2 (option nat);
    Viewport : array2 ovrRecti;
    LayerFov : array2 ovrFovPort;
    RenderPose : array2 ovrPosef }.

Record ovrViewScaleDesc := mkViewScaleDesc
  { ViewScale_HmdToEyeViewOffset : array2 ovrVector3f;
    HmdSpaceToWorldScaleInMeters : float }.

Definition ovrResult : Type := Z.

(** [OVR_SUCCESS( result )]: the SDK's success codes are the
    non-negative ones ([ovrSuccess = 0], [ovrSuccess_NotVisible] > 0). *)
Definition OVR_SUCCESS (result : ovrResult) : bool := Z.leb 0 result.

(** The moments at which the session asks for the tracking state:
    [ovr_GetTimeInSeconds()] in [isTracked], the predicted
    [DisplayMidpointSeconds] in [startDrawFn]. *)
Inductive ovrTime : Type := ovr_Now | ovr_DisplayMidpoint.

(** The calls made on the device handle, in the order they are made. *)
Inductive ovrCall : Type :=
| Call_SetEnabledCaps (caps : Z)
| Call_ConfigureTracking (caps : Z)
| Call_GetFovTextureSize (eye : ovrEyeType) (pixelsPerDisplayPixel : float)
| Call_GetRenderDesc (eye : ovrEyeType)
| Call_CreateSwapTextureSet (size : glm.ivec2)
| Call_GetFrameTiming
| Call_GetTrackingState (at_time : ovrTime)
| Call_SubmitFrame (viewScale : ovrViewScaleDesc) (layer : ovrLayerEyeFov)
| Call_DestroyMirrorTexture (texture : option nat)
| Call_DestroySwapTextureSet (set : nat)
| Call_Destroy.

(** The device behind the handle as the session sees it: what the
    session has set on it, what it answers when polled, and the log of
    the calls made.  Its answers are inputs of the model: they change
    between calls as the hardware does. *)
Record TrackingDevice := mkTrackingDevice
  { EnabledCaps : Z;
    TrackingCaps : option Z;
    TrackingState_Now : ovrTrackingState;
    TrackingState_DisplayMidpoint : ovrTrackingState;
    SubmitFrameResult : ovrResult;
    ConfigureTrackingResult : ovrResult;
    SwapTextureCount : Z;
    nextTextureSet : nat;
    calls : list ovrCall }.

(** The functions and constants of the SDK that compute without
    touching a device's state.  The SDK is closed: the session's code
    is verified for every such SDK. *)
Record VendorSDK := mkVendorSDK
  { ovrHmd_GetFovTextureSize : ovrHmdDesc -> ovrEyeType -> ovrFovPort -> float -> ovrSizei;
    ovrHmd_GetRenderDesc : ovrHmdDesc -> ovrEyeType -> ovrFovPort -> ovrEyeRenderDesc;
    ovrMatrix4f_Projection : ovrFovPort -> float -> float -> Z -> ovrMatrix4f;
    ovr_CalcEyePoses : ovrPosef -> array2 ovrVector3f -> array2 ovrPosef;
    ovrStatus_PositionConnected : Z;
    ovrStatus_PositionTracked : Z;
    ovrProjection_RightHanded : Z;
    ovrLayerType_EyeFov : Z;
    ovrLayerFlag_HighQuality : Z }.

(** ** The host framework: windows, renderers, cameras, GL state *)

(** The two member functions the session binds to itself and installs
    in a renderer. *)
Inductive DrawFn : Type := Bound_startDrawFn | Bound_finishDrawFn.

(** [window->getRenderer()]: a [RendererGl] with its two draw hooks
    ([None] is an empty [std::function]), or a renderer of another
    class, for which [dynamic_pointer_cast<RendererGl>] gives null. *)
Inductive Renderer : Type :=
| RendererGl (mStartDrawFn mFinishDrawFn : option DrawFn)
| RendererOther.

(** The slot [initialize] connects to a window's close signal. *)
Inductive CloseSlot : Type := Slot_detachFromWindow.

Record Window := mkWindow
  { win_isValid : bool;
    win_renderer : Renderer;
    win_signalClose : list CloseSlot }.

(** A [WindowRef] is a shared pointer: the number of a window of the
    store, or null. *)
Definition WindowRef : Type := option nat.

(** The part of [CameraPersp] the session reads and writes. *)
Record CameraPersp := mkCameraPersp
  { cam_EyePoint : glm.vec3;
    cam_Orientation : glm.quat;
    cam_NearClip : float;
    cam_FarClip : float }.

(** [HmdEyeCamera]: a [CameraPersp] with the projection of the SDK. *)
Record HmdEyeCamera := mkHmdEyeCamera
  { eye_camera : CameraPersp;
    mOvrProjection : glm.mat4 }.

(** The matrices and viewport of the current GL context, and the
    render surface bound in it. *)
Record GlContext := mkGlContext
  { gl_viewport : glm.ivec2 * glm.ivec2;
    gl_ModelMatrix : glm.mat4;
    gl_ViewMatrix : glm.mat4;
    gl_ProjectionMatrix : glm.mat4;
    gl_renderSurface : option nat;
    gl_currentContext : bool }.

(** [TextureBuffer] and [DepthBuffer], the two halves of the render
    target. *)
Record TextureBuffer := mkTextureBuffer
  { tb_set : nat;
    tb_size : glm.ivec2;
    TextureSet : ovrSwapTextureSet }.

Record DepthBuffer := mkDepthBuffer { db_size : glm.ivec2; db_samples : Z }.

(** ** The session object

    The data members of [hmd::OculusRift].  The three matrices and
    their flags are [mutable]: the [const] getters write them. *)

Record OculusRift := mkOculusRift
  { mWindow : WindowRef;
    mHeadScale : float;
    mScreenPercentage : float;
    mMirrorPercentage : float;
    mHmdCaps : Z;
    mTrackingCaps : Z;
    mHmdSettingsChanged : bool;
    mIsExtended : bool;
    mIsMirrrored : bool;
    mIsMonoscopic : bool;
    mUsePositionalTracking : bool;
    mHmd : option ovrHmdDesc;
    mHostCamera : CameraPersp;
    mHmdEyeCamera : HmdEyeCamera;
    mEye : ovrEyeType;
    mEyeRenderDesc : array2 ovrEyeRenderDesc;
    mEyeViewOffset : array2 ovrVector3f;
    mEyeRenderPose : array2 ovrPosef;
    mLayer : ovrLayerEyeFov;
    mRenderBuffer : option TextureBuffer;
    mDepthBuffer : option DepthBuffer;
    mMirrorTexture : option nat;
    mViewMatrix : glm.mat4;
    mInverseViewMatrix : glm.mat4;
    mProjectionMatrix : glm.mat4;
    mViewMatrixCached : bool;
    mInverseViewMatrixCached : bool;
    mProjectionCached : bool }.


(** Assignment to one member, the others unchanged. *)

Definition set_mWindow (v : WindowRef) (r : OculusRift) : OculusRift :=
  mkOculusRift v (mHeadScale r) (mScreenPercentage r) (mMirrorPercentage r)
    (mHmdCaps r) (mTrackingCaps r) (mHmdSettingsChanged r) (mIsExtended r)
    (mIsMirrrored r) (mIsMonoscopic r) (mUsePositionalTracking r) (mHmd r)
    (mHostCamera r) (mHmdEyeCamera r) (mEye r) (mEyeRenderDesc r) (mEyeViewOffset r)
    (mEyeRenderPose r) (mLayer r) (mRenderBuffer r) (mDepthBuffer r)
    (mMirrorTexture r) (mViewMatrix r) (mInverseViewMatrix r) (mProjectionMatrix r)
    (mViewMatrixCached r) (mInverseViewMatrixCached r) (mProjectionCached r).

Definition set_mHeadScale (v : float) (r : OculusRift) : OculusRift :=
  mkOculusRift (mWindow r) v (mScreenPercentage r) (mMirrorPercentage r) (mHmdCaps r)
    (mTrackingCaps r) (mHmdSettingsChanged r) (mIsExtended r) (mIsMirrrored r)
    (mIsMonoscopic r) (mUsePositionalTracking r) (mHmd r) (mHostCamera r)
    (mHmdEyeCamera r) (mEye r) (mEyeRenderDesc r) (mEyeViewOffset r)
    (mEyeRenderPose r) (mLayer r) (mRenderBuffer r) (mDepthBuffer r)
    (mMirrorTexture r) (mViewMatrix r) (mInverseViewMatrix r) (mProjectionMatrix r)
    (mViewMatrixCached r) (mInverseViewMatrixCached r) (mProjectionCached r).

Definition set_mScreenPercentage (v : float) (r : OculusRift) : OculusRift :=
  mkOculusRift (mWindow r) (mHeadScale r) v (mMirrorPercentage r) (mHmdCaps r)
    (mTrackingCaps r) (mHmdSettingsChanged r) (mIsExtended r) (mIsMirrrored r)
    (mIsMonoscopic r) (mUsePositionalTracking r) (mHmd r) (mHostCamera r)
    (mHmdEyeCamera r) (mEye r) (mEyeRenderDesc r) (mEyeViewOffset r)
    (mEyeRenderPose r) (mLayer r) (mRenderBuffer r) (mDepthBuffer r)
    (mMirrorTexture r) (mViewMatrix r) (mInverseViewMatrix r) (mProjectionMatrix r)
    (mViewMatrixCached r) (mInverseViewMatrixCached r) (mProjectionCached r).

Definition set_mMirrorPercentage (v : float) (r : OculusRift) : OculusRift :=
  mkOculusRift (mWindow r) (mHeadScale r) (mScreenPercentage r) v (mHmdCaps r)
    (mTrackingCaps r) (mHmdSettingsChanged r) (mIsExtended r) (mIsMirrrored r)
    (mIsMonoscopic r) (mUsePositionalTracking r) (mHmd r) (mHostCamera r)
    (mHmdEyeCamera r) (mEye r) (mEyeRenderDesc r) (mEyeViewOffset r)
    (mEyeRenderPose r) (mLayer r) (mRenderBuffer r) (mDepthBuffer r)
    (mMirrorTexture r) (mViewMatrix r) (mInverseViewMatrix r) (mProjectionMatrix r)
    (mViewMatrixCached r) (mInverseViewMatrixCached r) (mProjectionCached r).

Definition set_mHmdSettingsChanged (v : bool) (r : OculusRift) : OculusRift :=
  mkOculusRift (mWindow r) (mHeadScale r) (mScreenPercentage r) (mMirrorPercentage r)
    (mHmdCaps r) (mTrackingCaps r) v (mIsExtended r) (mIsMirrrored r)
    (mIsMonoscopic r) (mUsePositionalTracking r) (mHmd r) (mHostCamera r)
    (mHmdEyeCamera r) (mEye r) (mEyeRenderDesc r) (mEyeViewOffset r)
    (mEyeRenderPose r) (mLayer r) (mRenderBuffer r) (mDepthBuffer r)
    (mMirrorTexture r) (mViewMatrix r) (mInverseViewMatrix r) (mProjectionMatrix r)
    (mViewMatrixCached r) (mInverseViewMatrixCached r) (mProjectionCached r).

Definition set_mIsMirrrored (v : bool) (r : OculusRift) : OculusRift :=
  mkOculusRift (mWindow r) (mHeadScale r) (mScreenPercentage r) (mMirrorPercentage r)
    (mHmdCaps r) (mTrackingCaps r) (mHmdSettingsChanged r) (mIsExtended r) v
    (mIsMonoscopic r) (mUsePositionalTracking r) (mHmd r) (mHostCamera r)
    (mHmdEyeCamera r) (mEye r) (mEyeRenderDesc r) (mEyeViewOffset r)
    (mEyeRenderPose r) (mLayer r) (mRenderBuffer r) (mDepthBuffer r)
    (mMirrorTexture r) (mViewMatrix r) (mInverseViewMatrix r) (mProjectionMatrix r)
    (mViewMatrixCached r) (mInverseViewMatrixCached r) (mProjectionCached r).

Definition set_mIsMonoscopic (v : bool) (r : OculusRift) : OculusRift :=
  mkOculusRift (mWindow r) (mHeadScale r) (mScreenPercentage r) (mMirrorPercentage r)
    (mHmdCaps r) (mTrackingCaps r) (mHmdSettingsChanged r) (mIsExtended r)
    (mIsMirrrored r) v (mUsePositionalTracking r) (mHmd r) (mHostCamera r)
    (mHmdEyeCamera r) (mEye r) (mEyeRenderDesc r) (mEyeViewOffset r)
    (mEyeRenderPose r) (mLayer r) (mRenderBuffer r) (mDepthBuffer r)
    (mMirrorTexture r) (mViewMatrix r) (mInverseViewMatrix r) (mProjectionMatrix r)
    (mViewMatrixCached r) (mInverseViewMatrixCached r) (mProjectionCached r).

Definition set_mUsePositionalTracking (v : bool) (r : OculusRift) : OculusRift :=
  mkOculusRift (mWindow r) (mHeadScale r) (mScreenPercentage r) (mMirrorPercentage r)
    (mHmdCaps r) (mTrackingCaps r) (mHmdSettingsChanged r) (mIsExtended r)
    (mIsMirrrored r) (mIsMonoscopic r) v (mHmd r) (mHostCamera r) (mHmdEyeCamera r)
    (mEye r) (mEyeRenderDesc r) (mEyeViewOffset r) (mEyeRenderPose r) (mLayer r)
    (mRenderBuffer r) (mDepthBuffer r) (mMirrorTexture r) (mViewMatrix r)
    (mInverseViewMatrix r) (mProjectionMatrix r) (mViewMatrixCached r)
    (mInverseViewMatrixCached r) (mProjectionCached r).

Definition set_mHmd (v : option ovrHmdDesc) (r : OculusRift) : OculusRift :=
  mkOculusRift (mWindow r) (mHeadScale r) (mScreenPercentage r) (mMirrorPercentage r)
    (mHmdCaps r) (mTrackingCaps r) (mHmdSettingsChanged r) (mIsExtended r)
    (mIsMirrrored r) (mIsMonoscopic r) (mUsePositionalTracking r) v (mHostCamera r)
    (mHmdEyeCamera r) (mEye r) (mEyeRenderDesc r) (mEyeViewOffset r)
    (mEyeRenderPose r) (mLayer r) (mRenderBuffer r) (mDepthBuffer r)
    (mMirrorTexture r) (mViewMatrix r) (mInverseViewMatrix r) (mProjectionMatrix r)
    (mViewMatrixCached r) (mInverseViewMatrixCached r) (mProjectionCached r).

Definition set_mHostCamera (v : CameraPersp) (r : OculusRift) : OculusRift :=
  mkOculusRift (mWindow r) (mHeadScale r) (mScreenPercentage r) (mMirrorPercentage r)
    (mHmdCaps r) (mTrackingCaps r) (mHmdSettingsChanged r) (mIsExtended r)
    (mIsMirrrored r) (mIsMonoscopic r) (mUsePositionalTracking r) (mHmd r) v
    (mHmdEyeCamera r) (mEye r) (mEyeRenderDesc r) (mEyeViewOffset r)
    (mEyeRenderPose r) (mLayer r) (mRenderBuffer r) (mDepthBuffer r)
    (mMirrorTexture r) (mViewMatrix r) (mInverseViewMatrix r) (mProjectionMatrix r)
    (mViewMatrixCached r) (mInverseViewMatrixCached r) (mProjectionCached r).

Definition set_mHmdEyeCamera (v : HmdEyeCamera) (r : OculusRift) : OculusRift :=
  mkOculusRift (mWindow r) (mHeadScale r) (mScreenPercentage r) (mMirrorPercentage r)
    (mHmdCaps r) (mTrackingCaps r) (mHmdSettingsChanged r) (mIsExtended r)
    (mIsMirrrored r) (mIsMonoscopic r) (mUsePositionalTracking r) (mHmd r)
    (mHostCamera r) v (mEye r) (mEyeRenderDesc r) (mEyeViewOffset r)
    (mEyeRenderPose r) (mLayer r) (mRenderBuffer r) (mDepthBuffer r)
    (mMirrorTexture r) (mViewMatrix r) (mInverseViewMatrix r) (mProjectionMatrix r)
    (mViewMatrixCached r) (mInverseViewMatrixCached r) (mProjectionCached r).

Definition set_mEye (v : ovrEyeType) (r : OculusRift) : OculusRift :=
  mkOculusRift (mWindow r) (mHeadScale r) (mScreenPercentage r) (mMirrorPercentage r)
    (mHmdCaps r) (mTrackingCaps r) (mHmdSettingsChanged r) (mIsExtended r)
    (mIsMirrrored r) (mIsMonoscopic r) (mUsePositionalTracking r) (mHmd r)
    (mHostCamera r) (mHmdEyeCamera r) v (mEyeRenderDesc r) (mEyeViewOffset r)
    (mEyeRenderPose r) (mLayer r) (mRenderBuffer r) (mDepthBuffer r)
    (mMirrorTexture r) (mViewMatrix r) (mInverseViewMatrix r) (mProjectionMatrix r)
    (mViewMatrixCached r) (mInverseViewMatrixCached r) (mProjectionCached r).

Definition set_mEyeRenderDesc (v : array2 ovrEyeRenderDesc) (r : OculusRift) : OculusRift :=
  mkOculusRift (mWindow r) (mHeadScale r) (mScreenPercentage r) (mMirrorPercentage r)
    (mHmdCaps r) (mTrackingCaps r) (mHmdSettingsChanged r) (mIsExtended r)
    (mIsMirrrored r) (mIsMonoscopic r) (mUsePositionalTracking r) (mHmd r)
    (mHostCamera r) (mHmdEyeCamera r) (mEye r) v (mEyeViewOffset r) (mEyeRenderPose r)
    (mLayer r) (mRenderBuffer r) (mDepthBuffer r) (mMirrorTexture r) (mViewMatrix r)
    (mInverseViewMatrix r) (mProjectionMatrix r) (mViewMatrixCached r)
    (mInverseViewMatrixCached r) (mProjectionCached r).

Definition set_mEyeViewOffset (v : array2 ovrVector3f) (r : OculusRift) : OculusRift :=
  mkOculusRift (mWindow r) (mHeadScale r) (mScreenPercentage r) (mMirrorPercentage r)
    (mHmdCaps r) (mTrackingCaps r) (mHmdSettingsChanged r) (mIsExtended r)
    (mIsMirrrored r) (mIsMonoscopic r) (mUsePositionalTracking r) (mHmd r)
    (mHostCamera r) (mHmdEyeCamera r) (mEye r) (mEyeRenderDesc r) v (mEyeRenderPose r)
    (mLayer r) (mRenderBuffer r) (mDepthBuffer r) (mMirrorTexture r) (mViewMatrix r)
    (mInverseViewMatrix r) (mProjectionMatrix r) (mViewMatrixCached r)
    (mInverseViewMatrixCached r) (mProjectionCached r).

Definition set_mEyeRenderPose (v : array2 ovrPosef) (r : OculusRift) : OculusRift :=
  mkOculusRift (mWindow r) (mHeadScale r) (mScreenPercentage r) (mMirrorPercentage r)
    (mHmdCaps r) (mTrackingCaps r) (mHmdSettingsChanged r) (mIsExtended r)
    (mIsMirrrored r) (mIsMonoscopic r) (mUsePositionalTracking r) (mHmd r)
    (mHostCamera r) (mHmdEyeCamera r) (mEye r) (mEyeRenderDesc r) (mEyeViewOffset r) v
    (mLayer r) (mRenderBuffer r) (mDepthBuffer r) (mMirrorTexture r) (mViewMatrix r)
    (mInverseViewMatrix r) (mProjectionMatrix r) (mViewMatrixCached r)
    (mInverseViewMatrixCached r) (mProjectionCached r).

Definition set_mLayer (v : ovrLayerEyeFov) (r : OculusRift) : OculusRift :=
  mkOculusRift (mWindow r) (mHeadScale r) (mScreenPercentage r) (mMirrorPercentage r)
    (mHmdCaps r) (mTrackingCaps r) (mHmdSettingsChanged r) (mIsExtended r)
    (mIsMirrrored r) (mIsMonoscopic r) (mUsePositionalTracking r) (mHmd r)
    (mHostCamera r) (mHmdEyeCamera r) (mEye r) (mEyeRenderDesc r) (mEyeViewOffset r)
    (mEyeRenderPose r) v (mRenderBuffer r) (mDepthBuffer r) (mMirrorTexture r)
    (mViewMatrix r) (mInverseViewMatrix r) (mProjectionMatrix r) (mViewMatrixCached r)
    (mInverseViewMatrixCached r) (mProjectionCached r).

Definition set_mRenderBuffer (v : option TextureBuffer) (r : OculusRift) : OculusRift :=
  mkOculusRift (mWindow r) (mHeadScale r) (mScreenPercentage r) (mMirrorPercentage r)
    (mHmdCaps r) (mTrackingCaps r) (mHmdSettingsChanged r) (mIsExtended r)
    (mIsMirrrored r) (mIsMonoscopic r) (mUsePositionalTracking r) (mHmd r)
    (mHostCamera r) (mHmdEyeCamera r) (mEye r) (mEyeRenderDesc r) (mEyeViewOffset r)
    (mEyeRenderPose r) (mLayer r) v (mDepthBuffer r) (mMirrorTexture r)
    (mViewMatrix r) (mInverseViewMatrix r) (mProjectionMatrix r) (mViewMatrixCached r)
    (mInverseViewMatrixCached r) (mProjectionCached r).

Definition set_mDepthBuffer (v : option DepthBuffer) (r : OculusRift) : OculusRift :=
  mkOculusRift (mWindow r) (mHeadScale r) (mScreenPercentage r) (mMirrorPercentage r)
    (mHmdCaps r) (mTrackingCaps r) (mHmdSettingsChanged r) (mIsExtended r)
    (mIsMirrrored r) (mIsMonoscopic r) (mUsePositionalTracking r) (mHmd r)
    (mHostCamera r) (mHmdEyeCamera r) (mEye r) (mEyeRenderDesc r) (mEyeViewOffset r)
    (mEyeRenderPose r) (mLayer r) (mRenderBuffer r) v (mMirrorTexture r)
    (mViewMatrix r) (mInverseViewMatrix r) (mProjectionMatrix r) (mViewMatrixCached r)
    (mInverseViewMatrixCached r) (mProjectionCached r).

Definition set_mViewMatrix (v : glm.mat4) (r : OculusRift) : OculusRift :=
  mkOculusRift (mWindow r) (mHeadScale r) (mScreenPercentage r) (mMirrorPercentage r)
    (mHmdCaps r) (mTrackingCaps r) (mHmdSettingsChanged r) (mIsExtended r)
    (mIsMirrrored r) (mIsMonoscopic r) (mUsePositionalTracking r) (mHmd r)
    (mHostCamera r) (mHmdEyeCamera r) (mEye r) (mEyeRenderDesc r) (mEyeViewOffset r)
    (mEyeRenderPose r) (mLayer r) (mRenderBuffer r) (mDepthBuffer r)
    (mMirrorTexture r) v (mInverseViewMatrix r) (mProjectionMatrix r)
    (mViewMatrixCached r) (mInverseViewMatrixCached r) (mProjectionCached r).

Definition set_mInverseViewMatrix (v : glm.mat4) (r : OculusRift) : OculusRift :=
  mkOculusRift (mWindow r) (mHeadScale r) (mScreenPercentage r) (mMirrorPercentage r)
    (mHmdCaps r) (mTrackingCaps r) (mHmdSettingsChanged r) (mIsExtended r)
    (mIsMirrrored r) (mIsMonoscopic r) (mUsePositionalTracking r) (mHmd r)
    (mHostCamera r) (mHmdEyeCamera r) (mEye r) (mEyeRenderDesc r) (mEyeViewOffset r)
    (mEyeRenderPose r) (mLayer r) (mRenderBuffer r) (mDepthBuffer r)
    (mMirrorTexture r) (mViewMatrix r) v (mProjectionMatrix r) (mViewMatrixCached r)
    (mInverseViewMatrixCached r) (mProjectionCached r).

Definition set_mProjectionMatrix (v : glm.mat4) (r : OculusRift) : OculusRift :=
  mkOculusRift (mWindow r) (mHeadScale r) (mScreenPercentage r) (mMirrorPercentage r)
    (mHmdCaps r) (mTrackingCaps r) (mHmdSettingsChanged r) (mIsExtended r)
    (mIsMirrrored r) (mIsMonoscopic r) (mUsePositionalTracking r) (mHmd r)
    (mHostCamera r) (mHmdEyeCamera r) (mEye r) (mEyeRenderDesc r) (mEyeViewOffset r)
    (mEyeRenderPose r) (mLayer r) (mRenderBuffer r) (mDepthBuffer r)
    (mMirrorTexture r) (mViewMatrix r) (mInverseViewMatrix r) v (mViewMatrixCached r)
    (mInverseViewMatrixCached r) (mProjectionCached r).

Definition set_mViewMatrixCached (v : bool) (r : OculusRift) : OculusRift :=
  mkOculusRift (mWindow r) (mHeadScale r) (mScreenPercentage r) (mMirrorPercentage r)
    (mHmdCaps r) (mTrackingCaps r) (mHmdSettingsChanged r) (mIsExtended r)
    (mIsMirrrored r) (mIsMonoscopic r) (mUsePositionalTracking r) (mHmd r)
    (mHostCamera r) (mHmdEyeCamera r) (mEye r) (mEyeRenderDesc r) (mEyeViewOffset r)
    (mEyeRenderPose r) (mLayer r) (mRenderBuffer r) (mDepthBuffer r)
    (mMirrorTexture r) (mViewMatrix r) (mInverseViewMatrix r) (mProjectionMatrix r) v
    (mInverseViewMatrixCached r) (mProjectionCached r).

Definition set_mInverseViewMatrixCached (v : bool) (r : OculusRift) : OculusRift :=
  mkOculusRift (mWindow r) (mHeadScale r) (mScreenPercentage r) (mMirrorPercentage r)
    (mHmdCaps r) (mTrackingCaps r) (mHmdSettingsChanged r) (mIsExtended r)
    (mIsMirrrored r) (mIsMonoscopic r) (mUsePositionalTracking r) (mHmd r)
    (mHostCamera r) (mHmdEyeCamera r) (mEye r) (mEyeRenderDesc r) (mEyeViewOffset r)
    (mEyeRenderPose r) (mLayer r) (mRenderBuffer r) (mDepthBuffer r)
    (mMirrorTexture r) (mViewMatrix r) (mInverseViewMatrix r) (mProjectionMatrix r)
    (mViewMatrixCached r) v (mProjectionCached r).

Definition set_mProjectionCached (v : bool) (r : OculusRift) : OculusRift :=
  mkOculusRift (mWindow r) (mHeadScale r) (mScreenPercentage r) (mMirrorPercentage r)
    (mHmdCaps r) (mTrackingCaps r) (mHmdSettingsChanged r) (mIsExtended r)
    (mIsMirrrored r) (mIsMonoscopic r) (mUsePositionalTracking r) (mHmd r)
    (mHostCamera r) (mHmdEyeCamera r) (mEye r) (mEyeRenderDesc r) (mEyeViewOffset r)
    (mEyeRenderPose r) (mLayer r) (mRenderBuffer r) (mDepthBuffer r)
    (mMirrorTexture r) (mViewMatrix r) (mInverseViewMatrix r) (mProjectionMatrix r)
    (mViewMatrixCached r) (mInverseViewMatrixCached r) v.


(** ** The world a member function runs in

    The session, the device behind its handle, the store of the host's
    windows (shared: the session and the application hold references
    into it) and the current GL context. *)

Record World := mkWorld
  { rift : OculusRift;
    device : TrackingDevice;
    windows : gmap nat Window;
    gl : GlContext }.

Definition set_rift (v : OculusRift) (r : World) : World :=
  mkWorld v (device r) (windows r) (gl r).

Definition set_device (v : TrackingDevice) (r : World) : World :=
  mkWorld (rift r) v (windows r) (gl r).

Definition set_windows (v : gmap nat Window) (r : World) : World :=
  mkWorld (rift r) (device r) v (gl r).

Definition set_gl (v : GlContext) (r : World) : World :=
  mkWorld (rift r) (device r) (windows r) v.

Definition set_EnabledCaps (v : Z) (r : TrackingDevice) : TrackingDevice :=
  mkTrackingDevice v (TrackingCaps r) (TrackingState_Now r)
    (TrackingState_DisplayMidpoint r) (SubmitFrameResult r)
    (ConfigureTrackingResult r) (SwapTextureCount r) (nextTextureSet r) (calls r).

Definition set_TrackingCaps (v : option Z) (r : TrackingDevice) : TrackingDevice :=
  mkTrackingDevice (EnabledCaps r) v (TrackingState_Now r)
    (TrackingState_DisplayMidpoint r) (SubmitFrameResult r)
    (ConfigureTrackingResult r) (SwapTextureCount r) (nextTextureSet r) (calls r).

Definition set_TrackingState_Now (v : ovrTrackingState) (r : TrackingDevice) : TrackingDevice :=
  mkTrackingDevice (EnabledCaps r) (TrackingCaps r) v
    (TrackingState_DisplayMidpoint r) (SubmitFrameResult r)
    (ConfigureTrackingResult r) (SwapTextureCount r) (nextTextureSet r) (calls r).

Definition set_SubmitFrameResult (v : ovrResult) (r : TrackingDevice) : TrackingDevice :=
  mkTrackingDevice (EnabledCaps r) (TrackingCaps r) (TrackingState_Now r)
    (TrackingState_DisplayMidpoint r) v (ConfigureTrackingResult r)
    (SwapTextureCount r) (nextTextureSet r) (calls r).

Definition set_nextTextureSet (v : nat) (r : TrackingDevice) : TrackingDevice :=
  mkTrackingDevice (EnabledCaps r) (TrackingCaps r) (TrackingState_Now r)
    (TrackingState_DisplayMidpoint r) (SubmitFrameResult r)
    (ConfigureTrackingResult r) (SwapTextureCount r) v (calls r).

Definition set_calls (v : list ovrCall) (r : TrackingDevice) : TrackingDevice :=
  mkTrackingDevice (EnabledCaps r) (TrackingCaps r) (TrackingState_Now r)
    (TrackingState_DisplayMidpoint r) (SubmitFrameResult r)
    (ConfigureTrackingResult r) (SwapTextureCount r) (nextTextureSet r) v.

(** The answer of [ovrHmd_GetTrackingState( hmd, absTime )]. *)
Definition TrackingStateAt (dev : TrackingDevice) (t : ovrTime) : ovrTrackingState :=
  match t with
  | ovr_Now => TrackingState_Now dev
  | ovr_DisplayMidpoint => TrackingState_DisplayMidpoint dev
  end.

(** One more call in the device's log. *)
Definition device_call (c : ovrCall) (w : World) : World :=
  set_device (set_calls (calls (device w) ++ [c]) (device w)) w.

(** ** Conversions between the SDK's types and glm's *)

(** Modelled from the spec: the overloads of [fromOvr] are declared in
    the header [CinderOculus.h], which is not among the sources; they
    convert the data-structure layouts between the two libraries.  A
    quaternion and a vector keep their components, a row-major SDK
    matrix becomes a column-major glm matrix of the same entries. *)
Definition fromOvr_quat (q : ovrQuatf) : glm.quat :=
  glm.mkquat (q_w q) (q_x q) (q_y q) (q_z q).

Definition fromOvr_vec3 (v : ovrVector3f) : glm.vec3 :=
  glm.mkvec3 (v_x v) (v_y v) (v_z v).

Definition fromOvr_mat4 (m : ovrMatrix4f) : glm.mat4 :=
  let r0 := M_r0 m in
  let r1 := M_r1 m in
  let r2 := M_r2 m in
  let r3 := M_r3 m in
  glm.mkmat4
    (glm.mkvec4 (glm.x4 r0) (glm.x4 r1) (glm.x4 r2) (glm.x4 r3))
    (glm.mkvec4 (glm.y4 r0) (glm.y4 r1) (glm.y4 r2) (glm.y4 r3))
    (glm.mkvec4 (glm.z4 r0) (glm.z4 r1) (glm.z4 r2) (glm.z4 r3))
    (glm.mkvec4 (glm.w4 r0) (glm.w4 r1) (glm.w4 r2) (glm.w4 r3)).

(** ** Results of member functions that can fail

    [initialize] either returns a [bool] or throws
    [std::runtime_error]; both leave a world behind. *)
Inductive outcome (A : Type) : Type :=
| Returns (a : A) (w : World)
| Throws (what : string) (w : World).
Arguments Returns {A} a w.
Arguments Throws {A} what w.

Definition world_after {A : Type} (o : outcome A) : World :=
  match o with Returns _ w => w | Throws _ w => w end.

(** ** The member functions of [OculusRift]

    A member function that writes members maps a world to a world; one
    that also returns a value returns the pair.  [option] is for
    undefined behaviour and failed assertions: [None] where the source
    dereferences a null [mHmd] or [mRenderBuffer], indexes an array of
    two outside it, divides by zero, or fails a [CI_ASSERT]. *)

Section Session.

Variable sdk : VendorSDK.

(** [glm::inverse] is used as a black box: the session only stores
    what it returns. *)
Variable glm_inverse : glm.mat4 -> glm.mat4.

(** *** Windows and hooks *)

(** [window && window->isValid()] *)
Definition isValid (window : WindowRef) (w : World) : bool :=
  match window with
  | Some n =>
      match windows w !! n with
      | Some win => win_isValid win
      | None => false
      end
  | None => false
  end.

(** [rendererGl->setStartDrawFn( start ); rendererGl->setFinishDrawFn(
    finish )] under [if( rendererGl )], on the renderer of a window. *)
Definition setDrawFns (start finish : option DrawFn) (win : Window) : Window :=
  match win_renderer win with
  | RendererGl _ _ =>
      mkWindow (win_isValid win) (RendererGl start finish) (win_signalClose win)
  | RendererOther => win
  end.

Definition connectClose (slot : CloseSlot) (win : Window) : Window :=
  mkWindow (win_isValid win) (win_renderer win) (win_signalClose win ++ [slot]).

Definition detachFromWindow (w : World) : World :=
  if isValid (mWindow (rift w)) w then
    match mWindow (rift w) with
    | Some n =>
        let w1 := set_windows (alter (setDrawFns None None) n (windows w)) w in
        set_rift (set_mWindow None (rift w1)) w1
    | None => w
    end
  else w.

(** *** The render target *)

(** Modelled from the spec: the class [TextureBuffer] is declared in
    the absent header.  The render target is a ring of N colour
    surfaces the device creates ([createSwapTextureSet]), sized to
    the combined eye viewports; a new ring starts at index 0. *)
Definition new_TextureBuffer (size : glm.ivec2) (w : World) : TextureBuffer * World :=
  let dev := device w in
  let tb := mkTextureBuffer (nextTextureSet dev) size
              (mkSwapTextureSet (SwapTextureCount dev) 0) in
  let w1 := device_call (Call_CreateSwapTextureSet size) w in
  (tb, set_device (set_nextTextureSet (S (nextTextureSet dev)) (device w1)) w1).

(** The size [initializeFrameBuffer] asks for: both eyes side by
    side.  [size.x = left.w + right.w] is an addition of two [int],
    [size.y = math<int>::max( left.h, right.h )] one of the two
    heights. *)
Definition frameBufferSize (hmd : ovrHmdDesc) (screenPercentage : float) : glm.ivec2 :=
  let left := ovrHmd_GetFovTextureSize sdk hmd ovrEye_Left
                (nth2 (DefaultEyeFov hmd) ovrEye_Left) screenPercentage in
  let right := ovrHmd_GetFovTextureSize sdk hmd ovrEye_Right
                (nth2 (DefaultEyeFov hmd) ovrEye_Right) screenPercentage in
  glm.mkivec2 (int_add (sz_w left) (sz_w right)) (Z.max (sz_h left) (sz_h right)).

(** [! mRenderBuffer || mRenderBuffer->getSize() != size] *)
Definition needsNewBuffer (r : OculusRift) (size : glm.ivec2) : bool :=
  match mRenderBuffer r with
  | None => true
  | Some tb => glm.ivec2_neqb (tb_size tb) size
  end.

(** The body of [initializeFrameBuffer] once [mHmd] is known not to
    be null. *)
Definition initializeFrameBuffer_on (hmd : ovrHmdDesc) (w : World) : World :=
  let sp := mScreenPercentage (rift w) in
  let w := device_call (Call_GetFovTextureSize ovrEye_Left sp) w in
  let w := device_call (Call_GetFovTextureSize ovrEye_Right sp) w in
  let size := frameBufferSize hmd sp in
  if needsNewBuffer (rift w) size then
    let '(tb, w) := new_TextureBuffer size w in
    let w := set_rift (set_mRenderBuffer (Some tb) (rift w)) w in
    let w := set_rift (set_mDepthBuffer (Some (mkDepthBuffer size 0)) (rift w)) w in
    let w := device_call (Call_GetRenderDesc ovrEye_Left) w in
    let w := device_call (Call_GetRenderDesc ovrEye_Right) w in
    let desc :=
      (ovrHmd_GetRenderDesc sdk hmd ovrEye_Left (nth2 (DefaultEyeFov hmd) ovrEye_Left),
       ovrHmd_GetRenderDesc sdk hmd ovrEye_Right (nth2 (DefaultEyeFov hmd) ovrEye_Right)) in
    let w := set_rift (set_mEyeRenderDesc desc (rift w)) w in
    let half := Z.quot (glm.ix size) 2 in
    let layer :=
      mkLayerEyeFov
        (mkLayerHeader (ovrLayerType_EyeFov sdk) (ovrLayerFlag_HighQuality sdk))
        (Some (tb_set tb), Some (tb_set tb))
        (mkRecti (mkVector2i 0 0) (mkSizei half (glm.iy size)),
         mkRecti (mkVector2i half 0) (mkSizei half (glm.iy size)))
        (Fov (fst desc), Fov (snd desc))
        (RenderPose (mLayer (rift w))) in
    set_rift (set_mLayer layer (rift w)) w
  else w.

Definition initializeFrameBuffer (w : World) : option World :=
  match mHmd (rift w) with
  | Some hmd => Some (initializeFrameBuffer_on hmd w)
  | None => None
  end.

Definition updateHmdSettings (w : World) : World :=
  let w := device_call (Call_SetEnabledCaps (mHmdCaps (rift w))) w in
  let w := set_device (set_EnabledCaps (mHmdCaps (rift w)) (device w)) w in
  set_rift (set_mHmdSettingsChanged false (rift w)) w.

(** *** Attaching to a window *)

Definition initialize (window : WindowRef) (w : World) : outcome bool :=
  match mHmd (rift w), window with
  | Some hmd, Some n =>
      if isValid window w then
        let w := initializeFrameBuffer_on hmd w in
        let w := updateHmdSettings w in
        match win_renderer <$> windows w !! n with
        | Some (RendererGl _ _) =>
            let w := set_windows
                       (alter (setDrawFns (Some Bound_startDrawFn) (Some Bound_finishDrawFn))
                              n (windows w)) w in
            let w := set_windows (alter (connectClose Slot_detachFromWindow) n (windows w)) w in
            let w := device_call (Call_ConfigureTracking (mTrackingCaps (rift w))) w in
            let w := if OVR_SUCCESS (ConfigureTrackingResult (device w))
                     then set_device (set_TrackingCaps (Some (mTrackingCaps (rift w)))
                                                       (device w)) w
                     else w in
            Returns true (set_rift (set_mWindow window (rift w)) w)
        | _ =>
            Throws "CinderOculus can only be used in combination with RendererGl." w
        end
      else Returns false w
  | _, _ => Returns false w
  end.

(** *** Binding the render target *)

(** Modelled from the spec: [setAndClearRenderSurface] and
    [unsetRenderSurface] belong to the absent [TextureBuffer]; they
    bind the ring's current surface as the active colour and depth
    surface, and unbind it. *)
Definition bind (w : World) : option World :=
  match mRenderBuffer (rift w) with
  | Some tb =>
      let set := TextureSet tb in
      if Z.eqb (TextureCount set) 0 then None
      else
        let set' := mkSwapTextureSet (TextureCount set)
                      (Z.rem (CurrentIndex set + 1) (TextureCount set)) in
        let tb' := mkTextureBuffer (tb_set tb) (tb_size tb) set' in
        let w := set_rift (set_mRenderBuffer (Some tb') (rift w)) w in
        let g := gl w in
        Some (set_gl (mkGlContext (gl_viewport g) (gl_ModelMatrix g) (gl_ViewMatrix g)
                        (gl_ProjectionMatrix g) (Some (tb_set tb)) (gl_currentContext g)) w)
  | None => Some w
  end.

Definition unbind (w : World) : World :=
  match mRenderBuffer (rift w) with
  | Some tb =>
      let g := gl w in
      set_gl (mkGlContext (gl_viewport g) (gl_ModelMatrix g) (gl_ViewMatrix g)
                (gl_ProjectionMatrix g) None (gl_currentContext g)) w
  | None => w
  end.

(** *** Tracking state and settings *)

(** Modelled from the spec: the inline getters and setters of the
    absent header.  The getters read the member of their name; the
    two toggles store the value and, as every setter of the spec
    does, record the settings-changed flag. *)
Definition isMonoscopic (r : OculusRift) : bool := mIsMonoscopic r.

Definition isPositionalTrackingEnabled (r : OculusRift) : bool :=
  mUsePositionalTracking r.

Definition enableMonoscopic (enabled : bool) (w : World) : World :=
  let w := set_rift (set_mIsMonoscopic enabled (rift w)) w in
  set_rift (set_mHmdSettingsChanged true (rift w)) w.

Definition enablePositionalTracking (enabled : bool) (w : World) : World :=
  let w := set_rift (set_mUsePositionalTracking enabled (rift w)) w in
  set_rift (set_mHmdSettingsChanged true (rift w)) w.

(** [flags & bit] used as a condition. *)
Definition has_flag (flags bit : Z) : bool := negb (Z.eqb (Z.land flags bit) 0).

Definition isTracked (w : World) : bool * World :=
  let w := device_call (Call_GetTrackingState ovr_Now) w in
  let ts := TrackingStateAt (device w) ovr_Now in
  let tracked := has_flag (StatusFlags ts) (ovrStatus_PositionConnected sdk)
                 && has_flag (StatusFlags ts) (ovrStatus_PositionTracked sdk) in
  (tracked && isPositionalTrackingEnabled (rift w), w).

Definition isMirrored (r : OculusRift) : bool := mIsMirrrored r.

Definition isDesktopExtended (r : OculusRift) : bool := mIsExtended r.

Definition setScreenPercentage (sp : float) (w : World) : option World :=
  if fgtb sp f0 then Some (set_rift (set_mScreenPercentage sp (rift w)) w)
  else None.

Definition setMirrorPercentage (sp : float) (w : World) : option World :=
  if fgtb sp f0 then Some (set_rift (set_mMirrorPercentage sp (rift w)) w)
  else None.

Definition enableMirrored (enabled : bool) (w : World) : World :=
  if negb (Bool.eqb (mIsMirrrored (rift w)) enabled) then
    let w := set_rift (set_mIsMirrrored enabled (rift w)) w in
    set_rift (set_mHmdSettingsChanged true (rift w)) w
  else w.

Definition setHeadScale (scale : float) (w : World) : World :=
  set_rift (set_mHeadScale scale (rift w)) w.

(** *** The cached matrices *)

(** The matrix [getViewMatrix] computes when its cache is empty,
    [tracked] being the answer of [isTracked]. *)
Definition computeViewMatrix (r : OculusRift) (tracked : bool) : glm.mat4 :=
  let hostOrientation := glm.toMat4 (cam_Orientation (mHostCamera r)) in
  let orientation :=
    glm.mat4_mul hostOrientation
                 (glm.toMat4 (cam_Orientation (eye_camera (mHmdEyeCamera r)))) in
  let up := glm.vec3_of_vec4
              (glm.mat4_mul_vec4 orientation
                 (glm.mkvec4 (float_of_int 0) (float_of_int 1) (float_of_int 0) (float_of_int 0))) in
  let forward := glm.vec3_of_vec4
              (glm.mat4_mul_vec4 orientation
                 (glm.mkvec4 (float_of_int 0) (float_of_int 0) (float_of_int (-1)) (float_of_int 0))) in
  let eye := cam_EyePoint (mHostCamera r) in
  let eye :=
    if tracked then
      glm.vec3_add eye
        (glm.vec3_of_vec4
           (glm.mat4_mul_vec4 hostOrientation
              (glm.vec4_of_vec3 (cam_EyePoint (eye_camera (mHmdEyeCamera r))) (float_of_int 1))))
    else eye in
  glm.mat4_mul (glm.lookAt eye (glm.vec3_add eye forward) up)
               (glm.scale (glm.vec3_splat (fdiv f1 (mHeadScale r)))).

Definition getViewMatrix (w : World) : glm.mat4 * World :=
  if negb (mViewMatrixCached (rift w)) then
    let '(tracked, w) := isTracked w in
    let w := set_rift (set_mViewMatrix (computeViewMatrix (rift w) tracked) (rift w)) w in
    let w := set_rift (set_mViewMatrixCached true (rift w)) w in
    (mViewMatrix (rift w), w)
  else (mViewMatrix (rift w), w).

Definition getInverseViewMatrix (w : World) : glm.mat4 * World :=
  if negb (mInverseViewMatrixCached (rift w)) then
    let '(view, w) := getViewMatrix w in
    let w := set_rift (set_mInverseViewMatrix (glm_inverse view) (rift w)) w in
    let w := set_rift (set_mInverseViewMatrixCached true (rift w)) w in
    (mInverseViewMatrix (rift w), w)
  else (mInverseViewMatrix (rift w), w).

(** Modelled from the spec: [HmdEyeCamera::getProjectionMatrix] is
    declared in the absent header; the eye camera's projection is the
    field-of-view-derived projection supplied by the device, the one
    [enableEye] stores in [mOvrProjection]. *)
Definition HmdEyeCamera_getProjectionMatrix (c : HmdEyeCamera) : glm.mat4 :=
  mOvrProjection c.

Definition getProjectionMatrix (w : World) : glm.mat4 * World :=
  if negb (mProjectionCached (rift w)) then
    let w := set_rift (set_mProjectionMatrix
                         (HmdEyeCamera_getProjectionMatrix (mHmdEyeCamera (rift w)))
                         (rift w)) w in
    let w := set_rift (set_mProjectionCached true (rift w)) w in
    (mProjectionMatrix (rift w), w)
  else (mProjectionMatrix (rift w), w).

(** *** Activating an eye *)

(** Modelled from the spec: [getEyeViewport] is declared in the
    absent header; an eye's viewport is its rectangle within the
    shared render target, the one [initializeFrameBuffer] stores in
    [mLayer.Viewport]. *)
Definition getEyeViewport (r : OculusRift) : glm.ivec2 * glm.ivec2 :=
  let vp := nth2 (Viewport (mLayer r)) (mEye r) in
  (glm.mkivec2 (p_x (Pos vp)) (p_y (Pos vp)),
   glm.mkivec2 (sz_w (Size vp)) (sz_h (Size vp))).

(** The projection [enableEye] asks the SDK for. *)
Definition eyeProjection (r : OculusRift) (eye : ovrEyeType) : glm.mat4 :=
  fromOvr_mat4
    (ovrMatrix4f_Projection sdk (Fov (nth2 (mEyeRenderDesc r) eye))
       (cam_NearClip (eye_camera (mHmdEyeCamera r)))
       (cam_FarClip (eye_camera (mHmdEyeCamera r)))
       (ovrProjection_RightHanded sdk)).

Definition set_gl_viewport (v : glm.ivec2 * glm.ivec2) (g : GlContext) : GlContext :=
  mkGlContext v (gl_ModelMatrix g) (gl_ViewMatrix g) (gl_ProjectionMatrix g)
    (gl_renderSurface g) (gl_currentContext g).
Definition set_gl_ModelMatrix (m : glm.mat4) (g : GlContext) : GlContext :=
  mkGlContext (gl_viewport g) m (gl_ViewMatrix g) (gl_ProjectionMatrix g)
    (gl_renderSurface g) (gl_currentContext g).
Definition set_gl_ViewMatrix (m : glm.mat4) (g : GlContext) : GlContext :=
  mkGlContext (gl_viewport g) (gl_ModelMatrix g) m (gl_ProjectionMatrix g)
    (gl_renderSurface g) (gl_currentContext g).
Definition set_gl_ProjectionMatrix (m : glm.mat4) (g : GlContext) : GlContext :=
  mkGlContext (gl_viewport g) (gl_ModelMatrix g) (gl_ViewMatrix g) m
    (gl_renderSurface g) (gl_currentContext g).
Definition set_gl_currentContext (b : bool) (g : GlContext) : GlContext :=
  mkGlContext (gl_viewport g) (gl_ModelMatrix g) (gl_ViewMatrix g)
    (gl_ProjectionMatrix g) (gl_renderSurface g) b.

(** The statements of [enableEye] under [if( applyMatrices )]. *)
Definition applyEyeMatrices (w : World) : World :=
  let w := set_gl (set_gl_viewport (getEyeViewport (rift w)) (gl w)) w in
  let w := set_gl (set_gl_ModelMatrix glm.identity (gl w)) w in
  let '(view, w) := getViewMatrix w in
  let w := set_gl (set_gl_ViewMatrix view (gl w)) w in
  let '(projection, w) := getProjectionMatrix w in
  set_gl (set_gl_ProjectionMatrix projection (gl w)) w.

(** The first statement of [enableEye]. *)
Definition invalidateCaches (w : World) : World :=
  set_rift (set_mProjectionCached false
             (set_mViewMatrixCached false
               (set_mInverseViewMatrixCached false (rift w)))) w.

(** The statements of [enableEye] from [mEye = ...] to the
    assignment of [mOvrProjection]. *)
Definition activateEye (eye : ovrEyeType) (w : World) : World :=
  let w := set_rift (set_mEye eye (rift w)) w in
  let pose := nth2 (mEyeRenderPose (rift w)) (mEye (rift w)) in
  let cam := eye_camera (mHmdEyeCamera (rift w)) in
  let cam := mkCameraPersp (cam_EyePoint cam) (fromOvr_quat (Orientation pose))
               (cam_NearClip cam) (cam_FarClip cam) in
  let cam := mkCameraPersp (fromOvr_vec3 (Position pose)) (cam_Orientation cam)
               (cam_NearClip cam) (cam_FarClip cam) in
  let w := set_rift (set_mHmdEyeCamera
                       (mkHmdEyeCamera cam (mOvrProjection (mHmdEyeCamera (rift w))))
                       (rift w)) w in
  set_rift (set_mHmdEyeCamera
              (mkHmdEyeCamera (eye_camera (mHmdEyeCamera (rift w)))
                              (eyeProjection (rift w) (mEye (rift w))))
              (rift w)) w.

Definition enableEye (eyeIndex : Z) (applyMatrices : bool) (w : World) : option World :=
  let w := invalidateCaches w in
  hmd ← mHmd (rift w);
  eye ← nth2 (EyeRenderOrder hmd) <$> index2 eyeIndex;
  let w := activateEye eye w in
  Some (if applyMatrices then applyEyeMatrices w else w).

Definition getEyes (w : World) : list ovrEyeType :=
  match mHmd (rift w) with
  | Some hmd =>
      if isValid (mWindow (rift w)) w then
        [fst (EyeRenderOrder hmd); snd (EyeRenderOrder hmd)]
      else []
  | None => []
  end.

(** *** The render hooks *)

(** [v.x = 0], the other components kept. *)
Definition zero_x (v : ovrVector3f) : ovrVector3f :=
  mkVector3f (float_of_int 0) (v_y v) (v_z v).

Definition startDrawFn (w : World) : option World :=
  let w := set_gl (set_gl_currentContext true (gl w)) w in
  w ← initializeFrameBuffer w;
  let w := if mHmdSettingsChanged (rift w) then updateHmdSettings w else w in
  let offsets :=
    if isMonoscopic (rift w) then
      (zero_x (fst (mEyeViewOffset (rift w))), zero_x (snd (mEyeViewOffset (rift w))))
    else
      (HmdToEyeViewOffset (fst (mEyeRenderDesc (rift w))),
       HmdToEyeViewOffset (snd (mEyeRenderDesc (rift w)))) in
  let w := set_rift (set_mEyeViewOffset offsets (rift w)) w in
  let w := device_call Call_GetFrameTiming w in
  let w := device_call (Call_GetTrackingState ovr_DisplayMidpoint) w in
  let hmdState := TrackingStateAt (device w) ovr_DisplayMidpoint in
  let poses := ovr_CalcEyePoses sdk (HeadPose hmdState) (mEyeViewOffset (rift w)) in
  let w := set_rift (set_mEyeRenderPose poses (rift w)) w in
  let layer := mLayer (rift w) in
  Some (set_rift (set_mLayer
                    (mkLayerEyeFov (Header layer) (ColorTexture layer) (Viewport layer)
                                   (LayerFov layer) (mEyeRenderPose (rift w)))
                    (rift w)) w).

(** The value of [ovrHmd_SubmitFrame] is stored in a local that is
    never read. *)
Definition finishDrawFn (w : World) : World :=
  let viewScaleDesc := mkViewScaleDesc (mEyeViewOffset (rift w)) f1 in
  let w := device_call (Call_SubmitFrame viewScaleDesc (mLayer (rift w))) w in
  let result := SubmitFrameResult (device w) in
  w.

(** *** The destructor

    After its body the members are destroyed: the two [unique_ptr]
    members release the render target. *)
Definition destructor (w : World) : option World :=
  let w := detachFromWindow w in
  let w := device_call (Call_DestroyMirrorTexture (mMirrorTexture (rift w))) w in
  tb ← mRenderBuffer (rift w);
  let w := device_call (Call_DestroySwapTextureSet (tb_set tb)) w in
  let w := match mHmd (rift w) with
           | Some _ => device_call Call_Destroy w
           | None => w
           end in
  let w := set_rift (set_mHmd None (rift w)) w in
  let w := set_rift (set_mRenderBuffer None (rift w)) w in
  Some (set_rift (set_mDepthBuffer None (rift w)) w).

End Session.

(** ** The public iteration pattern

    [for( auto eye : mRift.getEyes() ) { mRift.enableEye( eye );
    drawScene(); }]: the list is evaluated once, each eye is passed to
    [enableEye] as an [int] (with [applyMatrices] at its default) and
    the scene is drawn. *)
Section ForEachEye.

Variable sdk : VendorSDK.
Variable drawScene : World -> option World.

Fixpoint renderEyes (eyes : list ovrEyeType) (w : World) : option World :=
  match eyes with
  | [] => Some w
  | eye :: rest =>
      w ← enableEye sdk (int_of_eye eye) true w;
      w ← drawScene w;
      renderEyes rest w
  end.

Definition forEachEye (w : World) : option World :=
  renderEyes (getEyes w) w.

End ForEachEye.

(** ** What happens between [bind] and the next frame

    The calls an application can make on the session while a frame is
    in flight, [setScreenPercentage] apart. *)
Inductive FrameOp : Type :=
| Op_enableEye (eyeIndex : Z) (applyMatrices : bool)
| Op_getViewMatrix
| Op_getInverseViewMatrix
| Op_getProjectionMatrix
| Op_isTracked
| Op_setHeadScale (scale : float)
| Op_setMirrorPercentage (sp : float)
| Op_enableMirrored (enabled : bool)
| Op_enableMonoscopic (enabled : bool)
| Op_enablePositionalTracking (enabled : bool)
| Op_bind
| Op_unbind
| Op_finishDrawFn.

Section FrameOps.

Variable sdk : VendorSDK.
Variable glm_inverse : glm.mat4 -> glm.mat4.

Definition run_op (op : FrameOp) (w : World) : option World :=
  match op with
  | Op_enableEye i a => enableEye sdk i a w
  | Op_getViewMatrix => Some (snd (getViewMatrix sdk w))
  | Op_getInverseViewMatrix => Some (snd (getInverseViewMatrix sdk glm_inverse w))
  | Op_getProjectionMatrix => Some (snd (getProjectionMatrix w))
  | Op_isTracked => Some (snd (isTracked sdk w))
  | Op_setHeadScale s => Some (setHeadScale s w)
  | Op_setMirrorPercentage sp => setMirrorPercentage sp w
  | Op_enableMirrored b => Some (enableMirrored b w)
  | Op_enableMonoscopic b => Some (enableMonoscopic b w)
  | Op_enablePositionalTracking b => Some (enablePositionalTracking b w)
  | Op_bind => bind w
  | Op_unbind => Some (unbind w)
  | Op_finishDrawFn => Some (finishDrawFn w)
  end.

Fixpoint run_ops (ops : list FrameOp) (w : World) : option World :=
  match ops with
  | [] => Some w
  | op :: rest => w ← run_op op w; run_ops rest w
  end.

End FrameOps.

(** ** The view matrix as the specification words it

    [lookAt(eye, eye+forward, up) . scale(1/headScale)], with
    [forward] and [up] the canonical [-Z] and [+Y] axes rotated through
    [hostOrientation . eyeOrientation], and [eye] the host eye point
    plus, when tracking, the tracked eye position rotated into host
    space. *)
Module Spec.

Definition axis_negZ : glm.vec4 := glm.mkvec4 f0 f0 (float_of_int (-1)) f0.
Definition axis_posY : glm.vec4 := glm.mkvec4 f0 f1 f0 f0.

Definition rotate (rotation : glm.mat4) (v : glm.vec4) : glm.vec3 :=
  glm.vec3_of_vec4 (glm.mat4_mul_vec4 rotation v).

Definition view_matrix (hostOrientation eyeOrientation : glm.quat)
           (hostEyePoint trackedEyePosition : glm.vec3)
           (tracking : bool) (headScale : float) : glm.mat4 :=
  let rotation := glm.mat4_mul (glm.toMat4 hostOrientation) (glm.toMat4 eyeOrientation) in
  let forward := rotate rotation axis_negZ in
  let up := rotate rotation axis_posY in
  let eye :=
    if tracking then
      glm.vec3_add hostEyePoint
        (rotate (glm.toMat4 hostOrientation) (glm.vec4_of_vec3 trackedEyePosition f1))
    else hostEyePoint in
  glm.mat4_mul (glm.lookAt eye (glm.vec3_add eye forward) up)
               (glm.scale (glm.vec3_splat (fdiv f1 headScale))).

(** "positional tracking is enabled and the device reports position
    connected and tracked" *)
Definition tracking (sdk : VendorSDK) (w : World) : bool :=
  mUsePositionalTracking (rift w)
  && (has_flag (StatusFlags (TrackingState_Now (device w))) (ovrStatus_PositionConnected sdk)
      && has_flag (StatusFlags (TrackingState_Now (device w))) (ovrStatus_PositionTracked sdk)).

End Spec.

(** ** A fake device and a sample application

    A stand-in for the SDK, two windows (one drawn by a [RendererGl],
    one by another renderer), and a session as [BasicSampleApp] sets
    it up: the host camera at (0,0,1) looking at the origin.  Members
    the constructor leaves uninitialised are zero here. *)
Module Fake.

Definition fovL : ovrFovPort := mkFovPort f1 f1 f2 f1.
Definition fovR : ovrFovPort := mkFovPort f1 f1 f1 f2.

Definition dk2 : ovrHmdDesc :=
  mkHmdDesc (ovrEye_Right, ovrEye_Left) (fovL, fovR) (mkSizei 1920 1080).

(** 1000 x 1100 per eye up to a screen percentage of 1, 1250 x 1375
    above. *)
Definition GetFovTextureSize (hmd : ovrHmdDesc) (eye : ovrEyeType) (fov : ovrFovPort)
           (pixelsPerDisplayPixel : float) : ovrSizei :=
  if fgtb pixelsPerDisplayPixel f1 then mkSizei 1250 1375 else mkSizei 1000 1100.

(** The eyes sit half a unit left and right of the head, one unit
    up. *)
Definition GetRenderDesc (hmd : ovrHmdDesc) (eye : ovrEyeType) (fov : ovrFovPort)
  : ovrEyeRenderDesc :=
  mkEyeRenderDesc eye fov
    (mkVector3f (match eye with ovrEye_Left => f0_5 | ovrEye_Right => fneg f0_5 end) f1 f0).

Definition Projection (fov : ovrFovPort) (znear zfar : float) (flags : Z) : ovrMatrix4f :=
  mkMatrix4f (glm.mkvec4 (UpTan fov) (DownTan fov) (LeftTan fov) (RightTan fov))
             (glm.mkvec4 znear zfar f0 f0)
             (glm.mkvec4 f0 f0 f1 f0)
             (glm.mkvec4 f0 f0 f0 f1).

Definition CalcEyePoses (head : ovrPosef) (offsets : array2 ovrVector3f) : array2 ovrPosef :=
  let at_offset (o : ovrVector3f) :=
    mkPosef (Orientation head)
            (mkVector3f (fadd (v_x (Position head)) (v_x o))
                        (fadd (v_y (Position head)) (v_y o))
                        (fadd (v_z (Position head)) (v_z o))) in
  (at_offset (fst offsets), at_offset (snd offsets)).

Definition sdk : VendorSDK :=
  mkVendorSDK GetFovTextureSize GetRenderDesc Projection CalcEyePoses 32 2 1 1 1.

(** A stand-in for [glm::inverse]. *)
Definition inverse (m : glm.mat4) : glm.mat4 :=
  glm.mkmat4 (glm.m_c3 m) (glm.m_c2 m) (glm.m_c1 m) (glm.m_c0 m).

Definition zero3 : ovrVector3f := mkVector3f f0 f0 f0.
Definition pose0 : ovrPosef := mkPosef (mkQuatf f0 f0 f0 f1) zero3.
Definition zero_mat : glm.mat4 :=
  let z := glm.mkvec4 f0 f0 f0 f0 in glm.mkmat4 z z z z.
Definition rect0 : ovrRecti := mkRecti (mkVector2i 0 0) (mkSizei 0 0).

Definition device0 : TrackingDevice :=
  {| EnabledCaps := 0;
     TrackingCaps := None;
     TrackingState_Now := mkTrackingState pose0 34;
     TrackingState_DisplayMidpoint := mkTrackingState pose0 34;
     SubmitFrameResult := 1000;
     ConfigureTrackingResult := 0;
     SwapTextureCount := 2;
     nextTextureSet := 0%nat;
     calls := [] |}.

Definition window_gl : Window := mkWindow true (RendererGl None None) [].
Definition window_2d : Window := mkWindow true RendererOther [].

Definition windows0 : gmap nat Window :=
  <[1%nat := window_gl]> (<[2%nat := window_2d]> ∅).

Definition gl0 : GlContext :=
  mkGlContext (glm.mkivec2 0 0, glm.mkivec2 0 0) glm.identity glm.identity glm.identity
              None false.

Definition hostCamera : CameraPersp :=
  mkCameraPersp (glm.mkvec3 f0 f0 f1) glm.quat_identity f0_5 (float_of_int 1000).

Definition eyeCamera : HmdEyeCamera :=
  mkHmdEyeCamera
    (mkCameraPersp (glm.mkvec3 f0 f0 f0) glm.quat_identity f0_5 (float_of_int 1000))
    zero_mat.

Definition rift0 : OculusRift :=
  {| mWindow := None;
     mHeadScale := f1;
     mScreenPercentage := f1;
     mMirrorPercentage := f0_5;
     mHmdCaps := 640;
     mTrackingCaps := 7;
     mHmdSettingsChanged := true;
     mIsExtended := false;
     mIsMirrrored := true;
     mIsMonoscopic := false;
     mUsePositionalTracking := true;
     mHmd := Some dk2;
     mHostCamera := hostCamera;
     mHmdEyeCamera := eyeCamera;
     mEye := ovrEye_Left;
     mEyeRenderDesc := (mkEyeRenderDesc ovrEye_Left fovL zero3,
                        mkEyeRenderDesc ovrEye_Left fovL zero3);
     mEyeViewOffset := (zero3, zero3);
     mEyeRenderPose := (pose0, pose0);
     mLayer := mkLayerEyeFov (mkLayerHeader 0 0) (None, None) (rect0, rect0)
                             (fovL, fovL) (pose0, pose0);
     mRenderBuffer := None;
     mDepthBuffer := None;
     mMirrorTexture := None;
     mViewMatrix := zero_mat;
     mInverseViewMatrix := zero_mat;
     mProjectionMatrix := zero_mat;
     mViewMatrixCached := false;
     mInverseViewMatrixCached := false;
     mProjectionCached := false |}.

(** Before [attachToWindow]. *)
Definition world0 : World := mkWorld rift0 device0 windows0 gl0.

(** After a successful [initialize] on window 1. *)
Definition attached : World := world_after (initialize sdk (Some 1%nat) world0).

(** The world when the first frame has begun and its target is
    bound; [world0] if that fails. *)
Definition in_frame : World :=
  default world0 (w ← startDrawFn sdk attached; bind w).

(** *** A device whose eyes the projection does not tell apart

    The projection is computed from the four tangents the way
    off-axis projections are, every operation rounded to [float]:
    scale [2 / (l + r)] and offset [(l - r) * scale * 0.5] along x,
    the same along y, and the clip planes in the third row.  The two
    eyes of the device differ in their right tangent, [2^-30] against
    [2^-31], which both vanish when added to or subtracted from 1. *)
Definition f2_m30 : float := binary_normalize prec32 emax32 1 (-30) false.
Definition f2_m31 : float := binary_normalize prec32 emax32 1 (-31) false.

Definition fovA : ovrFovPort := mkFovPort f1 f1 f1 f2_m30.
Definition fovB : ovrFovPort := mkFovPort f1 f1 f1 f2_m31.

Definition one_sided : ovrHmdDesc :=
  mkHmdDesc (ovrEye_Left, ovrEye_Right) (fovA, fovB) (mkSizei 1920 1080).

Definition OffAxisProjection (fov : ovrFovPort) (znear zfar : float) (flags : Z)
  : ovrMatrix4f :=
  let xscale := (f2 / (LeftTan fov + RightTan fov))%f32 in
  let xoffset := ((LeftTan fov - RightTan fov) * xscale * f0_5)%f32 in
  let yscale := (f2 / (UpTan fov + DownTan fov))%f32 in
  let yoffset := ((UpTan fov - DownTan fov) * yscale * f0_5)%f32 in
  let handedness := if Z.testbit flags 0 then fneg f1 else f1 in
  mkMatrix4f
    (glm.mkvec4 xscale f0 (handedness * xoffset)%f32 f0)
    (glm.mkvec4 f0 yscale (handedness * - yoffset)%f32 f0)
    (glm.mkvec4 f0 f0 (- handedness * zfar / (znear - zfar))%f32
                (zfar * znear / (znear - zfar))%f32)
    (glm.mkvec4 f0 f0 handedness f0).

Definition sdk_off_axis : VendorSDK :=
  mkVendorSDK GetFovTextureSize GetRenderDesc OffAxisProjection CalcEyePoses 32 2 1 1 1.

(** The first frame on that device, begun and bound; [world0] if
    that fails. *)
Definition in_frame_one_sided : World :=
  let w0 := set_rift (set_mHmd (Some one_sided) rift0) world0 in
  default world0
    (w ← startDrawFn sdk_off_axis
           (world_after (initialize sdk_off_axis (Some 1%nat) w0));
     bind w).

(** *** A device asking for textures at the limit of [int]

    Each eye asks for a texture [2^30] wide. *)
Definition GetFovTextureSize_huge (hmd : ovrHmdDesc) (eye : ovrEyeType) (fov : ovrFovPort)
           (pixelsPerDisplayPixel : float) : ovrSizei :=
  mkSizei (2 ^ 30) 1100.

Definition sdk_huge : VendorSDK :=
  mkVendorSDK GetFovTextureSize_huge GetRenderDesc Projection CalcEyePoses 32 2 1 1 1.

End Fake.

(** * The vocabulary of the properties *)

(** The message of the exception [initialize] throws. *)
Definition not_RendererGl : string :=
  "CinderOculus can only be used in combination with RendererGl.".

(** The hooks of a renderer once [detachFromWindow] has run on it. *)
Definition unhooked (r : Renderer) : Renderer :=
  match r with
  | RendererGl _ _ => RendererGl None None
  | RendererOther => RendererOther
  end.

(** The hooks of a renderer once [initialize] has run on it. *)
Definition hooked (win : Window) : Window :=
  mkWindow (win_isValid win)
           (RendererGl (Some Bound_startDrawFn) (Some Bound_finishDrawFn))
           (win_signalClose win ++ [Slot_detachFromWindow]).

(** The device answering [result] to the next [ovrHmd_SubmitFrame]. *)
Definition with_SubmitFrameResult (result : ovrResult) (w : World) : World :=
  set_device (set_SubmitFrameResult result (device w)) w.

(** The calls [initializeFrameBuffer] makes on the device. *)
Definition frameBuffer_calls (sdk : VendorSDK) (hmd : ovrHmdDesc) (r : OculusRift)
  : list ovrCall :=
  [Call_GetFovTextureSize ovrEye_Left (mScreenPercentage r);
   Call_GetFovTextureSize ovrEye_Right (mScreenPercentage r)]
  ++ (if needsNewBuffer r (frameBufferSize sdk hmd (mScreenPercentage r))
      then [Call_CreateSwapTextureSet (frameBufferSize sdk hmd (mScreenPercentage r));
            Call_GetRenderDesc ovrEye_Left; Call_GetRenderDesc ovrEye_Right]
      else []).

(** The log of a destructor that runs with a render target. *)
Definition destructor_calls (r : OculusRift) (tb : TextureBuffer) : list ovrCall :=
  [Call_DestroyMirrorTexture (mMirrorTexture r); Call_DestroySwapTextureSet (tb_set tb)]
  ++ (match mHmd r with Some _ => [Call_Destroy] | None => [] end).

(** The members of the session [startDrawFn] computes from. *)
Definition begun (sdk : VendorSDK) (hmd : ovrHmdDesc) (w : World) : World :=
  let w := initializeFrameBuffer_on sdk hmd
             (set_gl (set_gl_currentContext true (gl w)) w) in
  if mHmdSettingsChanged (rift w) then updateHmdSettings w else w.

Definition frame_offsets (r : OculusRift) : array2 ovrVector3f :=
  if mIsMonoscopic r then (zero_x (fst (mEyeViewOffset r)), zero_x (snd (mEyeViewOffset r)))
  else (HmdToEyeViewOffset (fst (mEyeRenderDesc r)),
        HmdToEyeViewOffset (snd (mEyeRenderDesc r))).

(** What no call made while a frame is in flight changes: the size of
    the render target, the screen percentage and the device handle. *)
Definition same_target (w w' : World) : Prop :=
  tb_size <$> mRenderBuffer (rift w') = tb_size <$> mRenderBuffer (rift w)
  /\ mScreenPercentage (rift w') = mScreenPercentage (rift w)
  /\ mHmd (rift w') = mHmd (rift w).

(** The literal [1.25f] and the calls of the sample application's
    [draw] after [bind]. *)
Definition f1_25 : float := binary_normalize prec32 emax32 5 (-2) false.

Definition rest_of_frame : list FrameOp :=
  [Op_enableEye 0 true; Op_getViewMatrix; Op_enableEye 1 true;
   Op_getInverseViewMatrix; Op_unbind; Op_finishDrawFn].

(** The sample application switches to monoscopic mode after its first
    frame. *)
Definition monoscopic_after_first_frame : World :=
  enableMonoscopic true (finishDrawFn (unbind Fake.in_frame)).

(** The specification's view matrix at the members of a session. *)
Definition view_of (sdk : VendorSDK) (w : World) : glm.mat4 :=
  Spec.view_matrix (cam_Orientation (mHostCamera (rift w)))
                   (cam_Orientation (eye_camera (mHmdEyeCamera (rift w))))
                   (cam_EyePoint (mHostCamera (rift w)))
                   (cam_EyePoint (eye_camera (mHmdEyeCamera (rift w))))
                   (Spec.tracking sdk w)
                   (mHeadScale (rift w)).

(** The matrix [ovrMatrix4f_Projection] gives for an eye at the
    members of a session: the field of view of its eye render
    description, the clip planes of the eye camera, a right-handed
    projection. *)
Definition sdk_projection (sdk : VendorSDK) (r : OculusRift) (eye : ovrEyeType)
  : ovrMatrix4f :=
  ovrMatrix4f_Projection sdk (Fov (nth2 (mEyeRenderDesc r) eye))
    (cam_NearClip (eye_camera (mHmdEyeCamera r)))
    (cam_FarClip (eye_camera (mHmdEyeCamera r)))
    (ovrProjection_RightHanded sdk).

(** The members and the device answer the three matrices are computed
    from. *)
Definition same_members (w w' : World) : Prop :=
  mHostCamera (rift w') = mHostCamera (rift w)
  /\ mHmdEyeCamera (rift w') = mHmdEyeCamera (rift w)
  /\ mHeadScale (rift w') = mHeadScale (rift w)
  /\ mUsePositionalTracking (rift w') = mUsePositionalTracking (rift w)
  /\ mEyeRenderDesc (rift w') = mEyeRenderDesc (rift w)
  /\ mEyeRenderPose (rift w') = mEyeRenderPose (rift w)
  /\ mEye (rift w') = mEye (rift w)
  /\ TrackingState_Now (device w') = TrackingState_Now (device w).


(** The sample application activates an eye, reads the view matrix,
    doubles the head scale and reads the view matrix again. *)
Definition rescaled_after_read : World :=
  setHeadScale f2
    (snd (getViewMatrix Fake.sdk
            (default Fake.world0 (enableEye Fake.sdk 0 false Fake.in_frame)))).

(** * More of the session

    The runtime singleton, the sample application's eye loop with the
    eyes it activates, sequences of matrix reads and of session calls,
    and the shape of the layer the session submits. *)

(** ** [RiftManager]

    The two statics of the class and the calls made on the runtime.
    [mInstance] is [true] for a non-null pointer, [mOnceFlag] once a
    [std::call_once] on it has returned. *)
Inductive RuntimeCall : Type := Call_ovr_Initialize | Call_ovr_Shutdown.

Record RiftManagerStatics := mkRiftManagerStatics
  { mInstance : bool;
    mOnceFlag : bool;
    runtime_calls : list RuntimeCall }.

(** [mInstance.reset( new RiftManager )]: the constructor runs
    [ovr_Initialize] (whose result is only logged), then [reset]
    deletes the instance held before, whose destructor runs
    [ovr_Shutdown]. *)
Definition RiftManager_reset_new (st : RiftManagerStatics) : RiftManagerStatics :=
  let calls1 := runtime_calls st ++ [Call_ovr_Initialize] in
  let calls2 := if mInstance st then calls1 ++ [Call_ovr_Shutdown] else calls1 in
  mkRiftManagerStatics true (mOnceFlag st) calls2.

(** [RiftManager::initialize]: the body under [std::call_once]. *)
Definition RiftManager_initialize (st : RiftManagerStatics) : RiftManagerStatics :=
  if mOnceFlag st then st
  else
    let st := RiftManager_reset_new st in
    mkRiftManagerStatics (mInstance st) true (runtime_calls st).

(** The statics as their initialisers leave them. *)
Definition RiftManager_statics : RiftManagerStatics :=
  mkRiftManagerStatics false false [].

(** ** The eye loop of [BasicSampleApp::draw]

    [for( auto eye : mRift.getEyes() ) { mRift.enableEye( eye ); ... }]
    with, for each iteration, the eye that is active while the scene
    is drawn. *)
Fixpoint eyes_rendered (sdk : VendorSDK) (eyes : list ovrEyeType) (w : World)
  : option (list ovrEyeType) :=
  match eyes with
  | [] => Some []
  | eye :: rest =>
      w ← enableEye sdk (int_of_eye eye) true w;
      active ← eyes_rendered sdk rest w;
      Some (mEye (rift w) :: active)
  end.

(** ** Sequences of matrix reads *)
Inductive Getter : Type := Get_ViewMatrix | Get_InverseViewMatrix | Get_ProjectionMatrix.

Definition run_getter (sdk : VendorSDK) (glm_inverse : glm.mat4 -> glm.mat4)
           (g : Getter) (w : World) : glm.mat4 * World :=
  match g with
  | Get_ViewMatrix => getViewMatrix sdk w
  | Get_InverseViewMatrix => getInverseViewMatrix sdk glm_inverse w
  | Get_ProjectionMatrix => getProjectionMatrix w
  end.

Fixpoint run_getters (sdk : VendorSDK) (glm_inverse : glm.mat4 -> glm.mat4)
         (gs : list Getter) (w : World) : list glm.mat4 * World :=
  match gs with
  | [] => ([], w)
  | g :: rest =>
      let '(m, w) := run_getter sdk glm_inverse g w in
      let '(ms, w) := run_getters sdk glm_inverse rest w in
      (m :: ms, w)
  end.

(** ** Sequences of session calls

    Everything an application and the host call on a session:
    the calls made while a frame is in flight, [setScreenPercentage],
    the pre-draw hook, [initialize] (an application that catches its
    exception goes on with the world it left) and [detachFromWindow]. *)
Inductive SessionOp : Type :=
| Do_frameOp (op : FrameOp)
| Do_setScreenPercentage (sp : float)
| Do_startDrawFn
| Do_initialize (window : WindowRef)
| Do_detachFromWindow.

Definition run_session_op (sdk : VendorSDK) (glm_inverse : glm.mat4 -> glm.mat4)
           (op : SessionOp) (w : World) : option World :=
  match op with
  | Do_frameOp op => run_op sdk glm_inverse op w
  | Do_setScreenPercentage sp => setScreenPercentage sp w
  | Do_startDrawFn => startDrawFn sdk w
  | Do_initialize window => Some (world_after (initialize sdk window w))
  | Do_detachFromWindow => Some (detachFromWindow w)
  end.

Fixpoint run_session (sdk : VendorSDK) (glm_inverse : glm.mat4 -> glm.mat4)
         (ops : list SessionOp) (w : World) : option World :=
  match ops with
  | [] => Some w
  | op :: rest => w ← run_session_op sdk glm_inverse op w; run_session sdk glm_inverse rest w
  end.

(** ** The layer and the render target *)

(** The two viewports [initializeFrameBuffer] writes for a target of
    the given size. *)
Definition side_by_side (size : glm.ivec2) : array2 ovrRecti :=
  (mkRecti (mkVector2i 0 0) (mkSizei (Z.quot (glm.ix size) 2) (glm.iy size)),
   mkRecti (mkVector2i (Z.quot (glm.ix size) 2) 0)
           (mkSizei (Z.quot (glm.ix size) 2) (glm.iy size))).

(** The layer describes the render target the session holds: same
    swap texture set for both eyes, the two halves of its size as
    viewports, the fields of view of the eye render descriptions, and
    a depth buffer of the same size. *)
Definition layer_describes_target (r : OculusRift) : Prop :=
  forall tb : TextureBuffer,
    mRenderBuffer r = Some tb ->
    mDepthBuffer r = Some (mkDepthBuffer (tb_size tb) 0)
    /\ ColorTexture (mLayer r) = (Some (tb_set tb), Some (tb_set tb))
    /\ Viewport (mLayer r) = side_by_side (tb_size tb)
    /\ LayerFov (mLayer r) = (Fov (fst (mEyeRenderDesc r)), Fov (snd (mEyeRenderDesc r))).

(** The swap texture set and the size of the render target. *)
Definition target_id (r : OculusRift) : option (nat * glm.ivec2) :=
  (fun tb => (tb_set tb, tb_size tb)) <$> mRenderBuffer r.

(** What the calls made while a frame is in flight leave alone: the
    poses and offsets of the frame, the layer to submit, the eye
    render descriptions, the render target (its ring index apart) and
    the device handle. *)
Definition same_frame (w w' : World) : Prop :=
  mEyeRenderPose (rift w') = mEyeRenderPose (rift w)
  /\ mEyeViewOffset (rift w') = mEyeViewOffset (rift w)
  /\ mLayer (rift w') = mLayer (rift w)
  /\ mEyeRenderDesc (rift w') = mEyeRenderDesc (rift w)
  /\ mDepthBuffer (rift w') = mDepthBuffer (rift w)
  /\ target_id (rift w') = target_id (rift w)
  /\ mHmd (rift w') = mHmd (rift w).

(** The log of the second world is that of the first with [l]
    appended. *)
Definition appended (w w' : World) (l : list ovrCall) : Prop :=
  calls (device w') = calls (device w) ++ l.

(** What no call on the session changes: the capabilities the
    constructor chose and the extended-desktop flag. *)
Definition same_caps (w w' : World) : Prop :=
  mHmdCaps (rift w') = mHmdCaps (rift w)
  /\ mTrackingCaps (rift w') = mTrackingCaps (rift w)
  /\ mIsExtended (rift w') = mIsExtended (rift w).

(** The capabilities sent by the [ovrHmd_SetEnabledCaps] calls of a
    log. *)
Fixpoint caps_sent (log : list ovrCall) : list Z :=
  match log with
  | [] => []
  | Call_SetEnabledCaps caps :: rest => caps :: caps_sent rest
  | _ :: rest => caps_sent rest
  end.

(** The swap texture sets created by the calls of a log. *)
Fixpoint sets_created (log : list ovrCall) : nat :=
  match log with
  | [] => 0%nat
  | Call_CreateSwapTextureSet _ :: rest => S (sets_created rest)
  | _ :: rest => sets_created rest
  end.

(** The tracking-state polls of a log. *)
Fixpoint polls (log : list ovrCall) : nat :=
  match log with
  | [] => 0%nat
  | Call_GetTrackingState _ :: rest => S (polls rest)
  | _ :: rest => polls rest
  end.

(** [bind] repeated. *)
Fixpoint bind_times (n : nat) (w : World) : option World :=
  match n with
  | O => Some w
  | S k => w ← bind w; bind_times k w
  end.

(** The ring index of the render target, when there is one. *)
Definition ring_index (w : World) : option Z :=
  (fun tb => CurrentIndex (TextureSet tb)) <$> mRenderBuffer (rift w).

(** A piece of log without capability changes and without new swap
    texture sets. *)
Definition quiet (l : list ovrCall) : Prop :=
  caps_sent l = [] /\ sets_created l = 0%nat.

(** What every call made while a frame is in flight guarantees. *)
Definition in_flight_step (w w' : World) : Prop :=
  same_frame w w' /\ same_caps w w'
  /\ exists l : list ovrCall, appended w w' l /\ quiet l.

(** What every call on the session guarantees: the capabilities stay
    what they were and every capability change logged sends them;
    a layer that describes the render target still does. *)
Definition session_step (w w' : World) : Prop :=
  same_caps w w'
  /\ (layer_describes_target (rift w) -> layer_describes_target (rift w'))
  /\ exists l : list ovrCall,
       appended w w' l /\ Forall (eq (mHmdCaps (rift w))) (caps_sent l).

(** A session of the sample application: attach, a frame with both
    eyes, a toggle of the mirrored output, a larger screen
    percentage, and the next frame. *)
Definition sample_session : list SessionOp :=
  [Do_initialize (Some 1%nat); Do_startDrawFn; Do_frameOp Op_bind;
   Do_frameOp (Op_enableEye 0 true); Do_frameOp (Op_enableEye 1 true);
   Do_frameOp Op_unbind; Do_frameOp Op_finishDrawFn;
   Do_frameOp (Op_enableMirrored false); Do_setScreenPercentage f1_25;
   Do_startDrawFn; Do_detachFromWindow].

(** A cached inverse view matrix is the inverse of the cached view
    matrix. *)
Definition inverse_consistent (glm_inverse : glm.mat4 -> glm.mat4) (r : OculusRift) : Prop :=
  mInverseViewMatrixCached r = true ->
  mViewMatrixCached r = true /\ mInverseViewMatrix r = glm_inverse (mViewMatrix r).

(** The sample application with a second window drawn by a
    [RendererGl]. *)
Definition two_gl_windows : World :=
  set_windows (<[3%nat := Fake.window_gl]> Fake.windows0) Fake.world0.

(** * Properties *)

(** ** Detaching *)

Section Detach.

Lemma isValid_lookup (w : World) (n : nat) (win : Window) :
  windows w !! n = Some win -> isValid (Some n) w = win_isValid win.
Proof. intros H. unfold isValid. now rewrite H. Qed.

Lemma detach_unattached (w : World) :
  isValid (mWindow (rift w)) w = false -> detachFromWindow w = w.
Proof. intros H. unfold detachFromWindow. now rewrite H. Qed.

Lemma detach_attached (w : World) (n : nat) :
  mWindow (rift w) = Some n -> isValid (Some n) w = true ->
  detachFromWindow w =
  set_rift (set_mWindow None (rift w))
           (set_windows (alter (setDrawFns None None) n (windows w)) w).
Proof. intros Hn E. unfold detachFromWindow. rewrite Hn, E. reflexivity. Qed.

Lemma setDrawFns_None_renderer (win : Window) :
  win_renderer (setDrawFns None None win) = unhooked (win_renderer win).
Proof.
  unfold setDrawFns.
  destruct (win_renderer win) eqn:E; cbn; [reflexivity | exact E].
Qed.

(** What [detachFromWindow] leaves alone, attached or not. *)
Lemma detach_keeps (w : World) :
  device (detachFromWindow w) = device w
  /\ gl (detachFromWindow w) = gl w
  /\ mHmd (rift (detachFromWindow w)) = mHmd (rift w)
  /\ mRenderBuffer (rift (detachFromWindow w)) = mRenderBuffer (rift w)
  /\ mDepthBuffer (rift (detachFromWindow w)) = mDepthBuffer (rift w)
  /\ mMirrorTexture (rift (detachFromWindow w)) = mMirrorTexture (rift w).
Proof.
  unfold detachFromWindow.
  destruct (isValid (mWindow (rift w)) w); [|now repeat split].
  destruct (mWindow (rift w)); now repeat split.
Qed.

(** C7. [detachFromWindow] is idempotent: it is a total function of
    the world, so no call of it raises an error, and a second call in
    succession leaves exactly the world the first call left. *)
Theorem detachFromWindow_idempotent :
  forall w : World,
    detachFromWindow (detachFromWindow w) = detachFromWindow w.
Proof.
  intros w.
  destruct (isValid (mWindow (rift w)) w) eqn:E.
  - destruct (mWindow (rift w)) as [n|] eqn:Hn; [|discriminate E].
    rewrite (detach_attached w n Hn E).
    apply detach_unattached. reflexivity.
  - rewrite (detach_unattached w E). now apply detach_unattached.
Qed.

(** C6, as the code has it.  On a session attached to a valid window
    [detachFromWindow] unregisters the two hooks and drops the window
    reference, and nothing more: the render target, the mirror
    texture, the device handle and the device are as before.  They
    go in the destructor, which detaches first, then destroys the
    mirror texture, the swap texture set and the handle. *)
Theorem detachFromWindow_unhooks_only :
  forall (w : World) (n : nat) (win : Window),
    mWindow (rift w) = Some n ->
    windows w !! n = Some win ->
    win_isValid win = true ->
    (win_renderer <$> windows (detachFromWindow w) !! n = Some (unhooked (win_renderer win))
     /\ mWindow (rift (detachFromWindow w)) = None
     /\ mRenderBuffer (rift (detachFromWindow w)) = mRenderBuffer (rift w)
     /\ mDepthBuffer (rift (detachFromWindow w)) = mDepthBuffer (rift w)
     /\ mMirrorTexture (rift (detachFromWindow w)) = mMirrorTexture (rift w)
     /\ mHmd (rift (detachFromWindow w)) = mHmd (rift w)
     /\ device (detachFromWindow w) = device w)
    /\ (forall tb : TextureBuffer,
          mRenderBuffer (rift w) = Some tb ->
          exists w' : World,
            destructor w = Some w'
            /\ win_renderer <$> windows w' !! n = Some (unhooked (win_renderer win))
            /\ mWindow (rift w') = None
            /\ mRenderBuffer (rift w') = None
            /\ mDepthBuffer (rift w') = None
            /\ mHmd (rift w') = None
            /\ calls (device w') = calls (device w) ++ destructor_calls (rift w) tb).
Proof.
  intros w n win Hn Hwin Hvalid.
  assert (E : isValid (Some n) w = true)
    by (rewrite (isValid_lookup w n win Hwin); exact Hvalid).
  assert (Hren : win_renderer <$> windows (detachFromWindow w) !! n
                 = Some (unhooked (win_renderer win))).
  { rewrite (detach_attached w n Hn E). cbn.
    rewrite lookup_alter_eq, Hwin. cbn. now rewrite setDrawFns_None_renderer. }
  assert (Hwnd : mWindow (rift (detachFromWindow w)) = None)
    by (rewrite (detach_attached w n Hn E); reflexivity).
  destruct (detach_keeps w) as (Hdev & Hgl & Hhmd & Hrb & Hdb & Hmt).
  split; [now repeat split|].
  intros tb Htb. unfold destructor.
  cbn. rewrite Hrb, Htb. cbn.
  eexists. split; [reflexivity|].
  rewrite Hhmd, Hmt. unfold destructor_calls.
  destruct (mHmd (rift w)); cbn; rewrite Hdev, <- ?app_assoc;
    repeat split; solve [assumption | reflexivity].
Qed.

End Detach.

(** C7 and C6 on the sample application: the window of the attached
    session is valid and drawn by a [RendererGl]. *)
Lemma detachFromWindow_unhooks_only_witness :
  win_renderer <$> windows (detachFromWindow Fake.attached) !! 1%nat
  = Some (RendererGl None None)
  /\ mWindow (rift (detachFromWindow Fake.attached)) = None.
Proof.
  destruct (detachFromWindow_unhooks_only Fake.attached 1%nat
              (hooked Fake.window_gl)) as [(Hr & Hw & _) _].
  - reflexivity.
  - vm_compute. reflexivity.
  - reflexivity.
  - split; [exact Hr | exact Hw].
Defined.

(** C6 as the specification states it does not hold: after
    [detachFromWindow] on the attached sample session the render
    target is still there, the device handle is not null and no
    destroy call has reached the device. *)
Lemma detachFromWindow_keeps_target_and_handle :
  isValid (mWindow (rift Fake.attached)) Fake.attached = true
  /\ mHmd (rift (detachFromWindow Fake.attached)) = Some Fake.dk2
  /\ mRenderBuffer (rift (detachFromWindow Fake.attached))
     = Some (mkTextureBuffer 0 (glm.mkivec2 2000 1100) (mkSwapTextureSet 2 0))
  /\ calls (device (detachFromWindow Fake.attached)) = calls (device Fake.attached)
  /\ ~ In Call_Destroy (calls (device (detachFromWindow Fake.attached))).
Proof.
  split; [vm_compute; reflexivity|].
  split; [vm_compute; reflexivity|].
  split; [vm_compute; reflexivity|].
  split; [vm_compute; reflexivity|].
  vm_compute. intros H.
  repeat (destruct H as [H|H]; [discriminate H|]). exact H.
Qed.

(** ** Attaching *)

Section Attach.

Variable sdk : VendorSDK.

Lemma initializeFrameBuffer_on_keeps (hmd : ovrHmdDesc) (w : World) :
  windows (initializeFrameBuffer_on sdk hmd w) = windows w
  /\ gl (initializeFrameBuffer_on sdk hmd w) = gl w
  /\ mWindow (rift (initializeFrameBuffer_on sdk hmd w)) = mWindow (rift w)
  /\ mHmd (rift (initializeFrameBuffer_on sdk hmd w)) = mHmd (rift w)
  /\ mHmdCaps (rift (initializeFrameBuffer_on sdk hmd w)) = mHmdCaps (rift w)
  /\ mTrackingCaps (rift (initializeFrameBuffer_on sdk hmd w)) = mTrackingCaps (rift w).
Proof.
  unfold initializeFrameBuffer_on. cbn.
  destruct (needsNewBuffer _ _); now repeat split.
Qed.

Lemma updateHmdSettings_keeps (w : World) :
  windows (updateHmdSettings w) = windows w
  /\ gl (updateHmdSettings w) = gl w
  /\ mWindow (rift (updateHmdSettings w)) = mWindow (rift w)
  /\ mHmd (rift (updateHmdSettings w)) = mHmd (rift w)
  /\ mRenderBuffer (rift (updateHmdSettings w)) = mRenderBuffer (rift w)
  /\ mHmdSettingsChanged (rift (updateHmdSettings w)) = false
  /\ EnabledCaps (device (updateHmdSettings w)) = mHmdCaps (rift w)
  /\ calls (device (updateHmdSettings w))
     = calls (device w) ++ [Call_SetEnabledCaps (mHmdCaps (rift w))].
Proof. now repeat split. Qed.

(** C5, as the code has it.  With a renderer that is not a
    [RendererGl], [initialize] never returns [true], registers no
    hook and leaves [mWindow] as it was; without a device handle or
    with an invalid window it returns [false] before looking at the
    renderer, otherwise it throws [std::runtime_error] once the
    frame buffer and the device settings are set up.  With a valid
    window drawn by a [RendererGl] and a device handle it installs
    both hooks, connects to the close signal, keeps the window and
    returns [true]. *)
Theorem initialize_checks_renderer :
  forall (w : World) (n : nat) (win : Window),
    windows w !! n = Some win ->
    (win_renderer win = RendererOther ->
     initialize sdk (Some n) w
     = match mHmd (rift w) with
       | Some hmd =>
           if win_isValid win
           then Throws not_RendererGl
                  (updateHmdSettings (initializeFrameBuffer_on sdk hmd w))
           else Returns false w
       | None => Returns false w
       end
     /\ mWindow (rift (world_after (initialize sdk (Some n) w))) = mWindow (rift w)
     /\ windows (world_after (initialize sdk (Some n) w)) = windows w)
    /\ (forall (start finish : option DrawFn) (hmd : ovrHmdDesc),
          win_renderer win = RendererGl start finish ->
          win_isValid win = true ->
          mHmd (rift w) = Some hmd ->
          exists w' : World,
            initialize sdk (Some n) w = Returns true w'
            /\ mWindow (rift w') = Some n
            /\ windows w' !! n = Some (hooked win)
            /\ (forall m : nat, m <> n -> windows w' !! m = windows w !! m)).
Proof.
  intros w n win Hwin.
  pose proof (isValid_lookup w n win Hwin) as Hvalid.
  split.
  - intros Hother. unfold initialize. rewrite Hvalid.
    destruct (mHmd (rift w)) as [hmd|]; [|now repeat split].
    destruct (win_isValid win); [|now repeat split].
    destruct (updateHmdSettings_keeps (initializeFrameBuffer_on sdk hmd w))
      as (Hw1 & _ & Hm1 & _).
    destruct (initializeFrameBuffer_on_keeps hmd w) as (Hw0 & _ & Hm0 & _).
    cbv zeta. rewrite Hw1, Hw0, Hwin. cbn [fmap option_fmap option_map].
    rewrite Hother. cbn [world_after].
    rewrite Hw1, Hw0, Hm1, Hm0. now repeat split.
  - intros start finish hmd Hgl Hv Hhmd. unfold initialize.
    rewrite Hvalid, Hhmd, Hv.
    destruct (updateHmdSettings_keeps (initializeFrameBuffer_on sdk hmd w))
      as (Hw1 & _).
    destruct (initializeFrameBuffer_on_keeps hmd w) as (Hw0 & _).
    cbv zeta. rewrite Hw1, Hw0, Hwin. cbn. rewrite Hgl.
    eexists. split; [reflexivity|].
    destruct (OVR_SUCCESS _); cbn; (split; [reflexivity|]); split.
    all: try (rewrite !lookup_alter_eq, Hwin; cbn;
              unfold setDrawFns, connectClose, hooked; rewrite Hgl; reflexivity).
    all: intros m Hm; now rewrite !lookup_alter_ne by congruence.
Qed.

End Attach.

(** C5 on the sample application: window 2 is drawn by another
    renderer, window 1 by a [RendererGl]. *)
Lemma initialize_checks_renderer_witness :
  initialize Fake.sdk (Some 2%nat) Fake.world0
  = Throws not_RendererGl
      (updateHmdSettings (initializeFrameBuffer_on Fake.sdk Fake.dk2 Fake.world0))
  /\ exists w' : World,
       initialize Fake.sdk (Some 1%nat) Fake.world0 = Returns true w'
       /\ mWindow (rift w') = Some 1%nat
       /\ windows w' !! 1%nat = Some (hooked Fake.window_gl).
Proof.
  split.
  - destruct (initialize_checks_renderer Fake.sdk Fake.world0 2%nat Fake.window_2d)
      as [H _]; [reflexivity|].
    destruct H as (H & _); [reflexivity|]. exact H.
  - destruct (initialize_checks_renderer Fake.sdk Fake.world0 1%nat Fake.window_gl)
      as [_ H]; [reflexivity|].
    destruct (H None None Fake.dk2) as (w' & H1 & H2 & H3 & _);
      [reflexivity | reflexivity | reflexivity |].
    exists w'. now repeat split.
Defined.

(** C5 as the specification states it does not hold: on the sample
    application's window 2, which is valid and drawn by a renderer that
    is not a [RendererGl], [initialize] does not return failure: it
    throws. *)
Lemma initialize_throws_instead_of_returning :
  win_renderer <$> windows Fake.world0 !! 2%nat = Some RendererOther
  /\ isValid (Some 2%nat) Fake.world0 = true
  /\ (exists w' : World,
        initialize Fake.sdk (Some 2%nat) Fake.world0 = Throws not_RendererGl w')
  /\ (forall (b : bool) (w' : World),
        initialize Fake.sdk (Some 2%nat) Fake.world0 <> Returns b w').
Proof.
  split; [vm_compute; reflexivity|]. split; [vm_compute; reflexivity|].
  assert (H : initialize Fake.sdk (Some 2%nat) Fake.world0
              = Throws not_RendererGl
                  (updateHmdSettings
                     (initializeFrameBuffer_on Fake.sdk Fake.dk2 Fake.world0)))
    by (vm_compute; reflexivity).
  split.
  - eexists. exact H.
  - intros b w'. rewrite H. discriminate.
Qed.

(** ** The eyes to render *)

Section Eyes.

Variable sdk : VendorSDK.

(** C10. With a device handle and a valid attached window [getEyes]
    is the device's eye render order, element 0 then element 1;
    otherwise it is empty, and the iteration pattern then activates
    no eye and draws nothing: it leaves the world as it found it. *)
Theorem getEyes_render_order :
  forall w : World,
    (forall hmd : ovrHmdDesc,
        mHmd (rift w) = Some hmd ->
        isValid (mWindow (rift w)) w = true ->
        getEyes w = [fst (EyeRenderOrder hmd); snd (EyeRenderOrder hmd)])
    /\ (mHmd (rift w) = None \/ isValid (mWindow (rift w)) w = false ->
        getEyes w = []
        /\ forall drawScene : World -> option World,
             forEachEye sdk drawScene w = Some w).
Proof.
  intros w. split.
  - intros hmd Hhmd Hvalid. unfold getEyes. now rewrite Hhmd, Hvalid.
  - intros H.
    assert (E : getEyes w = []).
    { unfold getEyes. destruct H as [H|H]; rewrite H; [reflexivity|].
      now destruct (mHmd (rift w)). }
    split; [exact E|].
    intros drawScene. unfold forEachEye. now rewrite E.
Qed.

End Eyes.

(** C10 on the sample application, attached and not yet attached. *)
Lemma getEyes_render_order_witness :
  getEyes Fake.attached = [ovrEye_Right; ovrEye_Left]
  /\ getEyes Fake.world0 = []
  /\ forEachEye Fake.sdk (fun _ => None) Fake.world0 = Some Fake.world0.
Proof.
  split; [|split].
  - apply (proj1 (getEyes_render_order Fake.sdk Fake.attached) Fake.dk2); reflexivity.
  - apply (proj2 (getEyes_render_order Fake.sdk Fake.world0)). right. reflexivity.
  - apply (proj2 (getEyes_render_order Fake.sdk Fake.world0)). right. reflexivity.
Defined.

(** ** Submitting the frame *)

Section Submit.

Variable sdk : VendorSDK.

Lemma finishDrawFn_result_commutes (result : ovrResult) (w : World) :
  finishDrawFn (with_SubmitFrameResult result w)
  = with_SubmitFrameResult result (finishDrawFn w).
Proof. reflexivity. Qed.

Lemma startDrawFn_result_commutes (result : ovrResult) (w : World) :
  startDrawFn sdk (with_SubmitFrameResult result w)
  = with_SubmitFrameResult result <$> startDrawFn sdk w.
Proof.
  unfold startDrawFn, initializeFrameBuffer. cbn.
  destruct (mHmd (rift w)) as [hmd|]; [|reflexivity]. cbn.
  unfold initializeFrameBuffer_on. cbn.
  destruct (needsNewBuffer (rift w) _); cbn;
    destruct (mHmdSettingsChanged (rift w)); cbn;
    destruct (isMonoscopic (rift w)) eqn:Hm; unfold isMonoscopic in *; cbn;
    rewrite ?Hm; reflexivity.
Qed.

(** C8. Whatever [ovrHmd_SubmitFrame] answers, [finishDrawFn] is a
    total function that only adds the submission to the device's
    log: the session (poses, render target, settings, caches), the
    windows and the GL context are as before, and the session the
    next [startDrawFn] produces is the same for any two answers. *)
Theorem finishDrawFn_swallows_result :
  forall (result : ovrResult) (w : World),
    rift (finishDrawFn (with_SubmitFrameResult result w)) = rift w
    /\ windows (finishDrawFn (with_SubmitFrameResult result w)) = windows w
    /\ gl (finishDrawFn (with_SubmitFrameResult result w)) = gl w
    /\ calls (device (finishDrawFn (with_SubmitFrameResult result w)))
       = calls (device w)
         ++ [Call_SubmitFrame (mkViewScaleDesc (mEyeViewOffset (rift w)) f1)
                              (mLayer (rift w))]
    /\ (forall result' : ovrResult,
          rift <$> startDrawFn sdk (finishDrawFn (with_SubmitFrameResult result w))
          = rift <$> startDrawFn sdk (finishDrawFn (with_SubmitFrameResult result' w))).
Proof.
  intros result w. repeat split.
  intros result'.
  rewrite !finishDrawFn_result_commutes, !startDrawFn_result_commutes.
  now destruct (startDrawFn sdk (finishDrawFn w)).
Qed.

End Submit.

(** ** Beginning a frame *)

Section BeginFrame.

Variable sdk : VendorSDK.

Lemma ivec2_neqb_false (a b : glm.ivec2) :
  glm.ivec2_neqb a b = false -> a = b.
Proof.
  destruct a as [ax ay], b as [bx by']. unfold glm.ivec2_neqb. cbn.
  intros H. apply negb_false_iff, andb_true_iff in H. destruct H as [Hx Hy].
  apply Z.eqb_eq in Hx, Hy. now subst.
Qed.

Lemma int_wrap_range (z : Z) : int_min <= int_wrap z <= int_max.
Proof.
  unfold int_wrap, int_min, int_max.
  pose proof (Z.mod_pos_bound (z + 2 ^ 31) (2 ^ 32) ltac:(lia)). lia.
Qed.

Lemma int_wrap_in_range (z : Z) : int_min <= z <= int_max -> int_wrap z = z.
Proof.
  unfold int_wrap, int_min, int_max. intros H.
  rewrite Z.mod_small by lia. lia.
Qed.

(** The width [initializeFrameBuffer] asks for is an [int], and it is
    the sum of the two eye widths whenever that sum is one. *)
Lemma frameBufferSize_width (hmd : ovrHmdDesc) (sp : float) :
  let left := ovrHmd_GetFovTextureSize sdk hmd ovrEye_Left (fst (DefaultEyeFov hmd)) sp in
  let right := ovrHmd_GetFovTextureSize sdk hmd ovrEye_Right (snd (DefaultEyeFov hmd)) sp in
  int_min <= glm.ix (frameBufferSize sdk hmd sp) <= int_max
  /\ (int_min <= sz_w left + sz_w right <= int_max ->
      glm.ix (frameBufferSize sdk hmd sp) = sz_w left + sz_w right)
  /\ glm.iy (frameBufferSize sdk hmd sp) = Z.max (sz_h left) (sz_h right).
Proof.
  cbv zeta. unfold frameBufferSize, int_add. cbn [glm.ix glm.iy nth2].
  split; [apply int_wrap_range|]. split; [apply int_wrap_in_range | reflexivity].
Qed.

(** The size of the render target once [initializeFrameBuffer] has
    run: the size the current screen percentage asks for. *)
Lemma initializeFrameBuffer_on_size (hmd : ovrHmdDesc) (w : World) :
  tb_size <$> mRenderBuffer (rift (initializeFrameBuffer_on sdk hmd w))
  = Some (frameBufferSize sdk hmd (mScreenPercentage (rift w))).
Proof.
  unfold initializeFrameBuffer_on. cbn.
  destruct (needsNewBuffer (rift w) _) eqn:E; [reflexivity|].
  unfold needsNewBuffer in E. cbn.
  destruct (mRenderBuffer (rift w)) as [tb|]; [|discriminate E].
  cbn. now rewrite (ivec2_neqb_false _ _ E).
Qed.

Lemma initializeFrameBuffer_on_calls (hmd : ovrHmdDesc) (w : World) :
  calls (device (initializeFrameBuffer_on sdk hmd w))
  = calls (device w) ++ frameBuffer_calls sdk hmd (rift w).
Proof.
  unfold initializeFrameBuffer_on, frameBuffer_calls. cbn.
  destruct (needsNewBuffer (rift w) _); cbn; rewrite <- ?app_assoc; reflexivity.
Qed.

Lemma initializeFrameBuffer_on_settings (hmd : ovrHmdDesc) (w : World) :
  mIsMonoscopic (rift (initializeFrameBuffer_on sdk hmd w)) = mIsMonoscopic (rift w)
  /\ mEyeViewOffset (rift (initializeFrameBuffer_on sdk hmd w)) = mEyeViewOffset (rift w)
  /\ mHmdSettingsChanged (rift (initializeFrameBuffer_on sdk hmd w))
     = mHmdSettingsChanged (rift w)
  /\ mScreenPercentage (rift (initializeFrameBuffer_on sdk hmd w))
     = mScreenPercentage (rift w)
  /\ mEyeRenderDesc (rift (initializeFrameBuffer_on sdk hmd w))
     = (if needsNewBuffer (rift w) (frameBufferSize sdk hmd (mScreenPercentage (rift w)))
        then (ovrHmd_GetRenderDesc sdk hmd ovrEye_Left (fst (DefaultEyeFov hmd)),
              ovrHmd_GetRenderDesc sdk hmd ovrEye_Right (snd (DefaultEyeFov hmd)))
        else mEyeRenderDesc (rift w))
  /\ EnabledCaps (device (initializeFrameBuffer_on sdk hmd w)) = EnabledCaps (device w)
  /\ TrackingState_DisplayMidpoint (device (initializeFrameBuffer_on sdk hmd w))
     = TrackingState_DisplayMidpoint (device w).
Proof.
  unfold initializeFrameBuffer_on. cbn.
  destruct (needsNewBuffer (rift w) _); now repeat split.
Qed.

(** [startDrawFn] runs to its end exactly when the device handle is
    not null, and these are the members it leaves. *)
Lemma startDrawFn_runs (hmd : ovrHmdDesc) (w : World) :
  mHmd (rift w) = Some hmd ->
  exists w' : World,
    startDrawFn sdk w = Some w'
    /\ tb_size <$> mRenderBuffer (rift w')
       = Some (frameBufferSize sdk hmd (mScreenPercentage (rift w)))
    /\ mEyeViewOffset (rift w') = frame_offsets (rift (begun sdk hmd w))
    /\ mEyeRenderDesc (rift w') = mEyeRenderDesc (rift (begun sdk hmd w))
    /\ mEyeRenderPose (rift w')
       = ovr_CalcEyePoses sdk (HeadPose (TrackingState_DisplayMidpoint (device w)))
                          (mEyeViewOffset (rift w'))
    /\ RenderPose (mLayer (rift w')) = mEyeRenderPose (rift w')
    /\ mHmdSettingsChanged (rift w') = false
    /\ EnabledCaps (device w')
       = (if mHmdSettingsChanged (rift w) then mHmdCaps (rift w)
          else EnabledCaps (device w))
    /\ calls (device w')
       = calls (device w) ++ frameBuffer_calls sdk hmd (rift w)
         ++ (if mHmdSettingsChanged (rift w)
             then [Call_SetEnabledCaps (mHmdCaps (rift w))] else [])
         ++ [Call_GetFrameTiming; Call_GetTrackingState ovr_DisplayMidpoint].
Proof.
  intros Hhmd. unfold startDrawFn, initializeFrameBuffer. cbn.
  rewrite Hhmd. cbn. eexists. split; [reflexivity|].
  set (w0 := set_gl (set_gl_currentContext true (gl w)) w).
  change (rift w) with (rift w0). change (device w) with (device w0).
  fold (begun sdk hmd w). unfold begun. fold w0.
  destruct (initializeFrameBuffer_on_settings hmd w0)
    as (Hmono & Hoff & Hflag & Hsp & Hdesc & Hcaps & Hts).
  pose proof (initializeFrameBuffer_on_size hmd w0) as Hsize.
  pose proof (initializeFrameBuffer_on_calls hmd w0) as Hcalls.
  pose proof (initializeFrameBuffer_on_keeps sdk hmd w0) as (_ & _ & _ & _ & Hhc & _).
  rewrite Hflag.
  destruct (mHmdSettingsChanged (rift w0)) eqn:Hch; cbn;
    unfold frame_offsets, isMonoscopic; cbn;
    rewrite ?Hts, ?Hcaps, ?Hcalls, ?Hhc, ?Hflag, <- ?app_assoc;
    repeat split; solve [assumption | reflexivity].
Qed.

Lemma startDrawFn_None (w : World) :
  mHmd (rift w) = None -> startDrawFn sdk w = None.
Proof. intros H. unfold startDrawFn, initializeFrameBuffer. cbn. now rewrite H. Qed.

End BeginFrame.

(** Two eye textures of width [2^30] each: the [int] sum is
    [-2147483648]. *)
Lemma frameBufferSize_at_the_limit :
  frameBufferSize Fake.sdk_huge Fake.dk2 f1 = glm.mkivec2 (-2147483648) 1100.
Proof. vm_compute. reflexivity. Qed.

(** ** Between two frames *)

Lemma same_target_refl (w : World) : same_target w w.
Proof. now repeat split. Qed.

Lemma same_target_trans (w1 w2 w3 : World) :
  same_target w1 w2 -> same_target w2 w3 -> same_target w1 w3.
Proof.
  intros (A1 & A2 & A3) (B1 & B2 & B3).
  repeat split; etransitivity; eassumption.
Qed.

Ltac case_conditions :=
  repeat match goal with
         | |- context [if ?b then _ else _] => destruct b
         | |- context [match ?o with Some _ => _ | None => _ end] => destruct o
         end.

Section InFlight.

Variable sdk : VendorSDK.
Variable glm_inverse : glm.mat4 -> glm.mat4.

Lemma getViewMatrix_same_target (w : World) :
  same_target w (snd (getViewMatrix sdk w)).
Proof.
  unfold getViewMatrix, isTracked.
  destruct (mViewMatrixCached (rift w)); now repeat split.
Qed.

Lemma getProjectionMatrix_same_target (w : World) :
  same_target w (snd (getProjectionMatrix w)).
Proof.
  unfold getProjectionMatrix.
  destruct (mProjectionCached (rift w)); now repeat split.
Qed.

Lemma getInverseViewMatrix_same_target (w : World) :
  same_target w (snd (getInverseViewMatrix sdk glm_inverse w)).
Proof.
  unfold getInverseViewMatrix.
  destruct (mInverseViewMatrixCached (rift w)); cbn; [apply same_target_refl|].
  pose proof (getViewMatrix_same_target w) as H.
  destruct (getViewMatrix sdk w) as [view w1]. exact H.
Qed.

Lemma applyEyeMatrices_same_target (w : World) :
  same_target w (applyEyeMatrices sdk w).
Proof.
  unfold applyEyeMatrices.
  set (w1 := set_gl (set_gl_ModelMatrix _ _) _).
  pose proof (getViewMatrix_same_target w1) as H1.
  destruct (getViewMatrix sdk w1) as [view w2]. cbn in H1.
  set (w3 := set_gl (set_gl_ViewMatrix view (gl w2)) w2).
  pose proof (getProjectionMatrix_same_target w3) as H3.
  destruct (getProjectionMatrix w3) as [projection w4]. cbn in H3.
  apply (same_target_trans w w3 _); [exact H1 | exact H3].
Qed.

Lemma enableEye_unfold (eyeIndex : Z) (applyMatrices : bool) (w : World) :
  enableEye sdk eyeIndex applyMatrices w
  = match mHmd (rift w), index2 eyeIndex with
    | Some hmd, Some i =>
        let w1 := activateEye sdk (nth2 (EyeRenderOrder hmd) i) (invalidateCaches w) in
        Some (if applyMatrices then applyEyeMatrices sdk w1 else w1)
    | _, _ => None
    end.
Proof.
  unfold enableEye. cbv zeta.
  change (mHmd (rift (invalidateCaches w))) with (mHmd (rift w)).
  destruct (mHmd (rift w)); [|reflexivity].
  now destruct (index2 eyeIndex).
Qed.

Lemma enableEye_same_target (eyeIndex : Z) (applyMatrices : bool) (w w' : World) :
  enableEye sdk eyeIndex applyMatrices w = Some w' -> same_target w w'.
Proof.
  rewrite enableEye_unfold.
  destruct (mHmd (rift w)) as [hmd|]; [|discriminate].
  destruct (index2 eyeIndex) as [i|]; [|discriminate].
  cbv zeta. intros H. injection H as <-.
  destruct applyMatrices; [|now repeat split].
  eapply same_target_trans; [|apply applyEyeMatrices_same_target].
  now repeat split.
Qed.

Lemma run_op_same_target (op : FrameOp) (w w' : World) :
  run_op sdk glm_inverse op w = Some w' -> same_target w w'.
Proof.
  destruct op; cbn [run_op]; intros H;
    [exact (enableEye_same_target _ _ _ _ H)|..];
    try (injection H as <-).
  - apply getViewMatrix_same_target.
  - apply getInverseViewMatrix_same_target.
  - apply getProjectionMatrix_same_target.
  - now repeat split.
  - now repeat split.
  - unfold setMirrorPercentage in H.
    destruct (fgtb sp f0); [|discriminate]. injection H as <-. now repeat split.
  - unfold enableMirrored. case_conditions; now repeat split.
  - now repeat split.
  - now repeat split.
  - unfold bind in H. destruct (mRenderBuffer (rift w)) as [tb|] eqn:E.
    + destruct (Z.eqb _ 0); [discriminate|]. injection H as <-.
      unfold same_target. cbn. rewrite E. now repeat split.
    + injection H as <-. apply same_target_refl.
  - unfold unbind. case_conditions; now repeat split.
  - now repeat split.
Qed.

Lemma run_ops_same_target (ops : list FrameOp) :
  forall w w' : World,
    run_ops sdk glm_inverse ops w = Some w' -> same_target w w'.
Proof.
  induction ops as [|op rest IH]; cbn; intros w w' H.
  - injection H as <-. apply same_target_refl.
  - destruct (run_op sdk glm_inverse op w) as [w1|] eqn:E; [|discriminate].
    cbn in H. eapply same_target_trans.
    + eapply run_op_same_target; eassumption.
    + now apply IH.
Qed.

(** [initialize] past its guard runs [initializeFrameBuffer]: the
    world it leaves, whether it returns or throws, has a render
    target of the size the screen percentage asks for. *)
Lemma initialize_size (hmd : ovrHmdDesc) (window : WindowRef) (w : World) :
  mHmd (rift w) = Some hmd ->
  isValid window w = true ->
  tb_size <$> mRenderBuffer (rift (world_after (initialize sdk window w)))
  = Some (frameBufferSize sdk hmd (mScreenPercentage (rift w))).
Proof.
  intros Hhmd Hvalid. unfold initialize. rewrite Hhmd.
  destruct window as [n|]; [|discriminate Hvalid].
  rewrite Hvalid. cbv zeta.
  pose proof (initializeFrameBuffer_on_size sdk hmd w) as Hsize.
  set (wi := initializeFrameBuffer_on sdk hmd w) in *. clearbody wi.
  destruct (win_renderer <$> windows (updateHmdSettings wi) !! n) as [[start finish|]|];
    cbn [world_after]; [|exact Hsize..].
  destruct (OVR_SUCCESS _); exact Hsize.
Qed.

(** C9, as the code has it.  [setScreenPercentage] stores the
    percentage and leaves the render target alone; whatever the
    application then calls for the rest of the frame among
    [enableEye], the three matrix getters, [isTracked], the other
    setters, [bind], [unbind] and [finishDrawFn], the target keeps
    its size.  The target gets the size the new percentage asks for
    (the two eye widths added as [int], the larger of the two
    heights) wherever [initializeFrameBuffer] runs next: at the next
    [startDrawFn], which runs, or before it in an [initialize] on a
    valid window. *)
Theorem setScreenPercentage_resizes_at_next_frame :
  forall (sp : float) (ops : list FrameOp) (w w1 w2 : World) (hmd : ovrHmdDesc),
    mHmd (rift w) = Some hmd ->
    setScreenPercentage sp w = Some w1 ->
    run_ops sdk glm_inverse ops w1 = Some w2 ->
    mRenderBuffer (rift w1) = mRenderBuffer (rift w)
    /\ tb_size <$> mRenderBuffer (rift w2) = tb_size <$> mRenderBuffer (rift w)
    /\ (exists w3 : World,
           startDrawFn sdk w2 = Some w3
           /\ tb_size <$> mRenderBuffer (rift w3) = Some (frameBufferSize sdk hmd sp))
    /\ (forall window : WindowRef,
           isValid window w2 = true ->
           tb_size <$> mRenderBuffer (rift (world_after (initialize sdk window w2)))
           = Some (frameBufferSize sdk hmd sp)).
Proof.
  intros sp ops w w1 w2 hmd Hhmd Hset Hops.
  unfold setScreenPercentage in Hset.
  destruct (fgtb sp f0); [|discriminate]. injection Hset as <-.
  destruct (run_ops_same_target ops _ _ Hops) as (Hsize & Hsp & Hh).
  cbn in Hsize, Hsp, Hh.
  assert (Hhmd2 : mHmd (rift w2) = Some hmd) by (now rewrite Hh).
  split; [reflexivity|]. split; [exact Hsize|]. split.
  - destruct (startDrawFn_runs sdk hmd w2 Hhmd2) as (w3 & Hrun & Hsz & _).
    exists w3. split; [exact Hrun|]. now rewrite Hsz, Hsp.
  - intros window Hvalid.
    rewrite (initialize_size hmd window w2 Hhmd2 Hvalid). now rewrite Hsp.
Qed.

End InFlight.

(** C9 on the sample application: [setScreenPercentage( 1.25f )] while
    the first frame is in flight, then both eyes are drawn and the
    frame is submitted. *)
Lemma setScreenPercentage_resizes_at_next_frame_witness :
  tb_size <$> mRenderBuffer (rift Fake.in_frame) = Some (glm.mkivec2 2000 1100)
  /\ exists w1 w2 w3 : World,
       setScreenPercentage f1_25 Fake.in_frame = Some w1
       /\ run_ops Fake.sdk Fake.inverse rest_of_frame w1 = Some w2
       /\ tb_size <$> mRenderBuffer (rift w2) = Some (glm.mkivec2 2000 1100)
       /\ startDrawFn Fake.sdk w2 = Some w3
       /\ tb_size <$> mRenderBuffer (rift w3) = Some (glm.mkivec2 2500 1375).
Proof.
  split; [vm_compute; reflexivity|].
  pose (w1 := default Fake.world0 (setScreenPercentage f1_25 Fake.in_frame)).
  pose (w2 := default Fake.world0 (run_ops Fake.sdk Fake.inverse rest_of_frame w1)).
  assert (H1 : setScreenPercentage f1_25 Fake.in_frame = Some w1)
    by (vm_compute; reflexivity).
  assert (H2 : run_ops Fake.sdk Fake.inverse rest_of_frame w1 = Some w2)
    by (vm_compute; reflexivity).
  destruct (setScreenPercentage_resizes_at_next_frame Fake.sdk Fake.inverse
              f1_25 rest_of_frame Fake.in_frame w1 w2 Fake.dk2)
    as (_ & Hsame & (w3 & Hrun & Hsize) & _);
    [vm_compute; reflexivity | exact H1 | exact H2 |].
  exists w1, w2, w3. split; [exact H1|]. split; [exact H2|].
  split; [rewrite Hsame; vm_compute; reflexivity|].
  split; [exact Hrun|]. rewrite Hsize. vm_compute. reflexivity.
Defined.

(** C9 as the specification states it does not hold for every call
    made mid-frame: the sample application, its first frame begun and
    its target bound at 2000 x 1100, calls
    [setScreenPercentage( 1.25f )] and attaches to its window again;
    [initialize] returns [true] with the target at 2500 x 1375, on a
    new swap texture set, and no frame has begun since (the log gains
    no [ovrHmd_GetFrameTiming]). *)
Lemma initialize_resizes_mid_frame :
  tb_size <$> mRenderBuffer (rift Fake.in_frame) = Some (glm.mkivec2 2000 1100)
  /\ exists w1 w2 : World,
       setScreenPercentage f1_25 Fake.in_frame = Some w1
       /\ initialize Fake.sdk (Some 1%nat) w1 = Returns true w2
       /\ tb_size <$> mRenderBuffer (rift w2) = Some (glm.mkivec2 2500 1375)
       /\ calls (device w2)
          = calls (device Fake.in_frame)
            ++ [Call_GetFovTextureSize ovrEye_Left f1_25;
                Call_GetFovTextureSize ovrEye_Right f1_25;
                Call_CreateSwapTextureSet (glm.mkivec2 2500 1375);
                Call_GetRenderDesc ovrEye_Left; Call_GetRenderDesc ovrEye_Right;
                Call_SetEnabledCaps 640; Call_ConfigureTracking 7].
Proof.
  split; [vm_compute; reflexivity|].
  exists (default Fake.world0 (setScreenPercentage f1_25 Fake.in_frame)).
  exists (world_after
            (initialize Fake.sdk (Some 1%nat)
               (default Fake.world0 (setScreenPercentage f1_25 Fake.in_frame)))).
  split; [vm_compute; reflexivity|]. split; [vm_compute; reflexivity|].
  split; vm_compute; reflexivity.
Qed.

(** ** Settings and the view offsets *)

Section Settings.

Variable sdk : VendorSDK.

Lemma begun_settings (hmd : ovrHmdDesc) (w : World) :
  mIsMonoscopic (rift (begun sdk hmd w)) = mIsMonoscopic (rift w)
  /\ mEyeViewOffset (rift (begun sdk hmd w)) = mEyeViewOffset (rift w)
  /\ mEyeRenderDesc (rift (begun sdk hmd w))
     = (if needsNewBuffer (rift w) (frameBufferSize sdk hmd (mScreenPercentage (rift w)))
        then (ovrHmd_GetRenderDesc sdk hmd ovrEye_Left (fst (DefaultEyeFov hmd)),
              ovrHmd_GetRenderDesc sdk hmd ovrEye_Right (snd (DefaultEyeFov hmd)))
        else mEyeRenderDesc (rift w)).
Proof.
  unfold begun.
  set (w0 := set_gl (set_gl_currentContext true (gl w)) w).
  destruct (initializeFrameBuffer_on_settings sdk hmd w0)
    as (Hmono & Hoff & _ & _ & Hdesc & _).
  destruct (mHmdSettingsChanged _); cbn; now repeat split.
Qed.

(** C3, as the code has it.  A [startDrawFn] that runs in monoscopic
    mode sets the [x] of both eyes' view offsets to 0, whatever the
    device reports, and keeps their [y] and [z] as they were before
    the frame; in stereo mode the offsets are those of the two eye
    render descriptions, which are the device's own whenever the
    frame rebuilt the render target.  In both modes the two eye
    poses are derived from these offsets. *)
Theorem startDrawFn_view_offsets :
  forall w w' : World,
    startDrawFn sdk w = Some w' ->
    (isMonoscopic (rift w) = true ->
     v_x (fst (mEyeViewOffset (rift w'))) = float_of_int 0
     /\ v_x (snd (mEyeViewOffset (rift w'))) = float_of_int 0
     /\ v_y (fst (mEyeViewOffset (rift w'))) = v_y (fst (mEyeViewOffset (rift w)))
     /\ v_z (fst (mEyeViewOffset (rift w'))) = v_z (fst (mEyeViewOffset (rift w)))
     /\ v_y (snd (mEyeViewOffset (rift w'))) = v_y (snd (mEyeViewOffset (rift w)))
     /\ v_z (snd (mEyeViewOffset (rift w'))) = v_z (snd (mEyeViewOffset (rift w))))
    /\ (isMonoscopic (rift w) = false ->
        mEyeViewOffset (rift w')
        = (HmdToEyeViewOffset (fst (mEyeRenderDesc (rift w'))),
           HmdToEyeViewOffset (snd (mEyeRenderDesc (rift w'))))
        /\ forall hmd : ovrHmdDesc,
             mHmd (rift w) = Some hmd ->
             needsNewBuffer (rift w) (frameBufferSize sdk hmd (mScreenPercentage (rift w)))
             = true ->
             mEyeViewOffset (rift w')
             = (HmdToEyeViewOffset
                  (ovrHmd_GetRenderDesc sdk hmd ovrEye_Left (fst (DefaultEyeFov hmd))),
                HmdToEyeViewOffset
                  (ovrHmd_GetRenderDesc sdk hmd ovrEye_Right (snd (DefaultEyeFov hmd)))))
    /\ mEyeRenderPose (rift w')
       = ovr_CalcEyePoses sdk (HeadPose (TrackingState_DisplayMidpoint (device w)))
                          (mEyeViewOffset (rift w')).
Proof.
  intros w w' Hrun.
  destruct (mHmd (rift w)) as [hmd|] eqn:Hhmd;
    [|rewrite (startDrawFn_None sdk w Hhmd) in Hrun; discriminate].
  destruct (startDrawFn_runs sdk hmd w Hhmd)
    as (w'' & Hrun' & _ & Hoff & Hdesc & Hpose & _).
  rewrite Hrun in Hrun'. injection Hrun' as <-.
  destruct (begun_settings hmd w) as (Hmono & Hprev & Hnew).
  unfold frame_offsets in Hoff. rewrite Hmono, Hprev in Hoff.
  unfold isMonoscopic.
  split; [|split; [|exact Hpose]].
  - intros Hm. rewrite Hm in Hoff. rewrite Hoff. now repeat split.
  - intros Hm. rewrite Hm in Hoff. rewrite Hoff, Hdesc. split; [reflexivity|].
    intros hmd' Hhmd' Hneeds. injection Hhmd' as <-.
    now rewrite Hnew, Hneeds.
Qed.

(** C4, as the code has it.  No setter touches the device.
    [setScreenPercentage] and [setMirrorPercentage] store their
    value and leave the settings-changed flag as it was;
    [enableMirrored] sets the flag when the value changes; the
    monoscopic and positional-tracking toggles set it.  The
    capabilities reach the device in [startDrawFn], through one
    [ovrHmd_SetEnabledCaps] when the flag is set and none when it is
    clear, and the flag is clear afterwards. *)
Theorem setters_defer_to_startDrawFn :
  forall w : World,
    (forall (sp : float) (w' : World),
        setScreenPercentage sp w = Some w' ->
        device w' = device w
        /\ mScreenPercentage (rift w') = sp
        /\ mHmdSettingsChanged (rift w') = mHmdSettingsChanged (rift w))
    /\ (forall (sp : float) (w' : World),
           setMirrorPercentage sp w = Some w' ->
           device w' = device w
           /\ mMirrorPercentage (rift w') = sp
           /\ mHmdSettingsChanged (rift w') = mHmdSettingsChanged (rift w))
    /\ (forall enabled : bool,
           device (enableMirrored enabled w) = device w
           /\ mIsMirrrored (rift (enableMirrored enabled w)) = enabled
           /\ mHmdSettingsChanged (rift (enableMirrored enabled w))
              = (if Bool.eqb (mIsMirrrored (rift w)) enabled
                 then mHmdSettingsChanged (rift w) else true))
    /\ (forall enabled : bool,
           device (enableMonoscopic enabled w) = device w
           /\ mIsMonoscopic (rift (enableMonoscopic enabled w)) = enabled
           /\ mHmdSettingsChanged (rift (enableMonoscopic enabled w)) = true)
    /\ (forall enabled : bool,
           device (enablePositionalTracking enabled w) = device w
           /\ mUsePositionalTracking (rift (enablePositionalTracking enabled w)) = enabled
           /\ mHmdSettingsChanged (rift (enablePositionalTracking enabled w)) = true)
    /\ (forall (hmd : ovrHmdDesc) (w' : World),
           mHmd (rift w) = Some hmd ->
           startDrawFn sdk w = Some w' ->
           mHmdSettingsChanged (rift w') = false
           /\ EnabledCaps (device w')
              = (if mHmdSettingsChanged (rift w) then mHmdCaps (rift w)
                 else EnabledCaps (device w))
           /\ calls (device w')
              = calls (device w) ++ frameBuffer_calls sdk hmd (rift w)
                ++ (if mHmdSettingsChanged (rift w)
                    then [Call_SetEnabledCaps (mHmdCaps (rift w))] else [])
                ++ [Call_GetFrameTiming; Call_GetTrackingState ovr_DisplayMidpoint]).
Proof.
  intros w. repeat apply conj.
  - intros sp w'. unfold setScreenPercentage.
    destruct (fgtb sp f0); [|discriminate]. intros H. injection H as <-.
    now repeat split.
  - intros sp w'. unfold setMirrorPercentage.
    destruct (fgtb sp f0); [|discriminate]. intros H. injection H as <-.
    now repeat split.
  - intros enabled. unfold enableMirrored.
    destruct (mIsMirrrored (rift w)) eqn:E, enabled; cbn; rewrite ?E; now repeat split.
  - intros enabled. now repeat split.
  - intros enabled. now repeat split.
  - intros hmd w' Hhmd Hrun.
    destruct (startDrawFn_runs sdk hmd w Hhmd)
      as (w'' & Hrun' & _ & _ & _ & _ & _ & Hflag & Hcaps & Hcalls).
    rewrite Hrun in Hrun'. injection Hrun' as <-. now repeat split.
Qed.

End Settings.

(** C3 on the sample application: the first frame, in stereo. *)
Lemma startDrawFn_view_offsets_witness :
  exists w' : World,
    startDrawFn Fake.sdk Fake.attached = Some w'
    /\ mEyeViewOffset (rift w') = (mkVector3f f0_5 f1 f0, mkVector3f (fneg f0_5) f1 f0).
Proof.
  pose (w' := default Fake.world0 (startDrawFn Fake.sdk Fake.attached)).
  assert (H : startDrawFn Fake.sdk Fake.attached = Some w') by (vm_compute; reflexivity).
  exists w'. split; [exact H|].
  destruct (startDrawFn_view_offsets Fake.sdk Fake.attached w' H) as (_ & Hstereo & _).
  destruct Hstereo as [Hoff _]; [vm_compute; reflexivity|].
  rewrite Hoff. vm_compute. reflexivity.
Defined.

(** C3 as the specification states it does not hold: the device
    reports the eyes one unit above the head, and in monoscopic mode
    the offsets of the next frame are (0,1,0) for both eyes, not the
    zero vector. *)
Lemma monoscopic_offsets_keep_y_and_z :
  isMonoscopic (rift monoscopic_after_first_frame) = true
  /\ (fun w => mEyeViewOffset (rift w)) <$> startDrawFn Fake.sdk monoscopic_after_first_frame
     = Some (mkVector3f f0 f1 f0, mkVector3f f0 f1 f0)
  /\ mkVector3f f0 f1 f0 <> mkVector3f f0 f0 f0
  /\ feqb (v_y (mkVector3f f0 f1 f0)) (v_y (mkVector3f f0 f0 f0)) = false.
Proof.
  split; [vm_compute; reflexivity|].
  split; [vm_compute; reflexivity|].
  split; [|vm_compute; reflexivity].
  intros H. apply (f_equal v_y) in H. vm_compute in H. discriminate H.
Qed.

(** C4 on the sample application: the frame after a toggle of the
    mirrored output. *)
Lemma setters_defer_to_startDrawFn_witness :
  device (enableMirrored false Fake.attached) = device Fake.attached
  /\ exists w' : World,
       startDrawFn Fake.sdk (enableMirrored false Fake.attached) = Some w'
       /\ calls (device w')
          = calls (device Fake.attached)
            ++ [Call_GetFovTextureSize ovrEye_Left f1; Call_GetFovTextureSize ovrEye_Right f1;
                Call_SetEnabledCaps 640;
                Call_GetFrameTiming; Call_GetTrackingState ovr_DisplayMidpoint].
Proof.
  pose (w := enableMirrored false Fake.attached).
  destruct (setters_defer_to_startDrawFn Fake.sdk Fake.attached)
    as (_ & _ & Hmirror & _).
  destruct (Hmirror false) as (Hdev & _).
  split; [exact Hdev|].
  pose (w' := default Fake.world0 (startDrawFn Fake.sdk w)).
  assert (H : startDrawFn Fake.sdk w = Some w') by (vm_compute; reflexivity).
  exists w'. split; [exact H|].
  destruct (setters_defer_to_startDrawFn Fake.sdk w)
    as (_ & _ & _ & _ & _ & Hflush).
  destruct (Hflush Fake.dk2 w') as (_ & _ & Hcalls);
    [vm_compute; reflexivity | exact H |].
  rewrite Hcalls. vm_compute. reflexivity.
Defined.

(** C4 as the specification states it does not hold: after
    [initialize] the settings-changed flag is clear, and it is still
    clear after [setScreenPercentage( 1.25f )] and after
    [setMirrorPercentage( 0.5f )]. *)
Lemma percentage_setters_record_no_flag :
  mHmdSettingsChanged (rift Fake.attached) = false
  /\ (fun w => (mScreenPercentage (rift w), mHmdSettingsChanged (rift w)))
       <$> setScreenPercentage f1_25 Fake.attached = Some (f1_25, false)
  /\ (fun w => (mMirrorPercentage (rift w), mHmdSettingsChanged (rift w)))
       <$> setMirrorPercentage f0_5 Fake.attached = Some (f0_5, false).
Proof.
  split; [vm_compute; reflexivity|].
  split; vm_compute; reflexivity.
Qed.

(** ** The cached matrices *)

Section Matrices.

Variable sdk : VendorSDK.
Variable glm_inverse : glm.mat4 -> glm.mat4.

Lemma isTracked_tracking (w : World) :
  fst (isTracked sdk w) = Spec.tracking sdk w.
Proof.
  unfold isTracked, Spec.tracking, isPositionalTrackingEnabled. cbn.
  now rewrite andb_comm.
Qed.

Lemma computeViewMatrix_view_of (w : World) :
  computeViewMatrix (rift w) (fst (isTracked sdk w)) = view_of sdk w.
Proof. rewrite isTracked_tracking. reflexivity. Qed.

Lemma getViewMatrix_uncached (w : World) :
  mViewMatrixCached (rift w) = false ->
  fst (getViewMatrix sdk w) = view_of sdk w
  /\ mViewMatrixCached (rift (snd (getViewMatrix sdk w))) = true
  /\ mViewMatrix (rift (snd (getViewMatrix sdk w))) = view_of sdk w.
Proof.
  intros H. unfold getViewMatrix. rewrite H. cbn [negb].
  rewrite <- computeViewMatrix_view_of. now repeat split.
Qed.

Lemma getViewMatrix_cached (w : World) :
  mViewMatrixCached (rift w) = true ->
  getViewMatrix sdk w = (mViewMatrix (rift w), w).
Proof. intros H. unfold getViewMatrix. now rewrite H. Qed.

(** C1, as the code has it.  With the view-matrix flag clear, as
    every [enableEye] leaves it before it reads the matrix,
    [getViewMatrix] returns the specification's matrix at the
    session's members and caches it; with the flag set it returns
    the cached matrix and changes nothing.  At host orientation and
    eye orientation the identity, host eye point (0,0,1), tracked
    eye position (0,0,0) and head scale 1 the matrix computed
    compares equal to [lookAt((0,0,1), (0,0,0), (0,1,0))], tracked
    or not. *)
Theorem getViewMatrix_formula :
  forall w : World,
    (mViewMatrixCached (rift w) = false ->
     fst (getViewMatrix sdk w) = view_of sdk w
     /\ mViewMatrixCached (rift (snd (getViewMatrix sdk w))) = true
     /\ mViewMatrix (rift (snd (getViewMatrix sdk w))) = view_of sdk w
     /\ (cam_Orientation (mHostCamera (rift w)) = glm.quat_identity ->
         cam_Orientation (eye_camera (mHmdEyeCamera (rift w))) = glm.quat_identity ->
         cam_EyePoint (mHostCamera (rift w)) = glm.mkvec3 f0 f0 f1 ->
         cam_EyePoint (eye_camera (mHmdEyeCamera (rift w))) = glm.mkvec3 f0 f0 f0 ->
         mHeadScale (rift w) = f1 ->
         glm.mat4_eqb (fst (getViewMatrix sdk w))
                      (glm.lookAt (glm.mkvec3 f0 f0 f1) (glm.mkvec3 f0 f0 f0)
                                  (glm.mkvec3 f0 f1 f0))
         = true))
    /\ (mViewMatrixCached (rift w) = true ->
        getViewMatrix sdk w = (mViewMatrix (rift w), w)).
Proof.
  intros w. split; [|apply getViewMatrix_cached].
  intros Hflag.
  destruct (getViewMatrix_uncached w Hflag) as (Hview & Hcached & Hstored).
  repeat apply conj; try assumption.
  intros Hhost Heye Hpoint Hpos Hscale.
  rewrite Hview. unfold view_of. rewrite Hhost, Heye, Hpoint, Hpos, Hscale.
  destruct (Spec.tracking sdk w); vm_compute; reflexivity.
Qed.

Lemma fromOvr_mat4_inj (a b : ovrMatrix4f) :
  fromOvr_mat4 a = fromOvr_mat4 b -> a = b.
Proof.
  destruct a as [[? ? ? ?] [? ? ? ?] [? ? ? ?] [? ? ? ?]].
  destruct b as [[? ? ? ?] [? ? ? ?] [? ? ? ?] [? ? ? ?]].
  unfold fromOvr_mat4. cbn. intros H. injection H. intros. now subst.
Qed.

Lemma view_of_same_members (w w' : World) :
  same_members w w' -> view_of sdk w' = view_of sdk w.
Proof.
  intros (H1 & H2 & H3 & H4 & _ & _ & _ & H8).
  unfold view_of, Spec.tracking. now rewrite H1, H2, H3, H4, H8.
Qed.

Lemma getProjectionMatrix_uncached (w : World) :
  mProjectionCached (rift w) = false ->
  fst (getProjectionMatrix w) = mOvrProjection (mHmdEyeCamera (rift w)).
Proof. intros H. unfold getProjectionMatrix. rewrite H. reflexivity. Qed.

Lemma getProjectionMatrix_cached (w : World) :
  mProjectionCached (rift w) = true ->
  getProjectionMatrix w = (mProjectionMatrix (rift w), w).
Proof. intros H. unfold getProjectionMatrix. now rewrite H. Qed.

Lemma getInverseViewMatrix_uncached (w : World) :
  mInverseViewMatrixCached (rift w) = false ->
  fst (getInverseViewMatrix sdk glm_inverse w) = glm_inverse (fst (getViewMatrix sdk w)).
Proof.
  intros H. unfold getInverseViewMatrix. rewrite H. cbn [negb].
  destruct (getViewMatrix sdk w) as [view w1]. reflexivity.
Qed.

Lemma activateEye_members (eye : ovrEyeType) (w : World) :
  let w1 := activateEye sdk eye (invalidateCaches w) in
  (mInverseViewMatrixCached (rift w1) = false
   /\ mViewMatrixCached (rift w1) = false
   /\ mProjectionCached (rift w1) = false)
  /\ mEye (rift w1) = eye
  /\ mOvrProjection (mHmdEyeCamera (rift w1)) = eyeProjection sdk (rift w1) eye
  /\ (mEyeRenderDesc (rift w1) = mEyeRenderDesc (rift w)
      /\ cam_NearClip (eye_camera (mHmdEyeCamera (rift w1)))
         = cam_NearClip (eye_camera (mHmdEyeCamera (rift w)))
      /\ cam_FarClip (eye_camera (mHmdEyeCamera (rift w1)))
         = cam_FarClip (eye_camera (mHmdEyeCamera (rift w))))
  /\ (cam_Orientation (eye_camera (mHmdEyeCamera (rift w1)))
      = fromOvr_quat (Orientation (nth2 (mEyeRenderPose (rift w)) eye))
      /\ cam_EyePoint (eye_camera (mHmdEyeCamera (rift w1)))
         = fromOvr_vec3 (Position (nth2 (mEyeRenderPose (rift w)) eye))).
Proof.
  cbv zeta. unfold activateEye, invalidateCaches, eyeProjection. cbn.
  repeat apply conj; reflexivity.
Qed.

Lemma applyEyeMatrices_uncached (w : World) :
  mViewMatrixCached (rift w) = false ->
  mProjectionCached (rift w) = false ->
  (mInverseViewMatrixCached (rift (applyEyeMatrices sdk w)) = mInverseViewMatrixCached (rift w)
   /\ mViewMatrixCached (rift (applyEyeMatrices sdk w)) = true
   /\ mProjectionCached (rift (applyEyeMatrices sdk w)) = true)
  /\ mViewMatrix (rift (applyEyeMatrices sdk w)) = view_of sdk w
  /\ mProjectionMatrix (rift (applyEyeMatrices sdk w)) = mOvrProjection (mHmdEyeCamera (rift w))
  /\ same_members w (applyEyeMatrices sdk w).
Proof.
  intros Hv Hp.
  unfold applyEyeMatrices, getViewMatrix, getProjectionMatrix.
  cbn [rift set_gl]. rewrite Hv. cbn [negb].
  unfold isTracked. cbn [fst snd rift set_rift set_gl device_call set_device
                         mProjectionCached set_mViewMatrixCached set_mViewMatrix].
  rewrite Hp. cbn [negb].
  rewrite <- computeViewMatrix_view_of.
  unfold same_members. repeat apply conj; reflexivity.
Qed.
(** The session right after [enableEye]: the eye is the one the
    device's render order gives, and each getter returns the matrix
    of that eye at the session's members. *)
Lemma enableEye_fresh (eyeIndex : Z) (applyMatrices : bool) (w w' : World) :
  enableEye sdk eyeIndex applyMatrices w = Some w' ->
  (exists (hmd : ovrHmdDesc) (i : ovrEyeType),
      mHmd (rift w) = Some hmd /\ index2 eyeIndex = Some i
      /\ mEye (rift w') = nth2 (EyeRenderOrder hmd) i)
  /\ (mInverseViewMatrixCached (rift w') = false
      /\ mViewMatrixCached (rift w') = applyMatrices
      /\ mProjectionCached (rift w') = applyMatrices)
  /\ fst (getProjectionMatrix w') = eyeProjection sdk (rift w') (mEye (rift w'))
  /\ fst (getViewMatrix sdk w') = view_of sdk w'
  /\ fst (getInverseViewMatrix sdk glm_inverse w') = glm_inverse (view_of sdk w')
  /\ (mEyeRenderDesc (rift w') = mEyeRenderDesc (rift w)
      /\ cam_NearClip (eye_camera (mHmdEyeCamera (rift w')))
         = cam_NearClip (eye_camera (mHmdEyeCamera (rift w)))
      /\ cam_FarClip (eye_camera (mHmdEyeCamera (rift w')))
         = cam_FarClip (eye_camera (mHmdEyeCamera (rift w))))
  /\ (cam_Orientation (eye_camera (mHmdEyeCamera (rift w')))
      = fromOvr_quat (Orientation (nth2 (mEyeRenderPose (rift w)) (mEye (rift w'))))
      /\ cam_EyePoint (eye_camera (mHmdEyeCamera (rift w')))
         = fromOvr_vec3 (Position (nth2 (mEyeRenderPose (rift w)) (mEye (rift w'))))).
Proof.
  rewrite enableEye_unfold.
  destruct (mHmd (rift w)) as [hmd|] eqn:Hhmd; [|discriminate].
  destruct (index2 eyeIndex) as [i|] eqn:Hi; [|discriminate].
  cbv zeta. intros H. injection H as <-.
  pose proof (activateEye_members (nth2 (EyeRenderOrder hmd) i) w) as Hact.
  cbv zeta in Hact.
  set (w1 := activateEye sdk (nth2 (EyeRenderOrder hmd) i) (invalidateCaches w)) in *.
  destruct Hact as ((Hi1 & Hv1 & Hp1) & He1 & Ho1 & (Hd1 & Hn1 & Hf1) & (Hq1 & Hx1)).
  clearbody w1.
  destruct applyMatrices.
  - destruct (applyEyeMatrices_uncached w1 Hv1 Hp1)
      as ((Hi2 & Hv2 & Hp2) & Hview & Hproj & Hsame).
    pose proof (view_of_same_members _ _ Hsame) as Hvo.
    destruct Hsame as (_ & S2 & _ & _ & S5 & _ & S7 & _).
    split; [exists hmd, i; repeat apply conj; [reflexivity | reflexivity | rewrite S7; exact He1]|].
    split; [repeat apply conj; [now rewrite Hi2 | exact Hv2 | exact Hp2]|].
    split.
    { rewrite (getProjectionMatrix_cached _ Hp2). cbn [fst].
      rewrite Hproj, Ho1, S7, He1. unfold eyeProjection. now rewrite S2, S5. }
    split.
    { rewrite (getViewMatrix_cached _ Hv2). cbn [fst]. now rewrite Hview, Hvo. }
    split.
    { rewrite getInverseViewMatrix_uncached by (now rewrite Hi2).
      rewrite (getViewMatrix_cached _ Hv2). cbn [fst]. now rewrite Hview, Hvo. }
    rewrite S2, S5, S7, He1. repeat apply conj; assumption.
  - split; [exists hmd, i; repeat apply conj; [reflexivity | reflexivity | exact He1]|].
    split; [repeat apply conj; assumption|].
    split; [rewrite (getProjectionMatrix_uncached _ Hp1), He1; exact Ho1|].
    split; [exact (proj1 (getViewMatrix_uncached w1 Hv1))|].
    split.
    { rewrite (getInverseViewMatrix_uncached _ Hi1).
      now rewrite (proj1 (getViewMatrix_uncached w1 Hv1)). }
    rewrite He1. repeat apply conj; assumption.
Qed.


End Matrices.

(** C1 on the sample application, while its first frame is in flight
    and before any eye is activated: the host camera is at (0,0,1)
    with the identity orientation, the eye camera is at the origin,
    the head scale is 1. *)
Lemma getViewMatrix_formula_witness :
  fst (getViewMatrix Fake.sdk Fake.in_frame) = view_of Fake.sdk Fake.in_frame
  /\ glm.mat4_eqb (fst (getViewMatrix Fake.sdk Fake.in_frame))
                  (glm.lookAt (glm.mkvec3 f0 f0 f1) (glm.mkvec3 f0 f0 f0)
                              (glm.mkvec3 f0 f1 f0))
     = true.
Proof.
  destruct (getViewMatrix_formula Fake.sdk Fake.in_frame) as [H _].
  destruct H as (Hview & _ & _ & Hexample); [vm_compute; reflexivity|].
  split; [exact Hview|].
  apply Hexample; vm_compute; reflexivity.
Defined.

(** C1 as the specification states it does not hold in every state:
    the matrix read after [setHeadScale( 2 )] is the cached one,
    computed at head scale 1; it is not the specification's matrix at
    the session's members, neither as a value nor under [==]. *)
Lemma getViewMatrix_stale_after_setHeadScale :
  mViewMatrixCached (rift rescaled_after_read) = true
  /\ mHeadScale (rift rescaled_after_read) = f2
  /\ glm.mat4_eqb (fst (getViewMatrix Fake.sdk rescaled_after_read))
                  (view_of Fake.sdk rescaled_after_read) = false
  /\ fst (getViewMatrix Fake.sdk rescaled_after_read)
     <> view_of Fake.sdk rescaled_after_read.
Proof.
  split; [vm_compute; reflexivity|].
  split; [vm_compute; reflexivity|].
  split; [vm_compute; reflexivity|].
  intros H. apply (f_equal (fun m => glm.x4 (glm.m_c0 m))) in H.
  vm_compute in H. discriminate H.
Qed.



(** * Further properties of the code *)

(** ** The runtime singleton *)

Lemma RiftManager_initialize_idem (st : RiftManagerStatics) :
  RiftManager_initialize (RiftManager_initialize st) = RiftManager_initialize st.
Proof.
  unfold RiftManager_initialize.
  destruct (mOnceFlag st) eqn:E; [now rewrite E | reflexivity].
Qed.

(** X1. However often [RiftManager::initialize] is called, the runtime
    is initialised exactly once and never shut down by it: from the
    statics' initial values, one call or more leave one instance, the
    once-flag set and the single call [ovr_Initialize]. *)
Theorem RiftManager_initialize_once :
  forall n : nat,
    Nat.iter (S n) RiftManager_initialize RiftManager_statics
    = mkRiftManagerStatics true true [Call_ovr_Initialize].
Proof.
  induction n as [|n IH]; [reflexivity|].
  change (Nat.iter (S (S n)) RiftManager_initialize RiftManager_statics)
    with (RiftManager_initialize
            (Nat.iter (S n) RiftManager_initialize RiftManager_statics)).
  rewrite IH. reflexivity.
Qed.

(** ** The ring of the render target *)

Lemma bind_step (w : World) (tb : TextureBuffer) :
  mRenderBuffer (rift w) = Some tb ->
  TextureCount (TextureSet tb) <> 0 ->
  exists w' : World,
    bind w = Some w'
    /\ mRenderBuffer (rift w')
       = Some (mkTextureBuffer (tb_set tb) (tb_size tb)
                 (mkSwapTextureSet (TextureCount (TextureSet tb))
                    (Z.rem (CurrentIndex (TextureSet tb) + 1)
                           (TextureCount (TextureSet tb)))))
    /\ gl_renderSurface (gl w') = Some (tb_set tb).
Proof.
  intros Htb Hcount. unfold bind. rewrite Htb.
  apply Z.eqb_neq in Hcount. rewrite Hcount.
  eexists. split; [reflexivity|]. split; reflexivity.
Qed.

(** X2. [bind] walks the ring of the render target: with a ring of
    [TextureCount > 0] surfaces and the index inside it, [k] calls in
    a row all succeed and move the index [k] steps round the ring, so
    it never leaves [0, TextureCount) and is back where it started
    after [TextureCount] calls; the size of the target is untouched. *)
Theorem bind_walks_the_ring :
  forall (k : nat) (w : World) (tb : TextureBuffer),
    mRenderBuffer (rift w) = Some tb ->
    0 < TextureCount (TextureSet tb) ->
    0 <= CurrentIndex (TextureSet tb) < TextureCount (TextureSet tb) ->
    exists w' : World,
      bind_times k w = Some w'
      /\ ring_index w'
         = Some ((CurrentIndex (TextureSet tb) + Z.of_nat k)
                 mod TextureCount (TextureSet tb))
      /\ tb_size <$> mRenderBuffer (rift w') = Some (tb_size tb)
      /\ (Z.of_nat k = TextureCount (TextureSet tb) ->
          ring_index w' = Some (CurrentIndex (TextureSet tb))).
Proof.
  assert (main : forall (k : nat) (w : World) (tb : TextureBuffer),
             mRenderBuffer (rift w) = Some tb ->
             0 < TextureCount (TextureSet tb) ->
             0 <= CurrentIndex (TextureSet tb) < TextureCount (TextureSet tb) ->
             exists w' : World,
               bind_times k w = Some w'
               /\ ring_index w'
                  = Some ((CurrentIndex (TextureSet tb) + Z.of_nat k)
                          mod TextureCount (TextureSet tb))
               /\ tb_size <$> mRenderBuffer (rift w') = Some (tb_size tb)).
  { induction k as [|k IH]; intros w tb Htb Hn Hi.
    - exists w. split; [reflexivity|]. unfold ring_index. rewrite Htb. cbn.
      rewrite Z.add_0_r, Z.mod_small by lia. split; reflexivity.
    - destruct (bind_step w tb Htb) as (w1 & Hb & Htb1 & _); [lia|].
      assert (Hrem : Z.rem (CurrentIndex (TextureSet tb) + 1) (TextureCount (TextureSet tb))
                     = (CurrentIndex (TextureSet tb) + 1) mod TextureCount (TextureSet tb))
        by (apply Z.rem_mod_nonneg; lia).
      rewrite Hrem in Htb1.
      destruct (IH w1 _ Htb1) as (w' & Hk & Hidx & Hsize).
      + exact Hn.
      + cbn. apply Z.mod_pos_bound. exact Hn.
      + exists w'. cbn [bind_times]. rewrite Hb. cbn [mbind option_bind].
        split; [exact Hk|]. split; [|exact Hsize].
        rewrite Hidx. cbn [TextureSet CurrentIndex TextureCount]. f_equal.
        rewrite Zplus_mod_idemp_l. f_equal. lia. }
  intros k w tb Htb Hn Hi.
  destruct (main k w tb Htb Hn Hi) as (w' & Hk & Hidx & Hsize).
  exists w'. repeat apply conj; try assumption.
  intros Hk'. rewrite Hidx, Hk'.
  rewrite <- (Z.mul_1_l (TextureCount (TextureSet tb))) at 1.
  rewrite Z.mod_add by lia. now rewrite Z.mod_small.
Qed.

Lemma bind_walks_the_ring_witness :
  exists w' : World,
    bind_times 2 Fake.in_frame = Some w'
    /\ ring_index w' = ring_index Fake.in_frame
    /\ ring_index Fake.in_frame = Some 1.
Proof.
  destruct (bind_walks_the_ring 2 Fake.in_frame
              (mkTextureBuffer 0 (glm.mkivec2 2000 1100) (mkSwapTextureSet 2 1)))
    as (w' & Hrun & _ & _ & Hback).
  - vm_compute. reflexivity.
  - vm_compute. reflexivity.
  - split; vm_compute; [discriminate | reflexivity].
  - exists w'. split; [exact Hrun|]. split; [|vm_compute; reflexivity].
    rewrite Hback by reflexivity. vm_compute. reflexivity.
Defined.

(** ** Activating eyes *)

Section EyeLoop.

Variable sdk : VendorSDK.
Variable glm_inverse : glm.mat4 -> glm.mat4.

Lemma index2_int_of_eye (e : ovrEyeType) : index2 (int_of_eye e) = Some e.
Proof. now destruct e. Qed.

Lemma index2_Some (i : Z) (e : ovrEyeType) :
  index2 i = Some e -> i = int_of_eye e.
Proof.
  unfold index2.
  destruct (Z.eqb i 0) eqn:E0; [intros H; injection H as <-; now apply Z.eqb_eq in E0|].
  destruct (Z.eqb i 1) eqn:E1; [intros H; injection H as <-; now apply Z.eqb_eq in E1|].
  discriminate.
Qed.

Lemma enableEye_defined_iff (eyeIndex : Z) (applyMatrices : bool) (w : World) :
  is_Some (enableEye sdk eyeIndex applyMatrices w)
  <-> is_Some (mHmd (rift w)) /\ (eyeIndex = 0 \/ eyeIndex = 1).
Proof.
  rewrite enableEye_unfold. split.
  - destruct (mHmd (rift w)) as [hmd|]; [|intros [x Hx]; discriminate Hx].
    destruct (index2 eyeIndex) as [e|] eqn:He; [|intros [x Hx]; discriminate Hx].
    intros _. split; [eexists; reflexivity|].
    apply index2_Some in He. destruct e; cbn in He; [left | right]; exact He.
  - intros [[hmd Hhmd] Hi]. rewrite Hhmd.
    destruct Hi as [-> | ->]; eexists; reflexivity.
Qed.

Lemma enableEye_activates (e : ovrEyeType) (applyMatrices : bool) (w w' : World)
      (hmd : ovrHmdDesc) :
  enableEye sdk (int_of_eye e) applyMatrices w = Some w' ->
  mHmd (rift w) = Some hmd ->
  mEye (rift w') = nth2 (EyeRenderOrder hmd) e /\ mHmd (rift w') = Some hmd.
Proof.
  intros Hrun Hhmd.
  pose proof (enableEye_same_target sdk _ _ _ _ Hrun) as (_ & _ & Hh).
  destruct (enableEye_fresh sdk glm_inverse _ _ _ _ Hrun)
    as ((hmd' & i & Hhmd' & Hi & Heye) & _).
  rewrite Hhmd in Hhmd'. injection Hhmd' as <-.
  rewrite index2_int_of_eye in Hi. injection Hi as <-.
  split; [exact Heye | now rewrite Hh].
Qed.

(** X3. [enableEye] is defined exactly when the device handle is not
    null and the index is 0 or 1: a null [mHmd] is dereferenced and
    [EyeRenderOrder] is indexed without a check.  When it is defined
    the active eye is the device's [EyeRenderOrder] entry at that
    index and the device handle is as before. *)
Theorem enableEye_defined :
  forall (eyeIndex : Z) (applyMatrices : bool) (w : World),
    (is_Some (enableEye sdk eyeIndex applyMatrices w)
     <-> is_Some (mHmd (rift w)) /\ (eyeIndex = 0 \/ eyeIndex = 1))
    /\ (forall (w' : World) (hmd : ovrHmdDesc) (e : ovrEyeType),
           enableEye sdk eyeIndex applyMatrices w = Some w' ->
           mHmd (rift w) = Some hmd ->
           eyeIndex = int_of_eye e ->
           mEye (rift w') = nth2 (EyeRenderOrder hmd) e
           /\ mHmd (rift w') = Some hmd).
Proof.
  intros eyeIndex applyMatrices w. split; [apply enableEye_defined_iff|].
  intros w' hmd e Hrun Hhmd ->.
  exact (enableEye_activates e applyMatrices w w' hmd Hrun Hhmd).
Qed.

(** X4. The sample's loop [for( auto eye : getEyes() ) enableEye( eye )]
    passes each eye of the render order back as an index into the
    render order: on an attached session the eyes active while the
    scene is drawn are [EyeRenderOrder[EyeRenderOrder[0]]] then
    [EyeRenderOrder[EyeRenderOrder[1]]], which for a device order
    that lists both eyes is always left then right, whatever the
    order the device asks for. *)
Theorem eye_loop_indexes_the_order_twice :
  forall (w : World) (hmd : ovrHmdDesc),
    mHmd (rift w) = Some hmd ->
    isValid (mWindow (rift w)) w = true ->
    eyes_rendered sdk (getEyes w) w
    = Some [nth2 (EyeRenderOrder hmd) (fst (EyeRenderOrder hmd));
            nth2 (EyeRenderOrder hmd) (snd (EyeRenderOrder hmd))]
    /\ (fst (EyeRenderOrder hmd) <> snd (EyeRenderOrder hmd) ->
        eyes_rendered sdk (getEyes w) w = Some [ovrEye_Left; ovrEye_Right]).
Proof.
  intros w hmd Hhmd Hvalid.
  assert (Hloop : eyes_rendered sdk (getEyes w) w
                  = Some [nth2 (EyeRenderOrder hmd) (fst (EyeRenderOrder hmd));
                          nth2 (EyeRenderOrder hmd) (snd (EyeRenderOrder hmd))]).
  { unfold getEyes. rewrite Hhmd, Hvalid. cbn [eyes_rendered].
    destruct (proj2 (enableEye_defined_iff (int_of_eye (fst (EyeRenderOrder hmd))) true w))
      as [w1 H1];
      [split; [rewrite Hhmd; eexists; reflexivity | destruct (fst (EyeRenderOrder hmd)); auto]|].
    destruct (enableEye_activates _ _ _ _ hmd H1 Hhmd) as [He1 Hh1].
    destruct (proj2 (enableEye_defined_iff (int_of_eye (snd (EyeRenderOrder hmd))) true w1))
      as [w2 H2];
      [split; [rewrite Hh1; eexists; reflexivity | destruct (snd (EyeRenderOrder hmd)); auto]|].
    destruct (enableEye_activates _ _ _ _ hmd H2 Hh1) as [He2 _].
    rewrite H1. cbn [mbind option_bind]. rewrite H2. cbn [mbind option_bind].
    now rewrite He1, He2. }
  split; [exact Hloop|].
  intros Hperm. rewrite Hloop.
  destruct (EyeRenderOrder hmd) as [[|] [|]]; cbn in *; congruence.
Qed.

End EyeLoop.

Lemma enableEye_defined_witness :
  is_Some (enableEye Fake.sdk 1 false Fake.in_frame)
  /\ ~ is_Some (enableEye Fake.sdk 2 false Fake.in_frame).
Proof.
  destruct (enableEye_defined Fake.sdk Fake.inverse 1 false Fake.in_frame) as [[_ H1] _].
  destruct (enableEye_defined Fake.sdk Fake.inverse 2 false Fake.in_frame) as [[H2 _] _].
  split.
  - apply H1. split; [eexists; vm_compute; reflexivity | right; reflexivity].
  - intros H. apply H2 in H. destruct H as [_ [H|H]]; discriminate H.
Defined.

(** The device of the sample asks for the right eye first; the loop
    draws the left eye first. *)
Lemma eye_loop_indexes_the_order_twice_witness :
  getEyes Fake.in_frame = [ovrEye_Right; ovrEye_Left]
  /\ eyes_rendered Fake.sdk (getEyes Fake.in_frame) Fake.in_frame
     = Some [ovrEye_Left; ovrEye_Right].
Proof.
  split; [vm_compute; reflexivity|].
  apply (proj2 (eye_loop_indexes_the_order_twice Fake.sdk Fake.inverse
                  Fake.in_frame Fake.dk2 ltac:(vm_compute; reflexivity)
                  ltac:(vm_compute; reflexivity))).
  vm_compute. discriminate.
Defined.

(** ** Attaching, again *)

Section Attached.

Variable sdk : VendorSDK.
Variable glm_inverse : glm.mat4 -> glm.mat4.

Lemma initialize_true_inv (window : WindowRef) (w w' : World) :
  initialize sdk window w = Returns true w' ->
  exists (n : nat) (hmd : ovrHmdDesc) (win : Window) (start finish : option DrawFn),
    window = Some n /\ mHmd (rift w) = Some hmd /\ windows w !! n = Some win
    /\ win_isValid win = true /\ win_renderer win = RendererGl start finish.
Proof.
  unfold initialize.
  destruct (mHmd (rift w)) as [hmd|]; [|discriminate].
  destruct window as [n|]; [|discriminate].
  destruct (isValid (Some n) w) eqn:Hvalid; [|discriminate].
  destruct (updateHmdSettings_keeps (initializeFrameBuffer_on sdk hmd w)) as (Hw1 & _).
  destruct (initializeFrameBuffer_on_keeps sdk hmd w) as (Hw0 & _).
  cbv zeta. rewrite Hw1, Hw0.
  unfold isValid in Hvalid.
  destruct (windows w !! n) as [win|] eqn:Hwin; [|discriminate].
  cbn [fmap option_fmap option_map].
  destruct (win_renderer win) as [start finish|] eqn:Hren; [|discriminate].
  intros _. exists n, hmd, win, start, finish. repeat apply conj; reflexivity || assumption.
Qed.

Lemma initialize_succeeds (w : World) (n : nat) (win : Window)
      (start finish : option DrawFn) (hmd : ovrHmdDesc) :
  windows w !! n = Some win ->
  win_isValid win = true ->
  win_renderer win = RendererGl start finish ->
  mHmd (rift w) = Some hmd ->
  exists w' : World,
    initialize sdk (Some n) w = Returns true w'
    /\ rift w' = set_mWindow (Some n)
                   (rift (updateHmdSettings (initializeFrameBuffer_on sdk hmd w)))
    /\ windows w' = alter (connectClose Slot_detachFromWindow) n
                      (alter (setDrawFns (Some Bound_startDrawFn) (Some Bound_finishDrawFn))
                             n (windows w))
    /\ gl w' = gl w
    /\ calls (device w')
       = calls (device w) ++ frameBuffer_calls sdk hmd (rift w)
         ++ [Call_SetEnabledCaps (mHmdCaps (rift w));
             Call_ConfigureTracking (mTrackingCaps (rift w))].
Proof.
  intros Hwin Hv Hgl Hhmd. unfold initialize.
  rewrite (isValid_lookup w n win Hwin), Hhmd, Hv.
  destruct (updateHmdSettings_keeps (initializeFrameBuffer_on sdk hmd w)) as (Hw1 & _).
  destruct (initializeFrameBuffer_on_keeps sdk hmd w)
    as (Hw0 & Hgl0 & _ & _ & Hcaps & Htcaps).
  pose proof (initializeFrameBuffer_on_calls sdk hmd w) as Hcalls.
  cbv zeta. rewrite Hw1, Hw0, Hwin. cbn [fmap option_fmap option_map]. rewrite Hgl.
  eexists. split; [reflexivity|].
  destruct (OVR_SUCCESS _); cbn;
    rewrite ?Hw0, ?Hgl0, ?Hcalls, ?Hcaps, ?Htcaps, <- ?app_assoc;
    repeat apply conj; reflexivity.
Qed.

Lemma hooked_lookup (m : gmap nat Window) (n : nat) (win : Window)
      (start finish : option DrawFn) :
  m !! n = Some win ->
  win_renderer win = RendererGl start finish ->
  alter (connectClose Slot_detachFromWindow) n
    (alter (setDrawFns (Some Bound_startDrawFn) (Some Bound_finishDrawFn)) n m) !! n
  = Some (hooked win).
Proof.
  intros Hwin Hgl. rewrite !lookup_alter_eq, Hwin. cbn.
  unfold setDrawFns, connectClose, hooked. now rewrite Hgl.
Qed.

(** X5. [initialize] does not detach from the window the session is
    attached to: after attaching to window [a] and then to another
    window [b], both renderers hold the session's hooks, the session
    remembers only [b], and [detachFromWindow] then clears the hooks
    of [b] alone, leaving those of [a] installed. *)
Theorem initialize_keeps_hooks_of_previous_window :
  forall (w : World) (a b : nat) (wa wb : Window) (sa fa sb fb : option DrawFn)
         (hmd : ovrHmdDesc),
    a <> b ->
    mHmd (rift w) = Some hmd ->
    windows w !! a = Some wa -> win_isValid wa = true ->
    win_renderer wa = RendererGl sa fa ->
    windows w !! b = Some wb -> win_isValid wb = true ->
    win_renderer wb = RendererGl sb fb ->
    exists w1 w2 : World,
      initialize sdk (Some a) w = Returns true w1
      /\ initialize sdk (Some b) w1 = Returns true w2
      /\ mWindow (rift w2) = Some b
      /\ windows w2 !! a = Some (hooked wa)
      /\ windows w2 !! b = Some (hooked wb)
      /\ mWindow (rift (detachFromWindow w2)) = None
      /\ windows (detachFromWindow w2) !! a = Some (hooked wa)
      /\ win_renderer <$> windows (detachFromWindow w2) !! b = Some (RendererGl None None).
Proof.
  intros w a b wa wb sa fa sb fb hmd Hab Hhmd Hwa Hva Hga Hwb Hvb Hgb.
  destruct (initialize_succeeds w a wa sa fa hmd Hwa Hva Hga Hhmd)
    as (w1 & H1 & Hr1 & Hws1 & _).
  assert (Hwb1 : windows w1 !! b = Some wb)
    by (rewrite Hws1, !lookup_alter_ne by exact Hab; exact Hwb).
  assert (Hwa1 : windows w1 !! a = Some (hooked wa))
    by (rewrite Hws1; exact (hooked_lookup _ _ _ _ _ Hwa Hga)).
  assert (Hhmd1 : mHmd (rift w1) = Some hmd).
  { rewrite Hr1. cbn [mHmd set_mWindow].
    destruct (updateHmdSettings_keeps (initializeFrameBuffer_on sdk hmd w))
      as (_ & _ & _ & Hh & _).
    destruct (initializeFrameBuffer_on_keeps sdk hmd w) as (_ & _ & _ & Hh0 & _).
    now rewrite Hh, Hh0. }
  destruct (initialize_succeeds w1 b wb sb fb hmd Hwb1 Hvb Hgb Hhmd1)
    as (w2 & H2 & Hr2 & Hws2 & _).
  assert (Hm2 : mWindow (rift w2) = Some b) by (rewrite Hr2; reflexivity).
  assert (Hwa2 : windows w2 !! a = Some (hooked wa))
    by (rewrite Hws2, !lookup_alter_ne by congruence; exact Hwa1).
  assert (Hwb2 : windows w2 !! b = Some (hooked wb))
    by (rewrite Hws2; exact (hooked_lookup _ _ _ _ _ Hwb1 Hgb)).
  assert (Hvalid2 : isValid (Some b) w2 = true)
    by (rewrite (isValid_lookup _ _ _ Hwb2); exact Hvb).
  exists w1, w2. repeat apply conj; try assumption.
  - now rewrite (detach_attached w2 b Hm2 Hvalid2).
  - rewrite (detach_attached w2 b Hm2 Hvalid2).
    cbn [windows set_rift set_windows].
    rewrite lookup_alter_ne by congruence. exact Hwa2.
  - rewrite (detach_attached w2 b Hm2 Hvalid2).
    cbn [windows set_rift set_windows].
    rewrite lookup_alter_eq, Hwb2. reflexivity.
Qed.

Lemma destructor_defined (w : World) :
  is_Some (destructor w) <-> is_Some (mRenderBuffer (rift w)).
Proof.
  destruct (detach_keeps w) as (_ & _ & _ & Hrb & _).
  unfold destructor. cbv zeta.
  change (mRenderBuffer
            (rift (device_call
                     (Call_DestroyMirrorTexture (mMirrorTexture (rift (detachFromWindow w))))
                     (detachFromWindow w))))
    with (mRenderBuffer (rift (detachFromWindow w))).
  rewrite Hrb.
  destruct (mRenderBuffer (rift w)) as [tb|]; cbn [mbind option_bind].
  - split; intros _; eexists; reflexivity.
  - split; intros [x Hx]; discriminate Hx.
Qed.

(** X6. The destructor dereferences [mRenderBuffer] without a check:
    it runs to its end exactly when the session holds a render
    target.  A session that was never attached and never began a
    frame holds none; after a successful [initialize] or a
    [startDrawFn] that ran, it holds one. *)
Theorem destructor_needs_render_target :
  forall w : World,
    (is_Some (destructor w) <-> is_Some (mRenderBuffer (rift w)))
    /\ (forall (window : WindowRef) (w' : World),
           initialize sdk window w = Returns true w' -> is_Some (destructor w'))
    /\ (forall w' : World, startDrawFn sdk w = Some w' -> is_Some (destructor w')).
Proof.
  intros w. split; [apply destructor_defined|]. split.
  - intros window w' Hinit.
    destruct (initialize_true_inv window w w' Hinit)
      as (n & hmd & win & start & finish & -> & Hhmd & Hwin & Hv & Hgl).
    destruct (initialize_succeeds w n win start finish hmd Hwin Hv Hgl Hhmd)
      as (w'' & Hinit' & Hr & _).
    rewrite Hinit in Hinit'. injection Hinit' as <-.
    apply destructor_defined. rewrite Hr. cbn [mRenderBuffer set_mWindow].
    destruct (updateHmdSettings_keeps (initializeFrameBuffer_on sdk hmd w))
      as (_ & _ & _ & _ & Hrb & _).
    rewrite Hrb.
    pose proof (initializeFrameBuffer_on_size sdk hmd w) as Hsize.
    destruct (mRenderBuffer (rift (initializeFrameBuffer_on sdk hmd w)));
      [eexists; reflexivity | discriminate Hsize].
  - intros w' Hrun.
    destruct (mHmd (rift w)) as [hmd|] eqn:Hhmd;
      [|rewrite (startDrawFn_None sdk w Hhmd) in Hrun; discriminate].
    destruct (startDrawFn_runs sdk hmd w Hhmd) as (w'' & Hrun' & Hsize & _).
    rewrite Hrun in Hrun'. injection Hrun' as <-.
    apply destructor_defined.
    destruct (mRenderBuffer (rift w')); [eexists; reflexivity | discriminate Hsize].
Qed.

End Attached.

Lemma initialize_keeps_hooks_of_previous_window_witness :
  exists w1 w2 : World,
    initialize Fake.sdk (Some 1%nat) two_gl_windows = Returns true w1
    /\ initialize Fake.sdk (Some 3%nat) w1 = Returns true w2
    /\ mWindow (rift (detachFromWindow w2)) = None
    /\ windows (detachFromWindow w2) !! 1%nat = Some (hooked Fake.window_gl).
Proof.
  destruct (initialize_keeps_hooks_of_previous_window Fake.sdk two_gl_windows
              1%nat 3%nat Fake.window_gl Fake.window_gl None None None None Fake.dk2)
    as (w1 & w2 & H1 & H2 & _ & _ & _ & Hm & Ha & _);
    [discriminate | vm_compute; reflexivity .. |].
  exists w1, w2. repeat apply conj; assumption.
Defined.

(** ** What a frame in flight leaves alone *)

Lemma caps_sent_app (l1 l2 : list ovrCall) :
  caps_sent (l1 ++ l2) = caps_sent l1 ++ caps_sent l2.
Proof.
  induction l1 as [|c l1 IH]; [reflexivity|].
  destruct c; cbn; rewrite IH; reflexivity.
Qed.

Lemma sets_created_app (l1 l2 : list ovrCall) :
  sets_created (l1 ++ l2) = (sets_created l1 + sets_created l2)%nat.
Proof.
  induction l1 as [|c l1 IH]; [reflexivity|].
  destruct c; cbn; rewrite IH; reflexivity.
Qed.

Lemma polls_app (l1 l2 : list ovrCall) :
  polls (l1 ++ l2) = (polls l1 + polls l2)%nat.
Proof.
  induction l1 as [|c l1 IH]; [reflexivity|].
  destruct c; cbn; rewrite IH; reflexivity.
Qed.

Lemma quiet_app (l1 l2 : list ovrCall) : quiet l1 -> quiet l2 -> quiet (l1 ++ l2).
Proof.
  intros [A1 A2] [B1 B2]. split.
  - now rewrite caps_sent_app, A1, B1.
  - now rewrite sets_created_app, A2, B2.
Qed.

Lemma in_flight_step_refl (w : World) : in_flight_step w w.
Proof.
  split; [repeat apply conj; reflexivity|]. split; [repeat apply conj; reflexivity|].
  exists []. split; [unfold appended; now rewrite app_nil_r | split; reflexivity].
Qed.

Lemma in_flight_step_trans (w1 w2 w3 : World) :
  in_flight_step w1 w2 -> in_flight_step w2 w3 -> in_flight_step w1 w3.
Proof.
  intros ((A1 & A2 & A3 & A4 & A5 & A6 & A7) & (C1 & C2 & C3) & l1 & L1 & Q1)
         ((B1 & B2 & B3 & B4 & B5 & B6 & B7) & (D1 & D2 & D3) & l2 & L2 & Q2).
  split; [repeat apply conj; etransitivity; eassumption|].
  split; [repeat apply conj; etransitivity; eassumption|].
  exists (l1 ++ l2). split; [|now apply quiet_app].
  unfold appended in *. now rewrite L2, L1, app_assoc.
Qed.

(** A world that differs in the GL context and the windows only. *)
Lemma in_flight_step_same_session (w w' : World) :
  rift w' = rift w -> device w' = device w -> in_flight_step w w'.
Proof.
  intros Hr Hd. unfold in_flight_step, same_frame, same_caps, appended.
  rewrite Hr, Hd. split; [repeat apply conj; reflexivity|].
  split; [repeat apply conj; reflexivity|].
  exists []. split; [now rewrite app_nil_r | split; reflexivity].
Qed.

Section Stable.

Variable sdk : VendorSDK.
Variable glm_inverse : glm.mat4 -> glm.mat4.

Lemma getViewMatrix_step (w : World) :
  in_flight_step w (snd (getViewMatrix sdk w)).
Proof.
  unfold getViewMatrix, isTracked.
  destruct (mViewMatrixCached (rift w)); cbn [negb fst snd];
    [apply in_flight_step_refl|].
  split; [repeat apply conj; reflexivity|].
  split; [repeat apply conj; reflexivity|].
  exists [Call_GetTrackingState ovr_Now]. split; [reflexivity | split; reflexivity].
Qed.

Lemma getProjectionMatrix_step (w : World) :
  in_flight_step w (snd (getProjectionMatrix w)).
Proof.
  unfold getProjectionMatrix.
  destruct (mProjectionCached (rift w)); cbn [negb fst snd];
    [apply in_flight_step_refl|].
  split; [repeat apply conj; reflexivity|].
  split; [repeat apply conj; reflexivity|].
  exists []. split; [unfold appended; cbn; now rewrite app_nil_r | split; reflexivity].
Qed.

Lemma getInverseViewMatrix_step (w : World) :
  in_flight_step w (snd (getInverseViewMatrix sdk glm_inverse w)).
Proof.
  unfold getInverseViewMatrix.
  destruct (mInverseViewMatrixCached (rift w)); cbn [negb]; [apply in_flight_step_refl|].
  pose proof (getViewMatrix_step w) as H.
  destruct (getViewMatrix sdk w) as [view w1]. cbn [snd] in *.
  eapply in_flight_step_trans; [exact H|].
  split; [repeat apply conj; reflexivity|].
  split; [repeat apply conj; reflexivity|].
  exists []. split; [unfold appended; cbn; now rewrite app_nil_r | split; reflexivity].
Qed.

Lemma applyEyeMatrices_step (w : World) :
  in_flight_step w (applyEyeMatrices sdk w).
Proof.
  unfold applyEyeMatrices.
  set (w1 := set_gl (set_gl_ModelMatrix _ _) _).
  assert (H0 : in_flight_step w w1) by (apply in_flight_step_same_session; reflexivity).
  pose proof (getViewMatrix_step w1) as H1.
  destruct (getViewMatrix sdk w1) as [view w2]. cbn [snd] in H1.
  set (w3 := set_gl (set_gl_ViewMatrix view (gl w2)) w2).
  assert (H2 : in_flight_step w2 w3) by (apply in_flight_step_same_session; reflexivity).
  pose proof (getProjectionMatrix_step w3) as H3.
  destruct (getProjectionMatrix w3) as [projection w4]. cbn [snd] in H3.
  assert (H4 : in_flight_step w4 (set_gl (set_gl_ProjectionMatrix projection (gl w4)) w4))
    by (apply in_flight_step_same_session; reflexivity).
  clearbody w1 w3.
  exact (in_flight_step_trans _ _ _ H0
           (in_flight_step_trans _ _ _ H1
              (in_flight_step_trans _ _ _ H2
                 (in_flight_step_trans _ _ _ H3 H4)))).
Qed.

Lemma activateEye_step (eye : ovrEyeType) (w : World) :
  in_flight_step w (activateEye sdk eye (invalidateCaches w)).
Proof.
  split; [repeat apply conj; reflexivity|].
  split; [repeat apply conj; reflexivity|].
  exists []. split; [unfold appended; cbn; now rewrite app_nil_r | split; reflexivity].
Qed.

Lemma enableEye_step (eyeIndex : Z) (applyMatrices : bool) (w w' : World) :
  enableEye sdk eyeIndex applyMatrices w = Some w' -> in_flight_step w w'.
Proof.
  rewrite enableEye_unfold.
  destruct (mHmd (rift w)) as [hmd|]; [|discriminate].
  destruct (index2 eyeIndex) as [i|]; [|discriminate].
  cbv zeta. intros H. injection H as <-.
  pose proof (activateEye_step (nth2 (EyeRenderOrder hmd) i) w) as H1.
  destruct applyMatrices; [|exact H1].
  exact (in_flight_step_trans _ _ _ H1 (applyEyeMatrices_step _)).
Qed.

Lemma run_op_step (op : FrameOp) (w w' : World) :
  run_op sdk glm_inverse op w = Some w' -> in_flight_step w w'.
Proof.
  destruct op; cbn [run_op]; intros H;
    [exact (enableEye_step _ _ _ _ H)|..];
    try (injection H as <-).
  - apply getViewMatrix_step.
  - apply getInverseViewMatrix_step.
  - apply getProjectionMatrix_step.
  - unfold isTracked. cbn [snd].
    split; [repeat apply conj; reflexivity|].
    split; [repeat apply conj; reflexivity|].
    exists [Call_GetTrackingState ovr_Now]. split; [reflexivity | split; reflexivity].
  - split; [repeat apply conj; reflexivity|].
    split; [repeat apply conj; reflexivity|].
    exists []. split; [unfold appended; cbn; now rewrite app_nil_r | split; reflexivity].
  - unfold setMirrorPercentage in H.
    destruct (fgtb sp f0); [|discriminate]. injection H as <-.
    split; [repeat apply conj; reflexivity|].
    split; [repeat apply conj; reflexivity|].
    exists []. split; [unfold appended; cbn; now rewrite app_nil_r | split; reflexivity].
  - unfold enableMirrored.
    destruct (negb (Bool.eqb (mIsMirrrored (rift w)) enabled)); [|apply in_flight_step_refl].
    split; [repeat apply conj; reflexivity|].
    split; [repeat apply conj; reflexivity|].
    exists []. split; [unfold appended; cbn; now rewrite app_nil_r | split; reflexivity].
  - split; [repeat apply conj; reflexivity|].
    split; [repeat apply conj; reflexivity|].
    exists []. split; [unfold appended; cbn; now rewrite app_nil_r | split; reflexivity].
  - split; [repeat apply conj; reflexivity|].
    split; [repeat apply conj; reflexivity|].
    exists []. split; [unfold appended; cbn; now rewrite app_nil_r | split; reflexivity].
  - unfold bind in H. destruct (mRenderBuffer (rift w)) as [tb|] eqn:E.
    + destruct (Z.eqb _ 0); [discriminate|]. injection H as <-.
      split; [unfold same_frame, target_id; cbn; rewrite E; repeat apply conj; reflexivity|].
      split; [repeat apply conj; reflexivity|].
      exists []. split; [unfold appended; cbn; now rewrite app_nil_r | split; reflexivity].
    + injection H as <-. apply in_flight_step_refl.
  - unfold unbind. destruct (mRenderBuffer (rift w)); [|apply in_flight_step_refl].
    apply in_flight_step_same_session; reflexivity.
  - split; [repeat apply conj; reflexivity|].
    split; [repeat apply conj; reflexivity|].
    eexists. split; [reflexivity | split; reflexivity].
Qed.

Lemma run_ops_step (ops : list FrameOp) :
  forall w w' : World,
    run_ops sdk glm_inverse ops w = Some w' -> in_flight_step w w'.
Proof.
  induction ops as [|op rest IH]; cbn [run_ops]; intros w w' H.
  - injection H as <-. apply in_flight_step_refl.
  - destruct (run_op sdk glm_inverse op w) as [w1|] eqn:E; [|discriminate].
    cbn [mbind option_bind] in H.
    exact (in_flight_step_trans _ _ _ (run_op_step _ _ _ E) (IH _ _ H)).
Qed.


End Stable.

(** ** From frame to frame *)

Section Frames.

Variable sdk : VendorSDK.
Variable glm_inverse : glm.mat4 -> glm.mat4.

Lemma ivec2_neqb_refl (a : glm.ivec2) : glm.ivec2_neqb a a = false.
Proof. unfold glm.ivec2_neqb. now rewrite !Z.eqb_refl. Qed.

Lemma needsNewBuffer_matching (r : OculusRift) (size : glm.ivec2) :
  tb_size <$> mRenderBuffer r = Some size -> needsNewBuffer r size = false.
Proof.
  unfold needsNewBuffer. destruct (mRenderBuffer r) as [tb|]; [|discriminate].
  cbn. intros H. injection H as <-. apply ivec2_neqb_refl.
Qed.

Lemma startDrawFn_members (w w' : World) :
  startDrawFn sdk w = Some w' ->
  mScreenPercentage (rift w') = mScreenPercentage (rift w)
  /\ mHmd (rift w') = mHmd (rift w)
  /\ same_caps w w'
  /\ windows w' = windows w
  /\ mWindow (rift w') = mWindow (rift w).
Proof.
  unfold startDrawFn, initializeFrameBuffer. cbn.
  destruct (mHmd (rift w)) as [hmd|] eqn:Hhmd; [|discriminate]. cbn.
  unfold initializeFrameBuffer_on. cbn.
  destruct (needsNewBuffer (rift w) _); cbn;
    destruct (mHmdSettingsChanged (rift w)); cbn;
    intros H; injection H as <-; repeat apply conj;
    first [reflexivity | exact Hhmd].
Qed.

(** The fields of the layer and of the render target a
    [startDrawFn] that ran leaves, read off [initializeFrameBuffer]'s
    world. *)
Lemma startDrawFn_layout (w w' : World) :
  startDrawFn sdk w = Some w' ->
  exists hmd : ovrHmdDesc,
    mHmd (rift w) = Some hmd
    /\ mRenderBuffer (rift w') = mRenderBuffer (rift (initializeFrameBuffer_on sdk hmd w))
    /\ mDepthBuffer (rift w') = mDepthBuffer (rift (initializeFrameBuffer_on sdk hmd w))
    /\ ColorTexture (mLayer (rift w'))
       = ColorTexture (mLayer (rift (initializeFrameBuffer_on sdk hmd w)))
    /\ Viewport (mLayer (rift w'))
       = Viewport (mLayer (rift (initializeFrameBuffer_on sdk hmd w)))
    /\ LayerFov (mLayer (rift w'))
       = LayerFov (mLayer (rift (initializeFrameBuffer_on sdk hmd w)))
    /\ mEyeRenderDesc (rift w')
       = mEyeRenderDesc (rift (initializeFrameBuffer_on sdk hmd w)).
Proof.
  unfold startDrawFn, initializeFrameBuffer. cbn.
  destruct (mHmd (rift w)) as [hmd|] eqn:Hhmd; [|discriminate]. cbn.
  unfold initializeFrameBuffer_on. cbn.
  destruct (needsNewBuffer (rift w) _) eqn:Hn; cbn;
    destruct (mHmdSettingsChanged (rift w)); cbn;
    intros H; injection H as <-; exists hmd; cbn; rewrite Hn;
    repeat apply conj; first [reflexivity | exact Hhmd].
Qed.

Lemma startDrawFn_matching (hmd : ovrHmdDesc) (w : World) :
  mHmd (rift w) = Some hmd ->
  tb_size <$> mRenderBuffer (rift w)
  = Some (frameBufferSize sdk hmd (mScreenPercentage (rift w))) ->
  exists w' : World,
    startDrawFn sdk w = Some w'
    /\ mRenderBuffer (rift w') = mRenderBuffer (rift w)
    /\ calls (device w')
       = calls (device w)
         ++ [Call_GetFovTextureSize ovrEye_Left (mScreenPercentage (rift w));
             Call_GetFovTextureSize ovrEye_Right (mScreenPercentage (rift w))]
         ++ (if mHmdSettingsChanged (rift w)
             then [Call_SetEnabledCaps (mHmdCaps (rift w))] else [])
         ++ [Call_GetFrameTiming; Call_GetTrackingState ovr_DisplayMidpoint].
Proof.
  intros Hhmd Hsize.
  pose proof (needsNewBuffer_matching _ _ Hsize) as Hn.
  destruct (startDrawFn_runs sdk hmd w Hhmd)
    as (w' & Hrun & _ & _ & _ & _ & _ & _ & _ & Hcalls).
  exists w'. split; [exact Hrun|]. split.
  - destruct (startDrawFn_layout w w' Hrun) as (hmd' & Hhmd' & Hrb & _).
    rewrite Hhmd in Hhmd'. injection Hhmd' as <-.
    rewrite Hrb. unfold initializeFrameBuffer_on. cbn. now rewrite Hn.
  - rewrite Hcalls. unfold frameBuffer_calls. rewrite Hn. now rewrite app_nil_r.
Qed.

(** X7. The render target is built once and reused: after a
    [startDrawFn] that ran, and whatever is called while the frame is
    in flight, the next [startDrawFn] runs, keeps the swap texture set
    and the size of the target, and asks the device for no new swap
    texture set. *)
Theorem consecutive_frames_reuse_target :
  forall (ops : list FrameOp) (w w1 w2 : World),
    startDrawFn sdk w = Some w1 ->
    run_ops sdk glm_inverse ops w1 = Some w2 ->
    exists w3 : World,
      startDrawFn sdk w2 = Some w3
      /\ mRenderBuffer (rift w3) = mRenderBuffer (rift w2)
      /\ target_id (rift w3) = target_id (rift w1)
      /\ sets_created (calls (device w3)) = sets_created (calls (device w1)).
Proof.
  intros ops w w1 w2 Hrun Hops.
  destruct (mHmd (rift w)) as [hmd|] eqn:Hhmd;
    [|rewrite (startDrawFn_None sdk w Hhmd) in Hrun; discriminate].
  destruct (startDrawFn_runs sdk hmd w Hhmd) as (w1' & Hrun' & Hsize1 & _).
  rewrite Hrun in Hrun'. injection Hrun' as <-.
  destruct (startDrawFn_members w w1 Hrun) as (Hsp1 & Hh1 & _).
  destruct (run_ops_same_target sdk glm_inverse ops _ _ Hops) as (Hsize2 & Hsp2 & Hh2).
  destruct (run_ops_step sdk glm_inverse ops _ _ Hops)
    as ((_ & _ & _ & _ & _ & Hid & _) & _ & l & Hl & _ & Hquiet).
  destruct (startDrawFn_matching hmd w2) as (w3 & Hrun3 & Hrb3 & Hcalls3).
  - now rewrite Hh2, Hh1.
  - now rewrite Hsize2, Hsp2, Hsize1, Hsp1.
  - exists w3. repeat apply conj; try assumption.
    + unfold target_id in *. now rewrite Hrb3.
    + rewrite Hcalls3, Hl, !sets_created_app, Hquiet.
      destruct (mHmdSettingsChanged (rift w2)); cbn; lia.
Qed.



End Frames.

(** ** Whole sessions *)

Lemma layer_transfer (r r' : OculusRift) :
  target_id r' = target_id r ->
  mDepthBuffer r' = mDepthBuffer r ->
  ColorTexture (mLayer r') = ColorTexture (mLayer r) ->
  Viewport (mLayer r') = Viewport (mLayer r) ->
  LayerFov (mLayer r') = LayerFov (mLayer r) ->
  mEyeRenderDesc r' = mEyeRenderDesc r ->
  layer_describes_target r -> layer_describes_target r'.
Proof.
  intros Hid Hd Hc Hv Hf He H tb' Htb'.
  unfold target_id in Hid. rewrite Htb' in Hid.
  destruct (mRenderBuffer r) as [tb|] eqn:Htb; [|discriminate Hid].
  cbn in Hid. injection Hid as Hset Hsize.
  destruct (H tb Htb) as (A1 & A2 & A3 & A4).
  rewrite Hd, Hc, Hv, Hf, He, Hset, Hsize. repeat apply conj; assumption.
Qed.

Lemma session_step_refl (w : World) : session_step w w.
Proof.
  split; [repeat apply conj; reflexivity|]. split; [exact (fun H => H)|].
  exists []. split; [unfold appended; now rewrite app_nil_r | constructor].
Qed.

Lemma session_step_trans (w1 w2 w3 : World) :
  session_step w1 w2 -> session_step w2 w3 -> session_step w1 w3.
Proof.
  intros ((C1 & C2 & C3) & L1 & l1 & A1 & F1) ((D1 & D2 & D3) & L2 & l2 & A2 & F2).
  split; [repeat apply conj; etransitivity; eassumption|].
  split; [exact (fun H => L2 (L1 H))|].
  exists (l1 ++ l2). split.
  - unfold appended in *. now rewrite A2, A1, app_assoc.
  - rewrite caps_sent_app. apply Forall_app. split; [exact F1|].
    now rewrite <- C1.
Qed.

Lemma in_flight_session_step (w w' : World) :
  in_flight_step w w' -> session_step w w'.
Proof.
  intros ((_ & _ & Hl & Hd & Hdb & Hid & _) & Hcaps & l & Hl' & Hq & _).
  split; [exact Hcaps|]. split.
  - apply layer_transfer; try assumption; now rewrite Hl.
  - exists l. split; [exact Hl'|]. rewrite Hq. constructor.
Qed.

Section Sessions.

Variable sdk : VendorSDK.
Variable glm_inverse : glm.mat4 -> glm.mat4.

Lemma frameBuffer_calls_quiet_caps (hmd : ovrHmdDesc) (r : OculusRift) :
  caps_sent (frameBuffer_calls sdk hmd r) = [].
Proof. unfold frameBuffer_calls. now destruct (needsNewBuffer _ _). Qed.

Lemma initializeFrameBuffer_on_layer (hmd : ovrHmdDesc) (w : World) :
  layer_describes_target (rift w) ->
  layer_describes_target (rift (initializeFrameBuffer_on sdk hmd w)).
Proof.
  intros H. unfold initializeFrameBuffer_on. cbn.
  destruct (needsNewBuffer (rift w) _); [|exact H].
  intros tb Htb. cbn in Htb. injection Htb as <-.
  cbn. repeat apply conj; reflexivity.
Qed.

Lemma initializeFrameBuffer_on_caps (hmd : ovrHmdDesc) (w : World) :
  same_caps w (initializeFrameBuffer_on sdk hmd w).
Proof.
  unfold initializeFrameBuffer_on. cbn.
  destruct (needsNewBuffer (rift w) _); repeat apply conj; reflexivity.
Qed.

(** [initializeFrameBuffer(); updateHmdSettings();], the first two
    statements of [initialize] past its guard. *)
Lemma setup_step (hmd : ovrHmdDesc) (w : World) :
  session_step w (updateHmdSettings (initializeFrameBuffer_on sdk hmd w)).
Proof.
  destruct (initializeFrameBuffer_on_caps hmd w) as (C1 & C2 & C3).
  pose proof (initializeFrameBuffer_on_calls sdk hmd w) as Hcalls.
  split; [repeat apply conj; assumption|]. split.
  - intros H. apply (initializeFrameBuffer_on_layer hmd) in H.
    eapply layer_transfer; [..|exact H]; reflexivity.
  - exists (frameBuffer_calls sdk hmd (rift w) ++ [Call_SetEnabledCaps (mHmdCaps (rift w))]).
    split.
    + unfold appended. cbn. now rewrite Hcalls, C1, <- app_assoc.
    + rewrite caps_sent_app, frameBuffer_calls_quiet_caps. cbn. now constructor.
Qed.

Lemma startDrawFn_step (w w' : World) :
  startDrawFn sdk w = Some w' -> session_step w w'.
Proof.
  intros Hrun.
  destruct (startDrawFn_members sdk w w' Hrun) as (_ & _ & Hcaps & _).
  destruct (startDrawFn_layout sdk w w' Hrun) as (hmd & Hhmd & Hrb & Hdb & Hc & Hv & Hf & He).
  destruct (startDrawFn_runs sdk hmd w Hhmd)
    as (w'' & Hrun' & _ & _ & _ & _ & _ & _ & _ & Hcalls).
  rewrite Hrun in Hrun'. injection Hrun' as <-.
  split; [exact Hcaps|]. split.
  - intros H. apply (initializeFrameBuffer_on_layer hmd) in H.
    eapply layer_transfer; [..|exact H]; try assumption.
    unfold target_id. now rewrite Hrb.
  - eexists. split; [exact Hcalls|].
    rewrite !caps_sent_app, frameBuffer_calls_quiet_caps.
    destruct (mHmdSettingsChanged (rift w)); cbn; repeat constructor.
Qed.

Lemma initialize_step (window : WindowRef) (w : World) :
  session_step w (world_after (initialize sdk window w)).
Proof.
  unfold initialize.
  destruct (mHmd (rift w)) as [hmd|]; [|apply session_step_refl].
  destruct window as [n|]; [|apply session_step_refl].
  destruct (isValid (Some n) w); [|apply session_step_refl].
  cbv zeta.
  pose proof (setup_step hmd w) as Hsetup.
  set (wu := updateHmdSettings (initializeFrameBuffer_on sdk hmd w)) in *.
  clearbody wu.
  destruct (win_renderer <$> windows wu !! n) as [[start finish|]|];
    cbn [world_after]; try exact Hsetup.
  eapply session_step_trans; [exact Hsetup|].
  destruct (OVR_SUCCESS _).
  - split; [repeat apply conj; reflexivity|]. split.
    + apply layer_transfer; reflexivity.
    + exists [Call_ConfigureTracking (mTrackingCaps (rift wu))].
      split; [reflexivity | constructor].
  - split; [repeat apply conj; reflexivity|]. split.
    + apply layer_transfer; reflexivity.
    + exists [Call_ConfigureTracking (mTrackingCaps (rift wu))].
      split; [reflexivity | constructor].
Qed.

Lemma detachFromWindow_step (w : World) : session_step w (detachFromWindow w).
Proof.
  unfold detachFromWindow.
  destruct (isValid (mWindow (rift w)) w); [|apply session_step_refl].
  destruct (mWindow (rift w)); [|apply session_step_refl].
  split; [repeat apply conj; reflexivity|]. split.
  - apply layer_transfer; reflexivity.
  - exists []. split; [unfold appended; cbn; now rewrite app_nil_r | constructor].
Qed.

Lemma run_session_op_step (op : SessionOp) (w w' : World) :
  run_session_op sdk glm_inverse op w = Some w' -> session_step w w'.
Proof.
  destruct op; cbn [run_session_op]; intros H.
  - apply in_flight_session_step. exact (run_op_step sdk glm_inverse _ _ _ H).
  - unfold setScreenPercentage in H.
    destruct (fgtb sp f0); [|discriminate]. injection H as <-.
    split; [repeat apply conj; reflexivity|]. split.
    + apply layer_transfer; reflexivity.
    + exists []. split; [unfold appended; cbn; now rewrite app_nil_r | constructor].
  - exact (startDrawFn_step _ _ H).
  - injection H as <-. apply initialize_step.
  - injection H as <-. apply detachFromWindow_step.
Qed.

Lemma run_session_step (ops : list SessionOp) :
  forall w w' : World,
    run_session sdk glm_inverse ops w = Some w' -> session_step w w'.
Proof.
  induction ops as [|op rest IH]; cbn [run_session]; intros w w' H.
  - injection H as <-. apply session_step_refl.
  - destruct (run_session_op sdk glm_inverse op w) as [w1|] eqn:E; [|discriminate].
    cbn [mbind option_bind] in H.
    exact (session_step_trans _ _ _ (run_session_op_step _ _ _ E) (IH _ _ H)).
Qed.

(** Two halves [a / 2] of an [int] division, which truncates towards
    zero, fall short of [a] by at most one, on the side of zero. *)
Lemma two_halves (a : Z) :
  (0 <= a -> a - 1 <= Z.quot a 2 + Z.quot a 2 <= a)
  /\ (a <= 0 -> a <= Z.quot a 2 + Z.quot a 2 <= a + 1).
Proof.
  pose proof (Z.quot_rem' a 2) as Hq.
  split; intros H.
  - pose proof (Z.rem_bound_pos_pos a 2 ltac:(lia) H). lia.
  - pose proof (Z.rem_bound_neg_neg a (-2) ltac:(lia) H) as Hr.
    pose proof (Z.rem_opp_r' a 2) as Ho. change (- (2)) with (-2) in Ho.
    rewrite Ho in Hr. lia.
Qed.

(** X10. The layer always describes the render target: starting
    from a session without render target, after any sequence of calls
    (attaching, frames, eyes, getters, setters, detaching) a session
    that holds a render target has a depth buffer of its size, both
    eyes' colour textures on its swap texture set, and the two
    viewports side by side in it: the left one at x = 0, the right one
    where the left one ends, both half the target's width (the [int]
    division, truncated towards zero) and of the target's height.
    For a target of non-negative width the right viewport ends inside
    the target, at most one column short of its width; for a width
    that is negative, as an [int] sum of two widths can be, it ends
    at the width or one column past it towards zero. *)
Theorem layer_always_describes_target :
  forall (ops : list SessionOp) (w w' : World),
    mRenderBuffer (rift w) = None ->
    run_session sdk glm_inverse ops w = Some w' ->
    layer_describes_target (rift w')
    /\ (forall tb : TextureBuffer,
           mRenderBuffer (rift w') = Some tb ->
           let left := fst (Viewport (mLayer (rift w'))) in
           let right := snd (Viewport (mLayer (rift w'))) in
           let width := glm.ix (tb_size tb) in
           p_x (Pos left) = 0
           /\ p_x (Pos right) = p_x (Pos left) + sz_w (Size left)
           /\ sz_w (Size left) = Z.quot width 2
           /\ sz_w (Size right) = Z.quot width 2
           /\ sz_h (Size left) = glm.iy (tb_size tb)
           /\ sz_h (Size right) = glm.iy (tb_size tb)
           /\ (0 <= width ->
               width - 1 <= p_x (Pos right) + sz_w (Size right) <= width)
           /\ (width <= 0 ->
               width <= p_x (Pos right) + sz_w (Size right) <= width + 1)).
Proof.
  intros ops w w' Hnone Hrun.
  destruct (run_session_step ops w w' Hrun) as (_ & Hlayer & _).
  assert (H : layer_describes_target (rift w')).
  { apply Hlayer. intros tb Htb. rewrite Hnone in Htb. discriminate Htb. }
  split; [exact H|].
  intros tb Htb. destruct (H tb Htb) as (_ & _ & Hv & _).
  cbv zeta. rewrite Hv. unfold side_by_side. cbn.
  destruct (two_halves (glm.ix (tb_size tb))) as [Hpos Hneg].
  repeat apply conj; try reflexivity; [exact Hpos | exact Hneg].
Qed.

(** X11. No call on the session changes the capabilities the
    constructor chose: after any sequence of calls [mHmdCaps],
    [mTrackingCaps] and the extended-desktop flag are what they were,
    and every [ovrHmd_SetEnabledCaps] the sequence made sent that same
    [mHmdCaps]; toggling the mirrored output, monoscopic mode or
    positional tracking changes nothing of what the device is sent. *)
Theorem capabilities_never_change :
  forall (ops : list SessionOp) (w w' : World),
    run_session sdk glm_inverse ops w = Some w' ->
    mHmdCaps (rift w') = mHmdCaps (rift w)
    /\ mTrackingCaps (rift w') = mTrackingCaps (rift w)
    /\ isDesktopExtended (rift w') = isDesktopExtended (rift w)
    /\ exists l : list ovrCall,
         calls (device w') = calls (device w) ++ l
         /\ Forall (eq (mHmdCaps (rift w))) (caps_sent l).
Proof.
  intros ops w w' Hrun.
  destruct (run_session_step ops w w' Hrun) as ((C1 & C2 & C3) & _ & l & Hl & Hf).
  repeat apply conj; try assumption. exists l. split; assumption.
Qed.

End Sessions.

(** ** Reading the matrices *)

Section Reads.

Variable sdk : VendorSDK.
Variable glm_inverse : glm.mat4 -> glm.mat4.

(** One read: what it logs and what it leaves of the view cache. *)
Lemma run_getter_poll (g : Getter) (w : World) (m : glm.mat4) (w1 : World) :
  run_getter sdk glm_inverse g w = (m, w1) ->
  (exists l : list ovrCall,
      appended w w1 l
      /\ (l = [] \/ (l = [Call_GetTrackingState ovr_Now]
                     /\ mViewMatrixCached (rift w) = false
                     /\ mViewMatrixCached (rift w1) = true)))
  /\ (mViewMatrixCached (rift w) = true ->
      mViewMatrixCached (rift w1) = true
      /\ mViewMatrix (rift w1) = mViewMatrix (rift w)
      /\ device w1 = device w)
  /\ (g = Get_ViewMatrix ->
      mViewMatrixCached (rift w1) = true /\ m = mViewMatrix (rift w1)).
Proof.
  assert (nil_step : forall x : World, appended x x []).
  { intros x. unfold appended. now rewrite app_nil_r. }
  destruct g; cbn [run_getter].
  - unfold getViewMatrix, isTracked.
    destruct (mViewMatrixCached (rift w)) eqn:Hc; cbn [negb];
      intros H; injection H as <- <-.
    + split; [exists []; split; [apply nil_step | now left]|].
      split; [intros _; repeat apply conj; [exact Hc | reflexivity | reflexivity]|].
      intros _. split; [exact Hc | reflexivity].
    + split; [exists [Call_GetTrackingState ovr_Now]; split;
              [reflexivity | right; repeat apply conj; reflexivity]|].
      split; [discriminate|]. intros _. split; reflexivity.
  - unfold getInverseViewMatrix.
    destruct (mInverseViewMatrixCached (rift w)) eqn:Hi; cbn [negb].
    + intros H; injection H as <- <-.
      split; [exists []; split; [apply nil_step | now left]|].
      split; [intros Hc; repeat apply conj; [exact Hc | reflexivity | reflexivity]|].
      discriminate.
    + unfold getViewMatrix, isTracked.
      destruct (mViewMatrixCached (rift w)) eqn:Hc; cbn [negb];
        intros H; injection H as <- <-.
      * split; [exists []; split; [unfold appended; cbn; now rewrite app_nil_r | now left]|].
        split; [intros _; repeat apply conj; [exact Hc | reflexivity | reflexivity]|].
        discriminate.
      * split; [exists [Call_GetTrackingState ovr_Now]; split;
                [reflexivity | right; repeat apply conj; reflexivity]|].
        split; discriminate.
  - unfold getProjectionMatrix.
    destruct (mProjectionCached (rift w)); cbn [negb];
      intros H; injection H as <- <-.
    + split; [exists []; split; [apply nil_step | now left]|].
      split; [intros Hc; repeat apply conj; [exact Hc | reflexivity | reflexivity]|].
      discriminate.
    + split; [exists []; split; [unfold appended; cbn; now rewrite app_nil_r | now left]|].
      split; [intros Hc; repeat apply conj; [exact Hc | reflexivity | reflexivity]|].
      discriminate.
Qed.

(** With the view matrix cached, reads never reach the device. *)
Lemma run_getters_cached (gs : list Getter) :
  forall (w : World) (ms : list glm.mat4) (w' : World),
    mViewMatrixCached (rift w) = true ->
    run_getters sdk glm_inverse gs w = (ms, w') ->
    mViewMatrixCached (rift w') = true
    /\ mViewMatrix (rift w') = mViewMatrix (rift w)
    /\ device w' = device w.
Proof.
  induction gs as [|g rest IH]; cbn [run_getters]; intros w ms w' Hc H.
  - injection H as <- <-. repeat apply conj; [exact Hc | reflexivity | reflexivity].
  - destruct (run_getter sdk glm_inverse g w) as [m w1] eqn:E.
    destruct (run_getters sdk glm_inverse rest w1) as [ms1 w2] eqn:E2.
    injection H as <- <-.
    destruct (run_getter_poll g w m w1 E) as (_ & Hkeep & _).
    destruct (Hkeep Hc) as (Hc1 & Hm1 & Hd1).
    destruct (IH w1 ms1 w2 Hc1 E2) as (Hc2 & Hm2 & Hd2).
    repeat apply conj; [exact Hc2 | now rewrite Hm2 | now rewrite Hd2].
Qed.

(** X12. Between two eye activations the matrices are read from one
    poll of the device: whatever sequence of [getViewMatrix],
    [getInverseViewMatrix] and [getProjectionMatrix] is called, the
    device log grows by at most one [ovrHmd_GetTrackingState], by
    none when the view matrix is already cached, and every
    [getViewMatrix] of the sequence returns the same matrix, the one
    cached at the end. *)
Theorem reads_poll_at_most_once :
  forall (gs : list Getter) (w : World) (ms : list glm.mat4) (w' : World),
    run_getters sdk glm_inverse gs w = (ms, w') ->
    (exists l : list ovrCall,
        calls (device w') = calls (device w) ++ l
        /\ (l = [] \/ l = [Call_GetTrackingState ovr_Now])
        /\ (mViewMatrixCached (rift w) = true -> l = []))
    /\ (forall k : nat,
           nth_error gs k = Some Get_ViewMatrix ->
           nth_error ms k = Some (mViewMatrix (rift w'))).
Proof.
  induction gs as [|g rest IH]; cbn [run_getters]; intros w ms w' H.
  - injection H as <- <-. split.
    + exists []. rewrite app_nil_r. repeat apply conj; auto.
    + intros [|k]; discriminate.
  - destruct (run_getter sdk glm_inverse g w) as [m w1] eqn:E.
    destruct (run_getters sdk glm_inverse rest w1) as [ms1 w2] eqn:E2.
    injection H as <- <-.
    destruct (run_getter_poll g w m w1 E) as ((l1 & Hl1 & Hcase) & Hkeep & Hview).
    destruct (IH w1 ms1 w2 E2) as ((l2 & Hl2 & Hcase2 & Hnone2) & Hreads).
    unfold appended in Hl1. split.
    + exists (l1 ++ l2). split; [now rewrite Hl2, Hl1, app_assoc|].
      destruct Hcase as [-> | (-> & Hc & Hc1)].
      * cbn [app]. split; [exact Hcase2|].
        intros Hc. apply Hnone2. now apply Hkeep.
      * rewrite (Hnone2 Hc1). cbn [app]. split; [now right|].
        intros Hc'. rewrite Hc in Hc'. discriminate Hc'.
    + intros [|k] Hk; cbn [nth_error] in *.
      * injection Hk as ->. destruct (Hview eq_refl) as (Hc1 & ->).
        destruct (run_getters_cached rest w1 ms1 w2 Hc1 E2) as (_ & Hm & _).
        now rewrite Hm.
      * exact (Hreads k Hk).
Qed.

(** X13. The head scale never reaches the translation of the view
    matrix: whatever scale is set, the fourth column of the matrix
    [getViewMatrix] computes is the same. *)
Theorem head_scale_keeps_translation :
  forall (scale : float) (w : World),
    mViewMatrixCached (rift w) = false ->
    glm.m_c3 (fst (getViewMatrix sdk (setHeadScale scale w)))
    = glm.m_c3 (fst (getViewMatrix sdk w)).
Proof.
  intros scale w Hc.
  rewrite (proj1 (getViewMatrix_uncached sdk w Hc)).
  rewrite (proj1 (getViewMatrix_uncached sdk (setHeadScale scale w) Hc)).
  reflexivity.
Qed.

End Reads.

(** The sample application reads the three matrices, the view matrix
    twice, after activating an eye without applying the matrices. *)
Lemma reads_poll_at_most_once_witness :
  exists (w0 w' : World) (ms : list glm.mat4),
    enableEye Fake.sdk 0 false Fake.in_frame = Some w0
    /\ run_getters Fake.sdk Fake.inverse
         [Get_ProjectionMatrix; Get_ViewMatrix; Get_InverseViewMatrix; Get_ViewMatrix] w0
       = (ms, w')
    /\ calls (device w') = calls (device w0) ++ [Call_GetTrackingState ovr_Now]
    /\ nth_error ms 1 = nth_error ms 3.
Proof.
  pose (w0 := default Fake.world0 (enableEye Fake.sdk 0 false Fake.in_frame)).
  pose (r := run_getters Fake.sdk Fake.inverse
               [Get_ProjectionMatrix; Get_ViewMatrix; Get_InverseViewMatrix; Get_ViewMatrix]
               w0).
  assert (Hr : run_getters Fake.sdk Fake.inverse
                 [Get_ProjectionMatrix; Get_ViewMatrix; Get_InverseViewMatrix; Get_ViewMatrix]
                 w0 = (fst r, snd r)) by (apply surjective_pairing).
  destruct (reads_poll_at_most_once Fake.sdk Fake.inverse _ _ _ _ Hr)
    as ((l & Hl & _) & Hreads).
  exists w0, (snd r), (fst r).
  split; [vm_compute; reflexivity|]. split; [exact Hr|]. split.
  - vm_compute. reflexivity.
  - rewrite (Hreads 1%nat eq_refl), (Hreads 3%nat eq_refl). reflexivity.
Defined.

Lemma head_scale_keeps_translation_witness :
  glm.m_c3 (fst (getViewMatrix Fake.sdk (setHeadScale f2 Fake.in_frame)))
  = glm.m_c3 (fst (getViewMatrix Fake.sdk Fake.in_frame))
  /\ glm.m_c0 (fst (getViewMatrix Fake.sdk (setHeadScale f2 Fake.in_frame)))
     <> glm.m_c0 (fst (getViewMatrix Fake.sdk Fake.in_frame)).
Proof.
  split.
  - apply (head_scale_keeps_translation Fake.sdk f2 Fake.in_frame).
    vm_compute. reflexivity.
  - intros H. apply (f_equal glm.x4) in H. vm_compute in H. discriminate H.
Defined.

(** ** The further properties on the sample application *)

Lemma destructor_needs_render_target_witness :
  ~ is_Some (destructor Fake.world0) /\ is_Some (destructor Fake.attached).
Proof.
  destruct (destructor_needs_render_target Fake.sdk Fake.world0) as (Hiff & Hinit & _).
  split.
  - intros H. apply Hiff in H. destruct H as [tb Htb]. vm_compute in Htb. discriminate Htb.
  - apply (Hinit (Some 1%nat) Fake.attached). vm_compute. reflexivity.
Defined.

Lemma consecutive_frames_reuse_target_witness :
  exists w1 w2 w3 : World,
    startDrawFn Fake.sdk Fake.attached = Some w1
    /\ run_ops Fake.sdk Fake.inverse (Op_bind :: rest_of_frame) w1 = Some w2
    /\ startDrawFn Fake.sdk w2 = Some w3
    /\ target_id (rift w3) = Some (0%nat, glm.mkivec2 2000 1100)
    /\ sets_created (calls (device w3)) = 1%nat.
Proof.
  pose (w1 := default Fake.world0 (startDrawFn Fake.sdk Fake.attached)).
  pose (w2 := default Fake.world0
                (run_ops Fake.sdk Fake.inverse (Op_bind :: rest_of_frame) w1)).
  assert (H1 : startDrawFn Fake.sdk Fake.attached = Some w1) by (vm_compute; reflexivity).
  assert (H2 : run_ops Fake.sdk Fake.inverse (Op_bind :: rest_of_frame) w1 = Some w2)
    by (vm_compute; reflexivity).
  destruct (consecutive_frames_reuse_target Fake.sdk Fake.inverse _ _ _ _ H1 H2)
    as (w3 & H3 & _ & Hid & Hsets).
  exists w1, w2, w3.
  split; [exact H1|]. split; [exact H2|]. split; [exact H3|]. split.
  - rewrite Hid. vm_compute. reflexivity.
  - rewrite Hsets. vm_compute. reflexivity.
Defined.



(** X10 on the sample session, whose target ends 2500 wide, and on a
    device asking for two textures [2^30] wide, whose target comes
    out [-2147483648] wide with both viewports [-1073741824] wide. *)
Lemma layer_always_describes_target_witness :
  (exists w' : World,
      run_session Fake.sdk Fake.inverse sample_session Fake.world0 = Some w'
      /\ layer_describes_target (rift w')
      /\ tb_size <$> mRenderBuffer (rift w') = Some (glm.mkivec2 2500 1375)
      /\ Viewport (mLayer (rift w'))
         = (mkRecti (mkVector2i 0 0) (mkSizei 1250 1375),
            mkRecti (mkVector2i 1250 0) (mkSizei 1250 1375)))
  /\ (exists w' : World,
         run_session Fake.sdk_huge Fake.inverse [Do_initialize (Some 1%nat)] Fake.world0
         = Some w'
         /\ layer_describes_target (rift w')
         /\ tb_size <$> mRenderBuffer (rift w') = Some (glm.mkivec2 (-2147483648) 1100)
         /\ Viewport (mLayer (rift w'))
            = (mkRecti (mkVector2i 0 0) (mkSizei (-1073741824) 1100),
               mkRecti (mkVector2i (-1073741824) 0) (mkSizei (-1073741824) 1100))).
Proof.
  split.
  - pose (w' := default Fake.world0
                  (run_session Fake.sdk Fake.inverse sample_session Fake.world0)).
    assert (H : run_session Fake.sdk Fake.inverse sample_session Fake.world0 = Some w')
      by (vm_compute; reflexivity).
    destruct (layer_always_describes_target Fake.sdk Fake.inverse
                sample_session Fake.world0 w'
                (eq_refl : mRenderBuffer (rift Fake.world0) = None) H)
      as (Hlayer & _).
    exists w'. split; [exact H|]. split; [exact Hlayer|].
    split; vm_compute; reflexivity.
  - pose (w' := default Fake.world0
                  (run_session Fake.sdk_huge Fake.inverse [Do_initialize (Some 1%nat)]
                     Fake.world0)).
    assert (H : run_session Fake.sdk_huge Fake.inverse [Do_initialize (Some 1%nat)]
                  Fake.world0 = Some w')
      by (vm_compute; reflexivity).
    destruct (layer_always_describes_target Fake.sdk_huge Fake.inverse
                [Do_initialize (Some 1%nat)] Fake.world0 w'
                (eq_refl : mRenderBuffer (rift Fake.world0) = None) H)
      as (Hlayer & _).
    exists w'. split; [exact H|]. split; [exact Hlayer|].
    split; vm_compute; reflexivity.
Defined.

Lemma capabilities_never_change_witness :
  exists w' : World,
    run_session Fake.sdk Fake.inverse sample_session Fake.world0 = Some w'
    /\ mHmdCaps (rift w') = 640
    /\ caps_sent (calls (device w')) = [640; 640].
Proof.
  pose (w' := default Fake.world0
                (run_session Fake.sdk Fake.inverse sample_session Fake.world0)).
  assert (H : run_session Fake.sdk Fake.inverse sample_session Fake.world0 = Some w')
    by (vm_compute; reflexivity).
  destruct (capabilities_never_change Fake.sdk Fake.inverse _ _ _ H) as (Hcaps & _).
  exists w'. split; [exact H|]. split; [rewrite Hcaps; reflexivity|].
  vm_compute. reflexivity.
Defined.

(** ** The inverse view matrix *)

Lemma inverse_consistent_same_caches (glm_inverse : glm.mat4 -> glm.mat4)
      (r r' : OculusRift) :
  mInverseViewMatrixCached r' = mInverseViewMatrixCached r ->
  mViewMatrixCached r' = mViewMatrixCached r ->
  mInverseViewMatrix r' = mInverseViewMatrix r ->
  mViewMatrix r' = mViewMatrix r ->
  inverse_consistent glm_inverse r -> inverse_consistent glm_inverse r'.
Proof.
  intros H1 H2 H3 H4 H. unfold inverse_consistent. rewrite H1, H2, H3, H4. exact H.
Qed.

Section Inverse.

Variable sdk : VendorSDK.
Variable glm_inverse : glm.mat4 -> glm.mat4.

Lemma getViewMatrix_caches (w : World) :
  mViewMatrixCached (rift (snd (getViewMatrix sdk w))) = true
  /\ mViewMatrix (rift (snd (getViewMatrix sdk w))) = fst (getViewMatrix sdk w)
  /\ mInverseViewMatrixCached (rift (snd (getViewMatrix sdk w)))
     = mInverseViewMatrixCached (rift w)
  /\ mInverseViewMatrix (rift (snd (getViewMatrix sdk w))) = mInverseViewMatrix (rift w)
  /\ (mViewMatrixCached (rift w) = true ->
      mViewMatrix (rift (snd (getViewMatrix sdk w))) = mViewMatrix (rift w)).
Proof.
  unfold getViewMatrix, isTracked.
  destruct (mViewMatrixCached (rift w)) eqn:Hc; cbn [negb fst snd].
  - repeat apply conj; first [exact Hc | reflexivity].
  - repeat apply conj; first [reflexivity | discriminate].
Qed.

Lemma getViewMatrix_consistent (w : World) :
  inverse_consistent glm_inverse (rift w) ->
  inverse_consistent glm_inverse (rift (snd (getViewMatrix sdk w))).
Proof.
  intros H. destruct (getViewMatrix_caches w) as (Hc & Hm & Hic & Him & Hkeep).
  intros Hi. rewrite Hic in Hi. destruct (H Hi) as (Hv & Hinv).
  split; [exact Hc|]. now rewrite Him, (Hkeep Hv).
Qed.

Lemma getInverseViewMatrix_consistent (w : World) :
  inverse_consistent glm_inverse (rift w) ->
  inverse_consistent glm_inverse (rift (snd (getInverseViewMatrix sdk glm_inverse w))).
Proof.
  intros H. unfold getInverseViewMatrix.
  destruct (mInverseViewMatrixCached (rift w)) eqn:Hi; cbn [negb]; [exact H|].
  destruct (getViewMatrix_caches w) as (Hc & Hm & _).
  destruct (getViewMatrix sdk w) as [view w1]. cbn [fst snd] in *.
  intros _. split; [exact Hc|]. cbn. now rewrite Hm.
Qed.

Lemma getProjectionMatrix_consistent (w : World) :
  inverse_consistent glm_inverse (rift w) ->
  inverse_consistent glm_inverse (rift (snd (getProjectionMatrix w))).
Proof.
  unfold getProjectionMatrix.
  destruct (mProjectionCached (rift w)); cbn [negb fst snd]; [exact (fun H => H)|].
  apply inverse_consistent_same_caches; reflexivity.
Qed.

Lemma run_op_consistent (op : FrameOp) (w w' : World) :
  run_op sdk glm_inverse op w = Some w' ->
  inverse_consistent glm_inverse (rift w) ->
  inverse_consistent glm_inverse (rift w').
Proof.
  destruct op; cbn [run_op]; intros H.
  - intros _ Hi.
    destruct (enableEye_fresh sdk glm_inverse _ _ _ _ H) as (_ & (Hflag & _) & _).
    rewrite Hflag in Hi. discriminate Hi.
  - injection H as <-. apply getViewMatrix_consistent.
  - injection H as <-. apply getInverseViewMatrix_consistent.
  - injection H as <-. apply getProjectionMatrix_consistent.
  - injection H as <-. apply inverse_consistent_same_caches; reflexivity.
  - injection H as <-. apply inverse_consistent_same_caches; reflexivity.
  - unfold setMirrorPercentage in H.
    destruct (fgtb sp f0); [|discriminate]. injection H as <-.
    apply inverse_consistent_same_caches; reflexivity.
  - injection H as <-. unfold enableMirrored.
    destruct (negb _); [|exact (fun H => H)].
    apply inverse_consistent_same_caches; reflexivity.
  - injection H as <-. apply inverse_consistent_same_caches; reflexivity.
  - injection H as <-. apply inverse_consistent_same_caches; reflexivity.
  - unfold bind in H. destruct (mRenderBuffer (rift w)) as [tb|].
    + destruct (Z.eqb _ 0); [discriminate|]. injection H as <-.
      apply inverse_consistent_same_caches; reflexivity.
    + injection H as <-. exact (fun H => H).
  - injection H as <-. unfold unbind.
    destruct (mRenderBuffer (rift w)); [|exact (fun H => H)].
    apply inverse_consistent_same_caches; reflexivity.
  - injection H as <-. apply inverse_consistent_same_caches; reflexivity.
Qed.

Lemma run_ops_consistent (ops : list FrameOp) :
  forall w w' : World,
    run_ops sdk glm_inverse ops w = Some w' ->
    inverse_consistent glm_inverse (rift w) ->
    inverse_consistent glm_inverse (rift w').
Proof.
  induction ops as [|op rest IH]; cbn [run_ops]; intros w w' H Hc.
  - injection H as <-. exact Hc.
  - destruct (run_op sdk glm_inverse op w) as [w1|] eqn:E; [|discriminate].
    cbn [mbind option_bind] in H.
    exact (IH _ _ H (run_op_consistent _ _ _ E Hc)).
Qed.

(** X14. Once an eye has been activated, the inverse view matrix the
    session returns is always the inverse of the view matrix it
    returns, whatever has been called on the session since (more
    activations, reads, setters such as [setHeadScale], binding,
    submitting): the two caches go stale together, never apart. *)
Theorem inverse_view_stays_consistent :
  forall (ops : list FrameOp) (eyeIndex : Z) (applyMatrices : bool) (w w0 w1 : World),
    enableEye sdk eyeIndex applyMatrices w = Some w0 ->
    run_ops sdk glm_inverse ops w0 = Some w1 ->
    fst (getInverseViewMatrix sdk glm_inverse w1)
    = glm_inverse (fst (getViewMatrix sdk w1)).
Proof.
  intros ops eyeIndex applyMatrices w w0 w1 He Hops.
  assert (H0 : inverse_consistent glm_inverse (rift w0)).
  { destruct (enableEye_fresh sdk glm_inverse _ _ _ _ He) as (_ & (Hflag & _) & _).
    intros Hi. rewrite Hflag in Hi. discriminate Hi. }
  pose proof (run_ops_consistent ops w0 w1 Hops H0) as H1.
  destruct (mInverseViewMatrixCached (rift w1)) eqn:Hi.
  - destruct (H1 Hi) as (Hv & Hinv).
    rewrite (getViewMatrix_cached sdk w1 Hv). cbn [fst].
    unfold getInverseViewMatrix. rewrite Hi. cbn [negb fst]. exact Hinv.
  - apply getInverseViewMatrix_uncached. exact Hi.
Qed.

End Inverse.

Lemma inverse_view_stays_consistent_witness :
  exists w0 w1 : World,
    enableEye Fake.sdk 0 true Fake.in_frame = Some w0
    /\ run_ops Fake.sdk Fake.inverse
         [Op_getInverseViewMatrix; Op_setHeadScale f2; Op_getViewMatrix] w0 = Some w1
    /\ fst (getInverseViewMatrix Fake.sdk Fake.inverse w1)
       = Fake.inverse (fst (getViewMatrix Fake.sdk w1)).
Proof.
  pose (w0 := default Fake.world0 (enableEye Fake.sdk 0 true Fake.in_frame)).
  pose (ops := [Op_getInverseViewMatrix; Op_setHeadScale f2; Op_getViewMatrix]).
  pose (w1 := default Fake.world0 (run_ops Fake.sdk Fake.inverse ops w0)).
  assert (H0 : enableEye Fake.sdk 0 true Fake.in_frame = Some w0)
    by (vm_compute; reflexivity).
  assert (H1 : run_ops Fake.sdk Fake.inverse ops w0 = Some w1) by (vm_compute; reflexivity).
  exists w0, w1. split; [exact H0|]. split; [exact H1|].
  exact (inverse_view_stays_consistent Fake.sdk Fake.inverse ops 0 true
           Fake.in_frame w0 w1 H0 H1).
Defined.
